(** * smartcli: the suggestion pipeline, embedded in Rocq

    A shallow embedding of the Python back end of smartcli
    (backend/retriever.py, backend/ranker.py, backend/safety.py,
    backend/error_fixes.py, backend/suggestion_engine.py) together with
    the properties claimed for it.

    Conventions of the embedding.
    - Python [str] is [string]; the text handled is taken to be ASCII, so
      [str.lower] only touches [A-Z] and the white space of [str.strip]
      and of the regular expression class [\s] is the ASCII white space.
    - Python [float] and NumPy [float32] are the rationals [Q]: arithmetic
      is exact, there is no rounding and no NaN.
    - A method that mutates [self] is a function from the state before
      to an outcome and the state after; an exception keeps the mutations
      made before it was raised, as in Python.
    - What lies outside the code is modelled by what the code relies on:
      the embedding model by the vector it gives a text, the flat L2
      index of faiss by its list of vectors, the two persisted files by
      their content, and [re] by a matcher for the patterns the sources
      write (and by an engine left open where the patterns are data). *)

From Stdlib Require Import List Bool Arith ZArith QArith Qminmax Lia Lqa.
From Stdlib Require Import Ascii String Permutation Sorted.
From stdpp Require Import base gmap strings.
Import ListNotations.

Local Open Scope string_scope.

(* ===================================================================== *)
(** ** Python built-ins used by the code *)
(* ===================================================================== *)

Module Py.

(** Outcome of a call: a value, or a raised exception. *)
Inductive exn : Type :=
| ValueError (msg : string)
| RuntimeError (msg : string)
| AssertionError
| IndexError
| TypeError
| OSError.

Inductive result (A : Type) : Type :=
| Ok (a : A)
| Raise (e : exn).
Arguments Ok {A} a.
Arguments Raise {A} e.

(** [c.isupper()] for an ASCII character. *)
Definition is_upper (c : ascii) : bool :=
  let n := nat_of_ascii c in (65 <=? n)%nat && (n <=? 90)%nat.

Definition lower_char (c : ascii) : ascii :=
  if is_upper c then ascii_of_nat (nat_of_ascii c + 32) else c.

(** [s.lower()]. *)
Fixpoint lower (s : string) : string :=
  match s with
  | EmptyString => EmptyString
  | String c s' => String (lower_char c) (lower s')
  end.

(** [s.isascii()]: every character is below 128.  The statements that
    depend on [str.lower] or on [re.IGNORECASE] being those of ASCII
    text carry it as a hypothesis. *)
Fixpoint isascii (s : string) : bool :=
  match s with
  | EmptyString => true
  | String c s' => (nat_of_ascii c <? 128)%nat && isascii s'
  end.

(** [c.isspace()]: tab, line feed, vertical tab, form feed, carriage
    return, the four separators 28..31 and the blank. *)
Definition is_space (c : ascii) : bool :=
  let n := nat_of_ascii c in
  ((9 <=? n)%nat && (n <=? 13)%nat) || ((28 <=? n)%nat && (n <=? 32)%nat).

Fixpoint lstrip (s : string) : string :=
  match s with
  | EmptyString => EmptyString
  | String c s' => if is_space c then lstrip s' else s
  end.

Fixpoint rstrip (s : string) : string :=
  match s with
  | EmptyString => EmptyString
  | String c s' =>
      match rstrip s' with
      | EmptyString => if is_space c then EmptyString else String c EmptyString
      | r => String c r
      end
  end.

(** [s.strip()]. *)
Definition strip (s : string) : string := rstrip (lstrip s).

(** [s.lstrip(".")]. *)
Fixpoint lstrip_dots (s : string) : string :=
  match s with
  | String "." s' => lstrip_dots s'
  | _ => s
  end.

(** [s.startswith(p)]. *)
Definition startswith (s p : string) : bool := String.prefix p s.

(** [p in s] on strings: [p] occurs in [s] as a substring. *)
Fixpoint str_in (p s : string) : bool :=
  String.prefix p s
  || match s with
     | EmptyString => false
     | String _ s' => str_in p s'
     end.

(** [s.split(",")]: the fields between the commas, empty ones kept. *)
Fixpoint split_comma (s : string) : list string :=
  match s with
  | EmptyString => [EmptyString]
  | String c s' =>
      match split_comma s' with
      | [] => [String c EmptyString]
      | f :: fs => if Ascii.eqb c "," then EmptyString :: f :: fs
                   else String c f :: fs
      end
  end.

(** [" ".join(parts)]. *)
Fixpoint join_space (parts : list string) : string :=
  match parts with
  | [] => EmptyString
  | [p] => p
  | p :: ps => String.append p (String " " (join_space ps))
  end.

(** [any(f(x) for x in l)]. *)
Definition any {A : Type} (f : A -> bool) (l : list A) : bool := existsb f l.

(** [l[:n]]: a negative stop counts from the end of the list. *)
Definition slice_to {A : Type} (n : Z) (l : list A) : list A :=
  if (0 <=? n)%Z then firstn (Z.to_nat n) l
  else firstn (List.length l - Z.to_nat (- n)) l.

(** [sorted(l, key=key, reverse=True)]: Python's sort is stable, and
    stays so under [reverse=True]; this insertion sort gives the same
    list.  The head of the list is put back in front of the first
    element whose key is not greater than its own. *)
Section Sorted.
Context {A : Type} (key : A -> Q).

Fixpoint insert_desc (x : A) (l : list A) : list A :=
  match l with
  | [] => [x]
  | y :: l' => if Qle_bool (key y) (key x) then x :: y :: l'
               else y :: insert_desc x l'
  end.

Fixpoint sorted_desc (l : list A) : list A :=
  match l with
  | [] => []
  | x :: l' => insert_desc x (sorted_desc l')
  end.

(** Vocabulary for the statements about sorted lists: the keys never
    increase along the list, and the elements whose key is [v]. *)
Definition descending (l : list A) : Prop :=
  StronglySorted (fun a b => (key b <= key a)%Q) l.

Definition tied (v : Q) (l : list A) : list A :=
  List.filter (fun a => Qeq_bool (key a) v) l.
End Sorted.

End Py.

(* ===================================================================== *)
(** ** Regular expressions: the fragment of Python's [re] the code uses *)
(* ===================================================================== *)

(** Every pattern written in the sources is an alternation of sequences
    of single-character atoms, each atom optionally under [*] or [+],
    together with the two zero-width assertions [^] and [\b].  Patterns
    are kept as the strings the sources write and parsed here. *)
Module Re.

Inductive atom : Type :=
| Lit (c : ascii)            (* the character itself *)
| AnyChar                    (* [.] : anything but a line feed *)
| Space                      (* [\s] *)
| Class (cs : list ascii)    (* [[rf]] *)
| WordBoundary               (* [\b] *)
| LineStart.                 (* [^] *)

Inductive quant : Type := Once | ZeroOrMore | OneOrMore.

Definition piece : Type := atom * quant.
Definition branch : Type := list piece.
Definition regex : Type := list branch.

Definition consumes (a : atom) : bool :=
  match a with
  | WordBoundary | LineStart => false
  | _ => true
  end.

(** *** Parsing *)

Inductive mode : Type :=
| Normal
| Escaped
| InClass (acc : list ascii).

Definition is_word (c : ascii) : bool :=
  let n := nat_of_ascii c in
  ((48 <=? n)%nat && (n <=? 57)%nat) || ((65 <=? n)%nat && (n <=? 90)%nat)
  || ((97 <=? n)%nat && (n <=? 122)%nat) || (n =? 95)%nat.

(** Puts a repetition on the last piece read; there must be one, it
    must consume a character and it must not be repeated already. *)
Definition repeat_last (q : quant) (cur : list piece) : option (list piece) :=
  match cur with
  | (a, Once) :: cur' => if consumes a then Some ((a, q) :: cur') else None
  | _ => None
  end.

(** [cur] is the branch being read and [alts] the branches read, both
    in reverse.  [None]: the pattern is not in the fragment. *)
Fixpoint parse_from (s : string) (m : mode) (alts : list branch)
    (cur : list piece) : option regex :=
  match s with
  | EmptyString =>
      match m with
      | Normal => Some (rev (rev cur :: alts))
      | _ => None
      end
  | String c s' =>
      match m with
      | Normal =>
          if Ascii.eqb c "\" then parse_from s' Escaped alts cur
          else if Ascii.eqb c "." then parse_from s' Normal alts ((AnyChar, Once) :: cur)
          else if Ascii.eqb c "^" then parse_from s' Normal alts ((LineStart, Once) :: cur)
          else if Ascii.eqb c "[" then parse_from s' (InClass []) alts cur
          else if Ascii.eqb c "|" then parse_from s' Normal (rev cur :: alts) []
          else if Ascii.eqb c "*" then
            match repeat_last ZeroOrMore cur with
            | Some cur' => parse_from s' Normal alts cur'
            | None => None
            end
          else if Ascii.eqb c "+" then
            match repeat_last OneOrMore cur with
            | Some cur' => parse_from s' Normal alts cur'
            | None => None
            end
          else if existsb (Ascii.eqb c) ["("; ")"; "?"; "{"; "}"; "$"; "]"]%char
          then None
          else parse_from s' Normal alts ((Lit c, Once) :: cur)
      | Escaped =>
          if Ascii.eqb c "s" then parse_from s' Normal alts ((Space, Once) :: cur)
          else if Ascii.eqb c "b" then parse_from s' Normal alts ((WordBoundary, Once) :: cur)
          else if is_word c then None
          else parse_from s' Normal alts ((Lit c, Once) :: cur)
      | InClass acc =>
          if Ascii.eqb c "]" then
            match acc with
            | [] => None
            | _ => parse_from s' Normal alts ((Class (rev acc), Once) :: cur)
            end
          else if existsb (Ascii.eqb c) ["\"; "^"; "-"; "["]%char then None
          else parse_from s' (InClass (c :: acc)) alts cur
      end
  end.

Definition parse (pattern : string) : option regex :=
  parse_from pattern Normal [] [].

(** *** Matching *)

Definition same_char (ignorecase : bool) (c l : ascii) : bool :=
  if ignorecase then Ascii.eqb (Py.lower_char c) (Py.lower_char l)
  else Ascii.eqb c l.

(** Does the atom accept the character [c]? *)
Definition accepts (ignorecase : bool) (a : atom) (c : ascii) : bool :=
  match a with
  | Lit l => same_char ignorecase c l
  | AnyChar => negb (Ascii.eqb c "010")
  | Space => Py.is_space c
  | Class cs => existsb (same_char ignorecase c) cs
  | WordBoundary | LineStart => false
  end.

Definition word_at (c : option ascii) : bool :=
  match c with
  | Some c => is_word c
  | None => false
  end.

Definition next_char (s : string) : option ascii :=
  match s with
  | EmptyString => None
  | String c _ => Some c
  end.

(** Does the assertion hold between [prev] and the text [s] that
    follows? *)
Definition holds_at (a : atom) (prev : option ascii) (s : string) : bool :=
  match a with
  | LineStart => match prev with None => true | Some _ => false end
  | WordBoundary => xorb (word_at prev) (word_at (next_char s))
  | _ => false
  end.

(** [match_here ps prev s]: the pieces [ps] match a prefix of [s],
    [prev] being the character before [s]. *)
Fixpoint match_here (ignorecase : bool) (ps : branch) (prev : option ascii)
    (s : string) {struct ps} : bool :=
  match ps with
  | [] => true
  | (a, q) :: ps' =>
      let many :=
        fix many (prev : option ascii) (s : string) {struct s} : bool :=
          match_here ignorecase ps' prev s
          || match s with
             | EmptyString => false
             | String c s' =>
                 if accepts ignorecase a c then many (Some c) s' else false
             end in
      match q with
      | Once =>
          if consumes a then
            match s with
            | EmptyString => false
            | String c s' =>
                accepts ignorecase a c && match_here ignorecase ps' (Some c) s'
            end
          else holds_at a prev s && match_here ignorecase ps' prev s
      | ZeroOrMore => many prev s
      | OneOrMore =>
          match s with
          | EmptyString => false
          | String c s' => accepts ignorecase a c && many (Some c) s'
          end
      end
  end.

(** Some branch matches at the start of [s], or further on. *)
Fixpoint search_from (ignorecase : bool) (r : regex) (prev : option ascii)
    (s : string) : bool :=
  existsb (fun ps => match_here ignorecase ps prev s) r
  || match s with
     | EmptyString => false
     | String c s' => search_from ignorecase r (Some c) s'
     end.

(** [re.search(pattern, text)] as a truth value, and
    [re.search(pattern, text, re.IGNORECASE)] when [ignorecase] is set;
    [None] when the pattern is refused. *)
Definition search (ignorecase : bool) (pattern text : string) : option bool :=
  match parse pattern with
  | Some r => Some (search_from ignorecase r None text)
  | None => None
  end.

(** In the statements: the pattern is ASCII text and lies in the
    fragment read by [parse].  Python's [re] compiles every such
    pattern, with the meaning given here; it also compiles patterns
    outside the fragment (groups, [?], [{m,n}], [$], [\d], inline
    flags), of which nothing is said. *)
Definition in_fragment (pattern : string) : bool :=
  Py.isascii pattern
  && match parse pattern with
     | Some _ => true
     | None => false
     end.

(** [search] where the pattern is one of the constants of the code. *)
Definition found (ignorecase : bool) (pattern text : string) : bool :=
  match search ignorecase pattern text with
  | Some b => b
  | None => false
  end.

End Re.

(* ===================================================================== *)
(** ** backend/safety.py *)
(* ===================================================================== *)

Module Safety.

Inductive SafetyLevel : Type := SAFE | WARNING | DANGEROUS.

(** The dictionary [check_command] returns. *)
Record assessment : Type := {
  level : SafetyLevel;
  warning : option string;
  reasons : list string
}.

(** The class constants, the dictionary in its insertion order. *)
Definition DESTRUCTIVE_COMMANDS : list (string * list string) :=
  [ ("rm", ["rm -rf"; "rm -fr"; "rm -r"; "rm -f"]);
    ("dd", ["dd if="; "dd of="]);
    ("mkfs", ["mkfs."; "mkfs "]);
    ("fdisk", ["fdisk"]);
    ("parted", ["parted"]);
    (">", ["> /dev/"]);
    ("format", ["format"]);
    ("shred", ["shred"]);
    ("wipefs", ["wipefs"]) ].

Definition SUDO_DANGEROUS_PATTERNS : list string :=
  [ "sudo\s+rm\s+-[rf]+";
    "sudo\s+dd";
    "sudo\s+mkfs";
    "sudo\s+chmod\s+-R\s+777";
    "sudo\s+chown\s+-R" ].

Definition CRITICAL_PATHS : list string :=
  [ "/"; "/bin"; "/boot"; "/dev"; "/etc"; "/lib"; "/proc"; "/root";
    "/sbin"; "/sys"; "/usr"; "/var" ].

(** The five detection passes of [check_command], each giving the
    reasons it appends. *)

Definition destructive_reasons (command_lower : string) : list string :=
  flat_map
    (fun entry : string * list string =>
       flat_map
         (fun pattern =>
            if Py.str_in pattern command_lower
            then [String.append "Contains destructive pattern: " pattern]
            else [])
         (snd entry))
    DESTRUCTIVE_COMMANDS.

Definition sudo_reasons (command_lower : string) : list string :=
  flat_map
    (fun pattern =>
       if Re.found false pattern command_lower
       then ["Dangerous sudo command detected"]
       else [])
    SUDO_DANGEROUS_PATTERNS.

Definition critical_path_reasons (command command_lower : string) : list string :=
  flat_map
    (fun critical_path =>
       if Py.str_in (String " " critical_path) command
          || Py.startswith command critical_path
       then
         if Py.any (fun dangerous => Py.str_in dangerous command_lower)
              ["rm"; "dd"; "mkfs"; ">"]
         then [String.append "Destructive operation on critical path: "
                 critical_path]
         else []
       else [])
    CRITICAL_PATHS.

Definition preserve_root_reasons (command_lower : string) : list string :=
  if Py.str_in "--no-preserve-root" command_lower
  then ["Bypasses root protection (--no-preserve-root)"]
  else [].

Definition forced_reasons (command command_lower : string) : list string :=
  if Py.str_in "sudo" command_lower
     && (Py.str_in "-f" command || Py.str_in "--force" command)
  then
    if Py.any (fun cmd => Py.str_in cmd command_lower) ["rm"; "mkfs"; "dd"]
    then ["Forced system operation"]
    else []
  else [].

Definition DANGEROUS_TEXT : string :=
  "⚠️  DANGEROUS: This command could cause data loss or system damage!".

Definition WARNING_TEXT : string :=
  "⚠️  WARNING: This command could be destructive. Use with caution.".

Definition check_command (command : string) : assessment :=
  let command_lower := Py.lower (Py.strip command) in
  let reasons :=
    (destructive_reasons command_lower
     ++ sudo_reasons command_lower
     ++ critical_path_reasons command command_lower
     ++ preserve_root_reasons command_lower
     ++ forced_reasons command command_lower)%list in
  match reasons with
  | _ :: _ =>
      if Py.any (fun indicator => Py.str_in indicator command_lower)
           ["rm -rf /"; "dd of=/dev/sda"; "mkfs."]
      then {| level := DANGEROUS; warning := Some DANGEROUS_TEXT;
              reasons := reasons |}
      else {| level := WARNING; warning := Some WARNING_TEXT;
              reasons := reasons |}
  | [] => {| level := SAFE; warning := None; reasons := reasons |}
  end.

Definition is_safe (command : string) : bool :=
  match level (check_command command) with
  | SAFE => true
  | _ => false
  end.

Definition get_warning_message (command : string) : option string :=
  warning (check_command command).

End Safety.

(* ===================================================================== *)
(** ** The dictionaries passed between the components *)
(* ===================================================================== *)

Module Model.

(** The value of ["git_info"] in a context. *)
Record git_info : Type := {
  is_git_repo : bool;
  branch : option string;
  has_uncommitted_changes : option bool;
  remote_url : option string
}.

(** The dictionary [ContextExtractor.extract_context] builds.  The
    extractor reads the file system and runs git; its result is an
    input here.  [file_types] is the dictionary extension -> count in
    its iteration order.  The key [env_hints], which nothing after the
    extractor reads, is left out. *)
Record context : Type := {
  cwd : string;
  cwd_basename : string;
  last_command : option string;
  last_exit_code : option Z;
  recent_commands : list string;
  git : git_info;
  file_types : list (string * nat);
  directory_type : string
}.

(** An entry of the list [Retriever.search] returns. *)
Record candidate : Type := {
  command : string;
  score : Q;
  rank : nat
}.

(** A candidate once [Ranker.rank] has added its three keys, and
    [get_suggestions] the key ["safety"]. *)
Record suggestion : Type := {
  entry : candidate;
  context_score : Q;
  final_score : Q;
  semantic_score : Q;
  safety : option Safety.assessment
}.

End Model.

(* ===================================================================== *)
(** ** backend/ranker.py *)
(* ===================================================================== *)

Module Ranker.

Local Open Scope Q_scope.

(** [self.context_weights]. *)
Definition semantic_similarity : Q := 0.5.
Definition git_match : Q := 0.15.
Definition directory_type_match : Q := 0.15.
Definition file_type_match : Q := 0.10.
Definition recency : Q := 0.10.

Definition git_patterns : list string :=
  [ "^git\s"; "\bgit\s"; "git commit"; "git push"; "git pull";
    "git checkout"; "git branch"; "git status"; "git add"; "git diff";
    "git log"; "git merge"; "git rebase" ].

Definition _is_git_command (command : string) : bool :=
  Py.any (fun pattern => Re.found true pattern command) git_patterns.

Definition type_patterns : gmap string (list string) :=
  list_to_map
    [ ("python", ["\bpython\b"; "\bpip\b"; "\bpytest\b"; "\.py\b";
                  "\bvenv\b"; "\bconda\b"; "\bpoetry\b"]);
      ("node", ["\bnpm\b"; "\bnode\b"; "\byarn\b"; "\bpnpm\b";
                "package\.json"; "\.js\b"; "\.ts\b"]);
      ("rust", ["\bcargo\b"; "\brushc\b"; "\.rs\b"]);
      ("go", ["\bgo\s"; "\.go\b"; "go mod"; "go build"; "go test"]);
      ("java", ["\bmvn\b"; "\bgradle\b"; "\.java\b"; "\.jar\b";
                "\bjavac\b"]);
      ("docker", ["\bdocker\b"; "docker-compose"; "dockerfile";
                  "\.dockerfile\b"]) ].

(** The loop over [dir_type.split(",")], leaving at the first type
    one of whose patterns is found. *)
Definition _matches_directory_type (command dir_type : string) : bool :=
  Py.any
    (fun dtype =>
       let patterns := default [] (type_patterns !! Py.strip dtype) in
       Py.any (fun pattern => Re.found true pattern command) patterns)
    (Py.split_comma dir_type).

(** The loop over [file_types.keys()]. *)
Definition _matches_file_types (command : string)
    (file_types : list (string * nat)) : bool :=
  let command_lower := Py.lower command in
  Py.any
    (fun ext =>
       if String.eqb ext "no_extension" then false
       else
         let ext_name := Py.lstrip_dots ext in
         Py.str_in ext_name command_lower || Py.str_in ext command_lower)
    (map fst file_types).

Definition _compute_context_score (candidate : Model.candidate)
    (context : Model.context) : Q :=
  let score := 0 in
  let command := Model.command candidate in
  let score :=
    if Model.is_git_repo (Model.git context) && _is_git_command command
    then score + git_match / (1 - semantic_similarity)
    else score in
  let dir_type := Model.directory_type context in
  let score :=
    if negb (String.eqb dir_type "") && negb (String.eqb dir_type "general")
       && _matches_directory_type command dir_type
    then score + directory_type_match / (1 - semantic_similarity)
    else score in
  let file_types := Model.file_types context in
  let score :=
    if negb (Nat.eqb (List.length file_types) 0)
       && _matches_file_types command file_types
    then score + file_type_match / (1 - semantic_similarity)
    else score in
  Qmin score 1.

(** The body of the scoring loop of [rank] for one candidate. *)
Definition score_candidate (context : Model.context)
    (candidate : Model.candidate) : Model.suggestion :=
  let context_score := _compute_context_score candidate context in
  let semantic_score := Model.score candidate in
  let final_score :=
    semantic_similarity * semantic_score
    + (1 - semantic_similarity) * context_score in
  {| Model.entry := candidate;
     Model.context_score := context_score;
     Model.final_score := final_score;
     Model.semantic_score := semantic_score;
     Model.safety := None |}.

(** In the statements: the value the specification gives for
    [final_score]. *)
Definition blended (s : Model.suggestion) : Q :=
  0.5 * Model.semantic_score s + 0.5 * Model.context_score s.

Definition rank (candidates : list Model.candidate)
    (context : Model.context) (max_results : Z) : list Model.suggestion :=
  match candidates with
  | [] => []
  | _ =>
      let scored := map (score_candidate context) candidates in
      let ranked := Py.sorted_desc Model.final_score scored in
      Py.slice_to max_results ranked
  end.

End Ranker.

(* ===================================================================== *)
(** ** backend/embedder.py *)
(* ===================================================================== *)

Module Embedder.

Definition vector : Type := list Q.

(** The tokenizer and the ONNX session are outside the code: the
    embedder is given by what they compute for one text, mean pooling
    and normalisation included.  With [batch_size = 1] the method
    [embed] sends the texts through one by one. *)
Record t : Type := { embed_text : string -> vector }.

Definition get_embedding_dim (self : t) : nat := 384.

Definition embed (self : t) (texts : list string) : list vector :=
  map (embed_text self) texts.

Definition _context_to_string (context : Model.context) : string :=
  let parts :=
    ((if negb (String.eqb (Model.directory_type context) "")
      then [String.append "type:" (Model.directory_type context)] else [])
     ++ (if Model.is_git_repo (Model.git context) then ["git"] else [])
     ++ (if negb (String.eqb (Model.cwd_basename context) "")
         then [String.append "dir:" (Model.cwd_basename context)] else []))%list in
  Py.join_space parts.

Definition embed_command (self : t) (command : string)
    (context : option Model.context) : vector :=
  let text :=
    match context with
    | Some c => command ++ " [Context: " ++ _context_to_string c ++ "]"
    | None => command
    end in
  embed_text self text.

End Embedder.

(* ===================================================================== *)
(** ** faiss.IndexFlatL2, as far as the retriever uses it *)
(* ===================================================================== *)

(** The library is not part of the code.  Its flat L2 index keeps the
    vectors in the order they were added and, on a search, reports for
    the [k] nearest of them the SQUARED Euclidean distance to the query
    and the position, nearest first; it refuses [k <= 0].  Vectors at
    the same distance are reported in the order they were added. *)
Module Faiss.

Local Open Scope Q_scope.

Record IndexFlatL2 : Type := {
  d : nat;
  xb : list Embedder.vector
}.

Definition new (dimension : nat) : IndexFlatL2 :=
  {| d := dimension; xb := [] |}.

Definition ntotal (index : IndexFlatL2) : nat := List.length (xb index).

Definition add (index : IndexFlatL2) (x : list Embedder.vector) : IndexFlatL2 :=
  {| d := d index; xb := (xb index ++ x)%list |}.

(** The squared Euclidean distance: the sum of [(x_i - y_i)^2]. *)
Definition sqdist (x y : Embedder.vector) : Q :=
  fold_right Qplus 0
    (map (fun p : Q * Q => (fst p - snd p) * (fst p - snd p)) (combine x y)).

(** [index.search(x, k)] for one query: the row of distances and the
    row of positions.  The wrapper of faiss asserts [k > 0], as here,
    and that the query has the dimension [d] of the index, which is
    left to the statements: those about a search on an index that need
    not hold the embedder's own vectors take it as a hypothesis. *)
Definition search (index : IndexFlatL2) (x : Embedder.vector) (k : Z)
    : Py.result (list Q * list nat) :=
  if (k <=? 0)%Z then Py.Raise Py.AssertionError
  else
    let table :=
      combine (map (sqdist x) (xb index)) (seq 0 (ntotal index)) in
    let nearest :=
      firstn (Z.to_nat k)
        (Py.sorted_desc (fun p : Q * nat => - fst p) table) in
    Py.Ok (map fst nearest, map snd nearest).

End Faiss.

(* ===================================================================== *)
(** ** backend/retriever.py *)
(* ===================================================================== *)

Module Retriever.

Local Open Scope Q_scope.

(** A value of the dictionary [self.metadata]. *)
Inductive meta_value : Type :=
| MInt (n : Z)
| MStr (s : string).

(** The attributes of a [Retriever]. *)
Record t : Type := {
  index : option Faiss.IndexFlatL2;
  commands : list string;
  metadata : gmap string meta_value;
  embedder : Embedder.t;
  dimension : nat
}.

Definition set_index (self : t) (i : Faiss.IndexFlatL2) : t :=
  {| index := Some i; commands := commands self;
     metadata := metadata self; embedder := embedder self;
     dimension := dimension self |}.

Definition set_commands (self : t) (cs : list string) : t :=
  {| index := index self; commands := cs;
     metadata := metadata self; embedder := embedder self;
     dimension := dimension self |}.

Definition set_metadata (self : t) (m : gmap string meta_value) : t :=
  {| index := index self; commands := commands self;
     metadata := m; embedder := embedder self;
     dimension := dimension self |}.

(** What a file of the persisted pair can be: absent, present with a
    content that cannot be read back, or holding a value. *)
Inductive file (A : Type) : Type :=
| Missing
| Unreadable
| Stored (a : A).
Arguments Missing {A}.
Arguments Unreadable {A}.
Arguments Stored {A} a.

(** The JSON object of the sidecar; a key can be absent. *)
Record sidecar : Type := {
  json_commands : option (list string);
  json_metadata : option (gmap string meta_value)
}.

(** The two paths of backend/config.py, and whether writing to them
    succeeds. *)
Record disk : Type := {
  FAISS_INDEX_PATH : file Faiss.IndexFlatL2;
  METADATA_PATH : file sidecar;
  writable : bool
}.

(** A retriever and the disk it persists to. *)
Record world : Type := {
  self : t;
  fs : disk
}.

Definition with_self (w : world) (r : t) : world :=
  {| self := r; fs := fs w |}.

(** A method: from the world before to its outcome and the world
    after. *)
Definition method (A : Type) : Type := world -> Py.result A * world.

(** [Retriever()]. *)
Definition __init__ (e : Embedder.t) : t :=
  {| index := None; commands := []; metadata := ∅; embedder := e;
     dimension := Embedder.get_embedding_dim e |}.

(** A failure while writing is caught, reported and raised again. *)
Definition save_index : method unit := fun w =>
  if writable (fs w) then
    match index (self w) with
    | Some i =>
        (Py.Ok tt,
         {| self := self w;
            fs := {| FAISS_INDEX_PATH := Stored i;
                     METADATA_PATH :=
                       Stored {| json_commands := Some (commands (self w));
                                 json_metadata := Some (metadata (self w)) |};
                     writable := true |} |})
    | None => (Py.Raise Py.TypeError, w)
    end
  else (Py.Raise Py.OSError, w).

Definition build_index (cmds : list string) (save : bool) : method unit :=
  fun w =>
    match cmds with
    | [] => (Py.Raise (Py.ValueError "Cannot build index from empty command list"), w)
    | _ =>
        let embeddings := Embedder.embed (embedder (self w)) cmds in
        let i := Faiss.add (Faiss.new (dimension (self w))) embeddings in
        let r := set_index (self w) i in
        let r := set_commands r cmds in
        let r :=
          set_metadata r
            (list_to_map
               [ ("num_commands", MInt (Z.of_nat (List.length cmds)));
                 ("dimension", MInt (Z.of_nat (dimension (self w))));
                 ("index_type", MStr "IndexFlatL2") ]) in
        if save then save_index (with_self w r)
        else (Py.Ok tt, with_self w r)
    end.

(** Everything between [try] and [except Exception] either returns
    or ends in [return False]; what was assigned before stays. *)
Definition load_index : method bool := fun w =>
  match FAISS_INDEX_PATH (fs w), METADATA_PATH (fs w) with
  | Missing, _ => (Py.Ok false, w)
  | _, Missing => (Py.Ok false, w)
  | Unreadable, _ => (Py.Ok false, w)
  | Stored i, meta =>
      let r := set_index (self w) i in
      match meta with
      | Stored data =>
          match json_commands data with
          | Some cs =>
              let r := set_commands r cs in
              match json_metadata data with
              | Some m => (Py.Ok true, with_self w (set_metadata r m))
              | None => (Py.Ok false, with_self w r)
              end
          | None => (Py.Ok false, with_self w r)
          end
      | _ => (Py.Ok false, with_self w r)
      end
  end.

(** The loop that builds [results]: [enumerate(zip(indices[0],
    similarities))], an entry being kept when its position is within
    [self.commands]. *)
Definition build_results (cmds : list string) (indices : list nat)
    (similarities : list Q) : list Model.candidate :=
  flat_map
    (fun item : nat * (nat * Q) =>
       let '(rank, (idx, score)) := item in
       if (idx <? List.length cmds)%nat then
         match nth_error cmds idx with
         | Some c => [ {| Model.command := c; Model.score := score;
                          Model.rank := rank |} ]
         | None => []
         end
       else [])
    (combine (seq 0 (List.length indices)) (combine indices similarities)).

Definition search (query : string) (k : Z) (context : option Model.context)
    : method (list Model.candidate) := fun w =>
  match index (self w) with
  | None =>
      (Py.Raise (Py.RuntimeError
         "Index not loaded. Call load_index() or build_index() first."), w)
  | Some i =>
      if (Faiss.ntotal i =? 0)%nat then (Py.Ok [], w)
      else
        let query_embedding :=
          Embedder.embed_command (embedder (self w)) query context in
        let k := Z.min k (Z.of_nat (Faiss.ntotal i)) in
        match Faiss.search i query_embedding k with
        | Py.Raise e => (Py.Raise e, w)
        | Py.Ok (distances, indices) =>
            let similarities := map (fun dist => 1 - (dist ^ 2 / 2)) distances in
            (Py.Ok (build_results (commands (self w)) indices similarities), w)
        end
  end.

Definition add_commands (new_commands : list string) (save : bool)
    : method unit := fun w =>
  match new_commands with
  | [] => (Py.Ok tt, w)
  | _ =>
      let new_embeddings := Embedder.embed (embedder (self w)) new_commands in
      match index (self w) with
      | None => build_index new_commands save w
      | Some i =>
          let r := set_index (self w) (Faiss.add i new_embeddings) in
          let r := set_commands r (commands r ++ new_commands)%list in
          let r :=
            set_metadata r
              (<["num_commands" := MInt (Z.of_nat (List.length (commands r)))]>
                 (metadata r)) in
          if save then save_index (with_self w r)
          else (Py.Ok tt, with_self w r)
      end
  end.

(** [get_retriever()] on its first call: a new retriever, and
    [load_index()] with its result dropped. *)
Definition get_retriever (e : Embedder.t) (files : disk) : world :=
  snd (load_index {| self := __init__ e; fs := files |}).

(** *** Vocabulary for the statements *)

(** The number of vectors held, none without an index. *)
Definition vector_count (r : t) : nat :=
  match index r with
  | Some i => Faiss.ntotal i
  | None => 0%nat
  end.

(** Commands and vectors are parallel arrays. *)
Definition parallel (r : t) : Prop :=
  List.length (commands r) = vector_count r.

(** The persisted pair, when both files can be read, holds as many
    commands as vectors. *)
Definition files_parallel (f : disk) : Prop :=
  forall i data cs,
    FAISS_INDEX_PATH f = Stored i ->
    METADATA_PATH f = Stored data ->
    json_commands data = Some cs ->
    List.length cs = Faiss.ntotal i.

(** The four operations on the index, and running one: whether it
    succeeded, and the world after. *)
Inductive operation : Type :=
| Build (cmds : list string) (save : bool)
| Add (new_commands : list string) (save : bool)
| Load
| Search (query : string) (k : Z) (context : option Model.context).

Definition succeeded {A : Type} (r : Py.result A) : bool :=
  match r with
  | Py.Ok _ => true
  | Py.Raise _ => false
  end.

Definition run (op : operation) (w : world) : bool * world :=
  match op with
  | Build cmds save =>
      let (r, w') := build_index cmds save w in (succeeded r, w')
  | Add new_commands save =>
      let (r, w') := add_commands new_commands save w in (succeeded r, w')
  | Load =>
      match load_index w with
      | (Py.Ok b, w') => (b, w')
      | (Py.Raise _, w') => (false, w')
      end
  | Search query k context =>
      let (r, w') := search query k context w in (succeeded r, w')
  end.

(** The operations run on a retriever since it was made, the first
    one first, and the world they leave. *)
Fixpoint run_all (ops : list operation) (w : world) : world :=
  match ops with
  | [] => w
  | op :: ops' => run_all ops' (snd (run op w))
  end.

(** Whether an operation builds or loads an index.  [build_index]
    with commands to embed builds one, and [add_commands] with commands
    to embed builds one or extends the one there is, both before
    anything is saved; [load_index] loads one when it returns [True];
    on the empty list the first raises and the second returns at once,
    and a search does neither. *)
Definition builds_or_loads (op : operation) (w : world) : bool :=
  match op with
  | Build cmds _ => negb (Nat.eqb (List.length cmds) 0)
  | Add new_commands _ => negb (Nat.eqb (List.length new_commands) 0)
  | Load => fst (run Load w)
  | Search _ _ _ => false
  end.

Fixpoint ever_built_or_loaded (ops : list operation) (w : world) : bool :=
  match ops with
  | [] => false
  | op :: ops' =>
      builds_or_loads op w || ever_built_or_loaded ops' (snd (run op w))
  end.

(** The pairs of files on which [load_index] fails after it has read
    the index file: the sidecar is there but does not parse, or lacks
    one of its two keys. *)
Definition broken_pair (f : disk) : bool :=
  match FAISS_INDEX_PATH f, METADATA_PATH f with
  | Stored _, Unreadable => true
  | Stored _, Stored data =>
      match json_commands data, json_metadata data with
      | Some _, Some _ => false
      | _, _ => true
      end
  | _, _ => false
  end.

(** *** [get_stats], and more vocabulary *)

(** The dictionary [get_stats] returns; without an index it has the
    key ["loaded"] only. *)
Record stats : Type := {
  loaded : bool;
  num_commands : option nat;
  stats_dimension : option nat;
  stats_metadata : option (gmap string meta_value)
}.

Definition get_stats (r : t) : stats :=
  match index r with
  | None =>
      {| loaded := false; num_commands := None; stats_dimension := None;
         stats_metadata := None |}
  | Some i =>
      {| loaded := true; num_commands := Some (Faiss.ntotal i);
         stats_dimension := Some (dimension r);
         stats_metadata := Some (metadata r) |}
  end.

(** In the statements: vector [i] of the index is the embedding of
    command [i]. *)
Definition aligned (r : t) : Prop :=
  match index r with
  | Some i => Faiss.xb i = Embedder.embed (embedder r) (commands r)
  | None => commands r = []
  end.

End Retriever.

(* ===================================================================== *)
(** ** backend/suggestion_engine.py *)
(* ===================================================================== *)

Module SuggestionEngine.

(** The settings of backend/config.py the engine reads. *)
Record config : Type := {
  TOP_K_CANDIDATES : Z;
  MAX_SUGGESTIONS : Z;
  ENABLE_SAFETY_CHECK : bool
}.

(** The dictionary [get_suggestions] returns; a key that a return
    statement leaves out is [None]. *)
Record response : Type := {
  success : bool;
  error : option string;
  suggestions : list Model.suggestion;
  context : Model.context;
  message : option string;
  total_candidates : option nat
}.

(** The command text of a suggestion. *)
Definition command_of (s : Model.suggestion) : string :=
  Model.command (Model.entry s).

Definition add_safety (s : Model.suggestion) : Model.suggestion :=
  {| Model.entry := Model.entry s;
     Model.context_score := Model.context_score s;
     Model.final_score := Model.final_score s;
     Model.semantic_score := Model.semantic_score s;
     Model.safety :=
       Some (Safety.check_command (Model.command (Model.entry s))) |}.

(** The loop that fills [unique_suggestions], [seen_commands] being
    the set on entry. *)
Fixpoint filter_duplicates (seen_commands : gset string)
    (ranked : list Model.suggestion) : list Model.suggestion :=
  match ranked with
  | [] => []
  | suggestion :: rest =>
      let cmd := Model.command (Model.entry suggestion) in
      if decide (cmd ∈ seen_commands) then filter_duplicates seen_commands rest
      else suggestion :: filter_duplicates ({[cmd]} ∪ seen_commands) rest
  end.

(** The list [ranked] as it stands when the duplicates are filtered:
    ranked, and annotated when the safety check is enabled. *)
Definition ranked_list (cfg : config) (candidates : list Model.candidate)
    (ctx : Model.context) (max_suggestions : Z) : list Model.suggestion :=
  let ranked := Ranker.rank candidates ctx max_suggestions in
  if ENABLE_SAFETY_CHECK cfg then map add_safety ranked else ranked.

(** [get_suggestions], from the extracted context on.  Only a
    [RuntimeError] of the search is turned into a failure response. *)
Definition get_suggestions (cfg : config) (query : string)
    (ctx : Model.context) (max_suggestions : Z)
    : Retriever.method response := fun w =>
  match Retriever.search query (TOP_K_CANDIDATES cfg) (Some ctx) w with
  | (Py.Raise (Py.RuntimeError e), w') =>
      (Py.Ok {| success := false; error := Some e; suggestions := [];
                context := ctx; message := None;
                total_candidates := None |}, w')
  | (Py.Raise e, w') => (Py.Raise e, w')
  | (Py.Ok [], w') =>
      (Py.Ok {| success := true; error := None; suggestions := [];
                context := ctx;
                message := Some "No similar commands found";
                total_candidates := None |}, w')
  | (Py.Ok candidates, w') =>
      let ranked := ranked_list cfg candidates ctx max_suggestions in
      let unique_suggestions := filter_duplicates ∅ ranked in
      (Py.Ok {| success := true; error := None;
                suggestions := unique_suggestions; context := ctx;
                message := None;
                total_candidates := Some (List.length candidates) |}, w')
  end.

End SuggestionEngine.

(* ===================================================================== *)
(** ** backend/error_fixes.py *)
(* ===================================================================== *)

Module ErrorFixer.

Local Open Scope Q_scope.

(** An entry of [self.error_patterns]. *)
Record pattern_entry : Type := {
  pattern : string;
  category : string;
  fixes : list string;
  description : string
}.

(** A dictionary of the list [find_fixes] returns. *)
Record error_match : Type := {
  match_category : string;
  match_description : string;
  match_fixes : list string;
  confidence : Q
}.

(** The patterns come from the pattern store and may be any regular
    expression, so [find_fixes] is stated over the engine:
    [re_search pattern text] is [re.search(pattern, text,
    re.IGNORECASE)] as a truth value, and [None] when compiling the
    pattern raises [re.error]. *)
Class regex_engine : Type :=
  re_search : string -> string -> option bool.

(** The patterns [_create_default_database] writes. *)
Definition default_patterns : list pattern_entry :=
  [ {| pattern := "permission denied";
       category := "permissions";
       fixes := [ "Try using sudo: sudo <command>";
                  "Check file permissions: ls -l <file>";
                  "Change permissions: chmod +x <file>" ];
       description := "Permission error when executing command" |};
    {| pattern := "command not found";
       category := "not_found";
       fixes := [ "Install the command using your package manager";
                  "Check if the command is in your PATH: echo $PATH";
                  "Try using the full path to the executable" ];
       description := "Command not found in PATH" |};
    {| pattern := "No such file or directory";
       category := "file_not_found";
       fixes := [ "Check the file path: ls <directory>";
                  "Create the directory: mkdir -p <directory>";
                  "Verify you're in the correct directory: pwd" ];
       description := "File or directory does not exist" |};
    {| pattern := "git.*Your local changes.*would be overwritten";
       category := "git";
       fixes := [ "Stash your changes: git stash";
                  "Commit your changes: git add . && git commit -m 'message'";
                  "Discard changes: git checkout -- ." ];
       description := "Git merge/pull would overwrite local changes" |};
    {| pattern := "git.*fatal: not a git repository";
       category := "git";
       fixes := [ "Initialize git repository: git init";
                  "Clone a repository: git clone <url>";
                  "Navigate to a git repository directory" ];
       description := "Not inside a git repository" |};
    {| pattern := "npm.*EACCES.*permission denied";
       category := "npm";
       fixes := [ "Fix npm permissions: sudo chown -R $USER ~/.npm";
                  "Use npx instead of global install";
                  "Configure npm to use a different directory" ];
       description := "NPM permission error" |};
    {| pattern := "pip.*externally-managed-environment";
       category := "python";
       fixes := [ "Use a virtual environment: python -m venv venv && source venv/bin/activate";
                  "Use pipx for tools: pipx install <package>";
                  "Use --break-system-packages (not recommended)" ];
       description := "PIP externally managed environment (PEP 668)" |};
    {| pattern := "docker.*Cannot connect to the Docker daemon";
       category := "docker";
       fixes := [ "Start Docker daemon: sudo systemctl start docker";
                  "Add user to docker group: sudo usermod -aG docker $USER";
                  "Check Docker status: sudo systemctl status docker" ];
       description := "Cannot connect to Docker daemon" |};
    {| pattern := "disk.*full|No space left on device";
       category := "disk";
       fixes := [ "Check disk usage: df -h";
                  "Find large files: du -sh * | sort -h";
                  "Clean package cache (Ubuntu/Debian): sudo apt-get clean";
                  "Clean Docker: docker system prune -a" ];
       description := "Disk full error" |};
    {| pattern := "port.*already in use";
       category := "network";
       fixes := [ "Find process using port: lsof -i :<port>";
                  "Kill process: kill -9 <pid>";
                  "Use a different port in your configuration" ];
       description := "Port already in use" |} ].

Definition _calculate_confidence (pattern error_message : string)
    (last_command : option string) : Q :=
  let confidence := 0.7 in
  let confidence :=
    if (30 <? String.length pattern)%nat then confidence + 0.1
    else confidence in
  let confidence :=
    match last_command with
    | Some last_command =>
        if String.eqb last_command "" then confidence
        else if Py.str_in "git" pattern && Py.str_in "git" last_command
        then confidence + 0.15
        else if Py.str_in "npm" pattern && Py.str_in "npm" last_command
        then confidence + 0.15
        else if Py.str_in "docker" pattern && Py.str_in "docker" last_command
        then confidence + 0.15
        else if Py.str_in "pip" pattern && Py.str_in "pip" last_command
        then confidence + 0.15
        else confidence
    | None => confidence
    end in
  Qmin confidence 1.

(** The dictionary [find_fixes] builds for a pattern that matches. *)
Definition build_match (pattern_entry : pattern_entry)
    (error_message : string) (last_command : option string) : error_match :=
  {| match_category := category pattern_entry;
     match_description := description pattern_entry;
     match_fixes := fixes pattern_entry;
     confidence :=
       _calculate_confidence (pattern pattern_entry) error_message
         last_command |}.

(** The confidence as the specification words it, to compare with
    [_calculate_confidence]: 0.7, plus 0.1 for a pattern longer than
    30 characters, plus 0.15 when one of the four tool names occurs
    both in the last command and in the pattern, at most 1. *)
Definition tool_keywords : list string := ["git"; "npm"; "docker"; "pip"].

Definition claimed_confidence (pattern : string)
    (last_command : option string) : Q :=
  let specific := if (30 <? String.length pattern)%nat then 0.1 else 0 in
  let same_tool :=
    match last_command with
    | Some last_command =>
        if existsb
             (fun keyword =>
                Py.str_in keyword last_command && Py.str_in keyword pattern)
             tool_keywords
        then 0.15 else 0
    | None => 0
    end in
  Qmin (0.7 + specific + same_tool) 1.

Section WithEngine.
Context `{regex_engine}.

(** Does the pattern of the entry match the message? *)
Definition hits (error_message : string) (pattern_entry : pattern_entry)
    : bool :=
  match re_search (pattern pattern_entry) error_message with
  | Some true => true
  | _ => false
  end.

(** The loop of [find_fixes]: the matches in the order of the
    patterns, before they are sorted.  A pattern on which the
    engine raises [re.error] is skipped. *)
Definition collect_matches (error_patterns : list pattern_entry)
    (error_message : string) (last_command : option string)
    : list error_match :=
  flat_map
    (fun pattern_entry =>
       match re_search (pattern pattern_entry) error_message with
       | Some true =>
           [build_match pattern_entry error_message last_command]
       | _ => []
       end)
    error_patterns.

Definition find_fixes (error_patterns : list pattern_entry)
    (error_message : string) (last_command : option string)
    : list error_match :=
  let matches := collect_matches error_patterns error_message last_command in
  Py.sorted_desc confidence matches.

(** [matches[0]["fixes"][0]] raises [IndexError] on an empty list
    of fixes. *)
Definition get_quick_fix (error_patterns : list pattern_entry)
    (error_message : string) (last_command : option string)
    : Py.result (option string) :=
  match find_fixes error_patterns error_message last_command with
  | m :: _ =>
      if negb (Qle_bool (confidence m) 0.6) then
        match match_fixes m with
        | fix_ :: _ => Py.Ok (Some fix_)
        | [] => Py.Raise Py.IndexError
        end
      else Py.Ok None
  | [] => Py.Ok None
  end.
End WithEngine.

(** The engine on the fragment of [Re]; it covers the patterns of the
    default database. *)
Definition fragment_engine : regex_engine := Re.search true.


(** *** Loading the pattern store *)

(** An [ErrorFixer] and its store: the patterns held, the file
    [ERROR_FIXES_DB] (a JSON object whose key ["patterns"] can be
    absent), and whether writing it succeeds. *)
Record fixer : Type := {
  error_patterns : list pattern_entry;
  ERROR_FIXES_DB : Retriever.file (option (list pattern_entry));
  store_writable : bool
}.

Definition _create_default_database (w : fixer) : Py.result unit * fixer :=
  if store_writable w then
    (Py.Ok tt,
     {| error_patterns := default_patterns;
        ERROR_FIXES_DB := Retriever.Stored (Some default_patterns);
        store_writable := true |})
  else (Py.Raise Py.OSError, w).

(** A store that does not parse leaves no pattern;
    [data.get("patterns", [])] gives none for an absent key. *)
Definition load_error_database (w : fixer) : Py.result unit * fixer :=
  match ERROR_FIXES_DB w with
  | Retriever.Missing => _create_default_database w
  | Retriever.Unreadable =>
      (Py.Ok tt,
       {| error_patterns := []; ERROR_FIXES_DB := ERROR_FIXES_DB w;
          store_writable := store_writable w |})
  | Retriever.Stored data =>
      (Py.Ok tt,
       {| error_patterns := default [] data;
          ERROR_FIXES_DB := ERROR_FIXES_DB w;
          store_writable := store_writable w |})
  end.

(** [ErrorFixer()]. *)
Definition __init__ (store : Retriever.file (option (list pattern_entry)))
    (writable : bool) : Py.result unit * fixer :=
  load_error_database
    {| error_patterns := []; ERROR_FIXES_DB := store;
       store_writable := writable |}.

End ErrorFixer.

(* ===================================================================== *)
(** ** backend/context_extractor.py: the directory type *)
(* ===================================================================== *)

Module ContextExtractor.

(** [",".join(parts)]. *)
Fixpoint join_comma (parts : list string) : string :=
  match parts with
  | [] => EmptyString
  | [p] => p
  | p :: ps => String.append p (String "," (join_comma ps))
  end.

(** A glob pattern against a file name; [*] stands for any run of
    characters and is the only special character of the markers. *)
Fixpoint glob_match (pattern name : string) {struct pattern} : bool :=
  match pattern with
  | EmptyString =>
      match name with
      | EmptyString => true
      | _ => false
      end
  | String p rest =>
      if Ascii.eqb p "*" then
        (fix star (name : string) : bool :=
           glob_match rest name
           || match name with
              | EmptyString => false
              | String _ name' => star name'
              end) name
      else
        match name with
        | EmptyString => false
        | String c name' => Ascii.eqb p c && glob_match rest name'
        end
  end.

(** The dictionary [markers], in its insertion order. *)
Definition markers : list (string * list string) :=
  [ ("python", ["setup.py"; "requirements.txt"; "pyproject.toml"; "Pipfile"]);
    ("node", ["package.json"; "node_modules"]);
    ("rust", ["Cargo.toml"]);
    ("go", ["go.mod"; "go.sum"]);
    ("java", ["pom.xml"; "build.gradle"]);
    ("docker", ["Dockerfile"; "docker-compose.yml"]);
    ("terraform", ["main.tf"; "*.tf"]) ].

(** The directory is given by the names of its entries:
    [list(path.glob(marker))] is not empty, or
    [(path / marker).exists()]. *)
Definition marker_found (entries : list string) (marker : string) : bool :=
  if Py.str_in "*" marker then existsb (glob_match marker) entries
  else existsb (String.eqb marker) entries.

(** The list [detected_types] after the loop; the [break] leaves a
    type at its first marker found. *)
Definition detected_types (entries : list string) : list string :=
  flat_map
    (fun item : string * list string =>
       if existsb (marker_found entries) (snd item) then [fst item] else [])
    markers.

Definition _infer_directory_type (entries : list string) : string :=
  match detected_types entries with
  | [] => "general"
  | detected => join_comma detected
  end.

End ContextExtractor.

(* ===================================================================== *)
(** ** backend/app.py: the three endpoints that call the pipeline *)
(* ===================================================================== *)

Module App.

(** What an endpoint answers: its body, or the [HTTPException] with
    status 500 that every [except Exception] raises. *)
Inductive http (A : Type) : Type :=
| Body (a : A)
| Status500.
Arguments Body {A} a.
Arguments Status500 {A}.

(** The body of [/fix-error]. *)
Record fix_response : Type := {
  fix_success : bool;
  fix_fixes : list ErrorFixer.error_match;
  quick_fix : option string;
  fix_error_message : string
}.

Definition fix_error `{ErrorFixer.regex_engine}
    (error_patterns : list ErrorFixer.pattern_entry)
    (error_message : string) (last_command : option string)
    : http fix_response :=
  let fixes :=
    ErrorFixer.find_fixes error_patterns error_message last_command in
  match ErrorFixer.get_quick_fix error_patterns error_message last_command with
  | Py.Ok quick =>
      Body {| fix_success := true; fix_fixes := fixes; quick_fix := quick;
              fix_error_message := error_message |}
  | Py.Raise _ => Status500
  end.

(** [/suggest], from the extracted context on: a response that is not
    a success is turned into the status 500, like an exception. *)
Definition get_suggestions (cfg : SuggestionEngine.config) (query : string)
    (ctx : Model.context) (max_suggestions : Z) (w : Retriever.world)
    : http SuggestionEngine.response * Retriever.world :=
  match SuggestionEngine.get_suggestions cfg query ctx max_suggestions w with
  | (Py.Ok result, w') =>
      if SuggestionEngine.success result then (Body result, w')
      else (Status500, w')
  | (Py.Raise _, w') => (Status500, w')
  end.

(** The body of [/rebuild-index]. *)
Record rebuild_response : Type := {
  rebuild_success : bool;
  rebuild_message : string;
  rebuild_stats : Retriever.stats
}.

Definition rebuild_index (cmds : list string) (w : Retriever.world)
    : http rebuild_response * Retriever.world :=
  match Retriever.build_index cmds true w with
  | (Py.Ok _, w') =>
      (Body {| rebuild_success := true;
               rebuild_message := "Index rebuilt successfully";
               rebuild_stats := Retriever.get_stats (Retriever.self w') |},
       w')
  | (Py.Raise _, w') => (Status500, w')
  end.

End App.

(* ===================================================================== *)
(** ** Concrete inputs *)
(* ===================================================================== *)

Module Examples.

Local Open Scope Q_scope.

(** The unit vector of dimension 384 along axis [i], and its opposite. *)
Definition axis (i : nat) : Embedder.vector :=
  (repeat 0 i ++ [1] ++ repeat 0 (383 - i))%list.

Definition opposite (v : Embedder.vector) : Embedder.vector := map Qopp v.

(** An embedding provider that looks at the first letter of the text
    only: every text goes to a unit vector, ["north..."] and
    ["south..."] to opposite ones. *)
Definition compass : Embedder.t :=
  {| Embedder.embed_text := fun text =>
       match text with
       | String "n" _ => axis 0
       | String "s" _ => opposite (axis 0)
       | String "e" _ => axis 1
       | _ => opposite (axis 1)
       end |}.

(** The squared length of a vector. *)
Definition norm2 (v : Embedder.vector) : Q :=
  fold_right Qplus 0 (map (fun x => x * x) v).

Definition blank_disk : Retriever.disk :=
  {| Retriever.FAISS_INDEX_PATH := Retriever.Missing;
     Retriever.METADATA_PATH := Retriever.Missing;
     Retriever.writable := true |}.

(** A retriever on which nothing was built or loaded. *)
Definition fresh : Retriever.world :=
  {| Retriever.self := Retriever.__init__ compass;
     Retriever.fs := blank_disk |}.

(** The world after [build_index(cmds, save=False)] on [fresh]. *)
Definition built (cmds : list string) : Retriever.world :=
  snd (Retriever.build_index cmds false fresh).

(** The world after [build_index(cmds)] on [fresh], saved to the disk. *)
Definition saved (cmds : list string) : Retriever.world :=
  snd (Retriever.build_index cmds true fresh).

(** An index file with two vectors next to a sidecar with one
    command. *)
Definition mismatched_disk : Retriever.disk :=
  {| Retriever.FAISS_INDEX_PATH :=
       Retriever.Stored
         (Faiss.add (Faiss.new 384) [axis 0; axis 1]);
     Retriever.METADATA_PATH :=
       Retriever.Stored
         {| Retriever.json_commands := Some ["north"];
            Retriever.json_metadata := Some ∅ |};
     Retriever.writable := true |}.

(** An index file that reads back next to a sidecar that does not
    parse. *)
Definition broken_sidecar_disk : Retriever.disk :=
  {| Retriever.FAISS_INDEX_PATH :=
       Retriever.Stored (Faiss.add (Faiss.new 384) [axis 0; axis 1]);
     Retriever.METADATA_PATH := Retriever.Unreadable;
     Retriever.writable := true |}.

(** A retriever that finds [files] on the disk, before it loads. *)
Definition fresh_on (files : Retriever.disk) : Retriever.world :=
  {| Retriever.self := Retriever.__init__ compass; Retriever.fs := files |}.

(** The pair of files of an index that was saved empty. *)
Definition empty_index_disk : Retriever.disk :=
  {| Retriever.FAISS_INDEX_PATH := Retriever.Stored (Faiss.new 384);
     Retriever.METADATA_PATH :=
       Retriever.Stored
         {| Retriever.json_commands := Some [];
            Retriever.json_metadata := Some ∅ |};
     Retriever.writable := true |}.

Definition project : Model.context :=
  {| Model.cwd := "/home/user/project";
     Model.cwd_basename := "project";
     Model.last_command := None;
     Model.last_exit_code := None;
     Model.recent_commands := [];
     Model.git :=
       {| Model.is_git_repo := true; Model.branch := Some "main";
          Model.has_uncommitted_changes := Some false;
          Model.remote_url := None |};
     Model.file_types := [(".py", 3%nat)];
     Model.directory_type := "python,node" |}.

(** The same directory after other commands: another last command,
    exit code, history and branch. *)
Definition idle_project : Model.context :=
  {| Model.cwd := "/srv/checkout/project";
     Model.cwd_basename := "project";
     Model.last_command := Some "make test";
     Model.last_exit_code := Some 2%Z;
     Model.recent_commands := ["make test"; "vim Makefile"];
     Model.git :=
       {| Model.is_git_repo := true; Model.branch := Some "feature";
          Model.has_uncommitted_changes := Some true;
          Model.remote_url := Some "git@example.org:project.git" |};
     Model.file_types := [(".py", 3%nat)];
     Model.directory_type := "python,node" |}.

Definition retrieved : list Model.candidate :=
  [ {| Model.command := "ls"; Model.score := 0.9; Model.rank := 0 |};
    {| Model.command := "git status"; Model.score := 0.5; Model.rank := 1 |};
    {| Model.command := "python a.py"; Model.score := 0.4; Model.rank := 2 |};
    {| Model.command := "npm i"; Model.score := 0.6; Model.rank := 3 |} ].

Definition settings : SuggestionEngine.config :=
  {| SuggestionEngine.TOP_K_CANDIDATES := 10;
     SuggestionEngine.MAX_SUGGESTIONS := 5;
     SuggestionEngine.ENABLE_SAFETY_CHECK := true |}.

(** Asking for suggestions on an index that holds a command twice. *)
Definition asked : Py.result SuggestionEngine.response * Retriever.world :=
  SuggestionEngine.get_suggestions settings "north" project 5
    (built ["north"; "east"; "north"; "south"]).

(** A pattern store with one entry that carries no fix. *)
Definition fixless_patterns : list ErrorFixer.pattern_entry :=
  [ {| ErrorFixer.pattern := "segmentation fault";
       ErrorFixer.category := "crash";
       ErrorFixer.fixes := [];
       ErrorFixer.description := "The program crashed" |} ].

End Examples.

(* ===================================================================== *)
(** * Properties *)
(* ===================================================================== *)

(** ** The stable descending sort and the slice *)

Module PyFacts.

Local Open Scope Q_scope.

Section Sorting.
Context {A : Type} (key : A -> Q).

Lemma insert_desc_perm (x : A) (l : list A) :
  Permutation (Py.insert_desc key x l) (x :: l).
Proof.
  induction l as [|y l IH]; simpl.
  - apply Permutation_refl.
  - destruct (Qle_bool (key y) (key x)).
    + apply Permutation_refl.
    + rewrite perm_swap. apply perm_skip. exact IH.
Qed.

Lemma sorted_desc_perm (l : list A) :
  Permutation (Py.sorted_desc key l) l.
Proof.
  induction l as [|x l IH]; simpl.
  - apply perm_nil.
  - rewrite insert_desc_perm. apply perm_skip. exact IH.
Qed.

Lemma sorted_desc_length (l : list A) :
  List.length (Py.sorted_desc key l) = List.length l.
Proof. apply Permutation_length, sorted_desc_perm. Qed.

Lemma insert_desc_descending (x : A) (l : list A) :
  Py.descending key l -> Py.descending key (Py.insert_desc key x l).
Proof.
  unfold Py.descending.
  induction l as [|y l IH]; intros Hl; simpl.
  - constructor; constructor.
  - destruct (Qle_bool (key y) (key x)) eqn:E.
    + apply Qle_bool_iff in E.
      constructor; [exact Hl|].
      constructor; [exact E|].
      apply StronglySorted_inv in Hl as [_ Hy].
      eapply List.Forall_impl; [|exact Hy].
      intros b Hb. simpl in Hb. eapply Qle_trans; eassumption.
    + assert (Hlt : key x < key y).
      { apply Qnot_le_lt. intros C. apply Qle_bool_iff in C. congruence. }
      apply StronglySorted_inv in Hl as [Hs Hy].
      constructor; [apply IH; exact Hs|].
      eapply Permutation_Forall.
      * apply Permutation_sym, insert_desc_perm.
      * constructor; [apply Qlt_le_weak; exact Hlt | exact Hy].
Qed.

Lemma sorted_desc_descending (l : list A) :
  Py.descending key (Py.sorted_desc key l).
Proof.
  induction l as [|x l IH]; simpl.
  - constructor.
  - apply insert_desc_descending, IH.
Qed.

(** Inserting does not disturb the order among elements of one key. *)
Lemma insert_desc_tied (v : Q) (x : A) (l : list A) :
  Py.tied key v (Py.insert_desc key x l) = Py.tied key v (x :: l).
Proof.
  unfold Py.tied.
  induction l as [|y l IH]; simpl; [reflexivity|].
  destruct (Qle_bool (key y) (key x)) eqn:E; [reflexivity|].
  simpl. rewrite IH. simpl.
  destruct (Qeq_bool (key y) v) eqn:Ey; [|reflexivity].
  destruct (Qeq_bool (key x) v) eqn:Ex; [|reflexivity].
  exfalso.
  apply Qeq_bool_iff in Ey. apply Qeq_bool_iff in Ex.
  assert (C : Qle_bool (key y) (key x) = true).
  { apply Qle_bool_iff. rewrite Ey, Ex. apply Qle_refl. }
  congruence.
Qed.

Lemma sorted_desc_stable (v : Q) (l : list A) :
  Py.tied key v (Py.sorted_desc key l) = Py.tied key v l.
Proof.
  induction l as [|x l IH]; simpl; [reflexivity|].
  rewrite insert_desc_tied. unfold Py.tied in *. simpl. rewrite IH.
  reflexivity.
Qed.

Lemma tied_In (a : A) (l : list A) :
  In a l -> In a (Py.tied key (key a) l).
Proof.
  intros H. unfold Py.tied. apply List.filter_In. split; [exact H|].
  apply Qeq_bool_iff. reflexivity.
Qed.

Lemma In_tied (v : Q) (a : A) (l : list A) :
  In a (Py.tied key v l) -> In a l.
Proof.
  unfold Py.tied. intros H. apply List.filter_In in H. tauto.
Qed.

(** Only one list is descending and holds the elements of each key in
    a given order: the stable descending sort is determined by these
    two properties. *)
Lemma descending_stable_unique (l1 l2 : list A) :
  Py.descending key l1 -> Py.descending key l2 ->
  (forall v, Py.tied key v l1 = Py.tied key v l2) -> l1 = l2.
Proof.
  unfold Py.descending.
  revert l2. induction l1 as [|x l1 IH]; intros l2 H1 H2 HT.
  - destruct l2 as [|y l2]; [reflexivity|].
    pose proof (tied_In y (y :: l2) (or_introl eq_refl)) as Hy.
    rewrite <- HT in Hy. destruct Hy.
  - destruct l2 as [|y l2].
    + pose proof (tied_In x (x :: l1) (or_introl eq_refl)) as Hx.
      rewrite HT in Hx. destruct Hx.
    + apply StronglySorted_inv in H1 as [S1 F1].
      apply StronglySorted_inv in H2 as [S2 F2].
      assert (Hxy : key x <= key y).
      { pose proof (tied_In x (x :: l1) (or_introl eq_refl)) as Hx.
        rewrite HT in Hx. apply In_tied in Hx.
        destruct Hx as [->|Hx]; [apply Qle_refl|].
        rewrite List.Forall_forall in F2. apply F2. exact Hx. }
      assert (Hyx : key y <= key x).
      { pose proof (tied_In y (y :: l2) (or_introl eq_refl)) as Hy.
        rewrite <- HT in Hy. apply In_tied in Hy.
        destruct Hy as [->|Hy]; [apply Qle_refl|].
        rewrite List.Forall_forall in F1. apply F1. exact Hy. }
      assert (E : key y == key x) by (apply Qle_antisym; assumption).
      assert (Exy : x = y).
      { pose proof (HT (key x)) as T. unfold Py.tied in T. simpl in T.
        rewrite (proj2 (Qeq_bool_iff _ _) (Qeq_refl (key x))) in T.
        rewrite (proj2 (Qeq_bool_iff _ _) E) in T.
        injection T. auto. }
      subst y. f_equal. apply IH; auto.
      intros v. pose proof (HT v) as T. unfold Py.tied in *. simpl in T.
      destruct (Qeq_bool (key x) v); [injection T; auto | exact T].
Qed.

Lemma sorted_desc_unique (l ranked : list A) :
  Py.descending key ranked ->
  (forall v, Py.tied key v ranked = Py.tied key v l) ->
  ranked = Py.sorted_desc key l.
Proof.
  intros Hd Ht. apply descending_stable_unique.
  - exact Hd.
  - apply sorted_desc_descending.
  - intros v. rewrite sorted_desc_stable. apply Ht.
Qed.

Lemma Forall_firstn (P : A -> Prop) (n : nat) (l : list A) :
  List.Forall P l -> List.Forall P (firstn n l).
Proof.
  revert n. induction l as [|x l IH]; intros n Hl; destruct n; simpl;
    try constructor.
  - inversion Hl; assumption.
  - apply IH. inversion Hl; assumption.
Qed.

Lemma descending_firstn (n : nat) (l : list A) :
  Py.descending key l -> Py.descending key (firstn n l).
Proof.
  unfold Py.descending. revert n.
  induction l as [|x l IH]; intros n Hl; destruct n; simpl;
    try constructor.
  - apply IH. apply StronglySorted_inv in Hl. tauto.
  - apply StronglySorted_inv in Hl as [_ Hx].
    apply Forall_firstn. exact Hx.
Qed.
End Sorting.

(** The elements of one key in a prefix of a list are the first of
    the elements of that key in the list. *)
Lemma tied_firstn {A : Type} (key : A -> Q) (v : Q) (n : nat) (l : list A) :
  Py.tied key v l
  = (Py.tied key v (firstn n l) ++ Py.tied key v (skipn n l))%list.
Proof.
  unfold Py.tied. rewrite <- List.filter_app, firstn_skipn. reflexivity.
Qed.

Lemma slice_to_nonneg {A : Type} (n : Z) (l : list A) :
  (0 <= n)%Z -> Py.slice_to n l = firstn (Z.to_nat n) l.
Proof.
  intros Hn. unfold Py.slice_to.
  destruct (Z.leb_spec 0 n); [reflexivity | lia].
Qed.

End PyFacts.

(** ** The ranker *)

Module RankerFacts.

Local Open Scope Q_scope.

Lemma score_candidate_blended (context : Model.context)
    (candidate : Model.candidate) :
  Model.final_score (Ranker.score_candidate context candidate)
  == Ranker.blended (Ranker.score_candidate context candidate).
Proof.
  unfold Ranker.blended, Ranker.score_candidate,
    Ranker.semantic_similarity. simpl. ring.
Qed.

Lemma scored_all_blended (context : Model.context)
    (candidates : list Model.candidate) :
  List.Forall (fun s => Model.final_score s == Ranker.blended s)
    (map (Ranker.score_candidate context) candidates).
Proof.
  induction candidates as [|c cs IH]; simpl; constructor.
  - apply score_candidate_blended.
  - exact IH.
Qed.

(** What [rank] returns when the limit is not negative: the first
    [max_results] entries of the stable descending sort of the scored
    candidates. *)
Lemma rank_unfold (candidates : list Model.candidate)
    (context : Model.context) (max_results : Z) :
  (0 <= max_results)%Z ->
  Ranker.rank candidates context max_results
  = firstn (Z.to_nat max_results)
      (Py.sorted_desc Model.final_score
         (map (Ranker.score_candidate context) candidates)).
Proof.
  intros Hmax. unfold Ranker.rank. destruct candidates as [|c cs].
  - simpl. destruct (Z.to_nat max_results); reflexivity.
  - apply PyFacts.slice_to_nonneg. exact Hmax.
Qed.

(** C3, as the code has it.  For a limit [max_results] that is not
    negative, [rank] returns at most [max_results] entries; the final
    score of each is 0.5 * semantic score + 0.5 * context score; the
    final scores never increase along the result; and the result is
    the first [max_results] entries of the stable descending sort of
    the scored candidates: of the rearrangement [ranked] of all the
    scored candidates whose final scores never increase and in which
    the entries of any one final score stand in their retrieval order.
    So the entries of one final score in the result are the first of
    the candidates with that score, in retrieval order.  One list
    only is descending and keeps the ties of the scored candidates
    ([PyFacts.sorted_desc_unique]), so no other [ranked] fits. *)
Theorem rank_truncates_stable_sort (candidates : list Model.candidate)
    (context : Model.context) (max_results : Z) :
  (0 <= max_results)%Z ->
  let scored := map (Ranker.score_candidate context) candidates in
  let out := Ranker.rank candidates context max_results in
  (Z.of_nat (List.length out) <= max_results)%Z
  /\ List.Forall (fun s => Model.final_score s == Ranker.blended s) out
  /\ Py.descending Model.final_score out
  /\ (exists ranked,
        out = firstn (Z.to_nat max_results) ranked
        /\ Permutation ranked scored
        /\ Py.descending Model.final_score ranked
        /\ forall v, Py.tied Model.final_score v ranked
                     = Py.tied Model.final_score v scored)
  /\ forall v, exists cut,
       Py.tied Model.final_score v scored
       = (Py.tied Model.final_score v out ++ cut)%list.
Proof.
  intros Hmax scored out. subst out.
  rewrite (rank_unfold _ _ _ Hmax). fold scored.
  split; [|split; [|split; [|split]]].
  - rewrite length_firstn. lia.
  - apply PyFacts.Forall_firstn.
    eapply Permutation_Forall.
    + apply Permutation_sym, PyFacts.sorted_desc_perm.
    + apply scored_all_blended.
  - apply PyFacts.descending_firstn, PyFacts.sorted_desc_descending.
  - exists (Py.sorted_desc Model.final_score scored).
    split; [reflexivity|]. split; [|split].
    + apply PyFacts.sorted_desc_perm.
    + apply PyFacts.sorted_desc_descending.
    + intros v. apply PyFacts.sorted_desc_stable.
  - intros v. eexists.
    rewrite <- (PyFacts.sorted_desc_stable Model.final_score v scored).
    apply PyFacts.tied_firstn.
Qed.

Lemma rank_truncates_stable_sort_witness :
  (0 <= 3)%Z
  /\ (Z.of_nat (List.length (Ranker.rank Examples.retrieved Examples.project 3))
      <= 3)%Z.
Proof.
  split.
  - lia.
  - refine (proj1 (rank_truncates_stable_sort Examples.retrieved
                     Examples.project 3 _)). lia.
Defined.

(** Three of the four example candidates get the final score 0.45;
    they come out first, in their retrieval order. *)
Example rank_keeps_ties_in_order :
  map SuggestionEngine.command_of
    (Ranker.rank Examples.retrieved Examples.project 4)
  = ["ls"; "python a.py"; "npm i"; "git status"].
Proof. vm_compute. reflexivity. Qed.

(** C3 as stated fails for a negative limit: the slice [ranked[:-1]]
    drops the last entry only, so three entries are returned for the
    limit -1. *)
Lemma rank_negative_limit :
  ~ (Z.of_nat
       (List.length (Ranker.rank Examples.retrieved Examples.project (-1)))
     <= -1)%Z.
Proof. vm_compute. intros H. apply H. reflexivity. Qed.

End RankerFacts.

(** ** The suggestion engine *)

Module EngineFacts.

Import SuggestionEngine.

(** A suggestion that is kept was not seen before. *)
Lemma filter_duplicates_fresh (ranked : list Model.suggestion) :
  forall (seen : gset string) (s : Model.suggestion),
    In s (filter_duplicates seen ranked) -> command_of s ∉ seen.
Proof.
  induction ranked as [|x rest IH]; intros seen s Hs; simpl in Hs.
  - contradiction.
  - fold (command_of x) in Hs.
    destruct (decide (command_of x ∈ seen)) as [Hin|Hout].
    + apply IH. exact Hs.
    + destruct Hs as [<-|Hs]; [exact Hout|].
      apply IH in Hs. set_solver.
Qed.

Lemma filter_duplicates_nodup (ranked : list Model.suggestion) :
  forall seen : gset string,
    List.NoDup (map command_of (filter_duplicates seen ranked)).
Proof.
  induction ranked as [|x rest IH]; intros seen; simpl.
  - constructor.
  - fold (command_of x).
    destruct (decide (command_of x ∈ seen)) as [Hin|Hout].
    + apply IH.
    + simpl. constructor; [|apply IH].
      intros Hdup. apply in_map_iff in Hdup as (s & Heq & Hs).
      apply filter_duplicates_fresh in Hs. set_solver.
Qed.

Lemma filter_duplicates_sublist (ranked : list Model.suggestion) :
  forall seen : gset string,
    sublist (filter_duplicates seen ranked) ranked.
Proof.
  induction ranked as [|x rest IH]; intros seen; simpl.
  - constructor.
  - destruct (decide (_ ∈ seen)).
    + apply sublist_cons, IH.
    + apply sublist_skip, IH.
Qed.

(** A suggestion that is kept is the first with its command. *)
Lemma filter_duplicates_first (ranked : list Model.suggestion) :
  forall (seen : gset string) (s : Model.suggestion),
    In s (filter_duplicates seen ranked) ->
    exists before after,
      ranked = (before ++ s :: after)%list
      /\ ~ In (command_of s) (map command_of before).
Proof.
  induction ranked as [|x rest IH]; intros seen s Hs.
  - contradiction.
  - pose proof (filter_duplicates_fresh _ _ _ Hs) as Hfresh.
    simpl in Hs. fold (command_of x) in Hs.
    destruct (decide (command_of x ∈ seen)) as [Hin|Hout].
    + destruct (IH _ _ Hs) as (before & after & -> & Hnot).
      exists (x :: before), after. split; [reflexivity|].
      simpl. intros [Heq|Hb]; [|exact (Hnot Hb)].
      apply Hfresh. rewrite <- Heq. exact Hin.
    + destruct Hs as [<-|Hs].
      * exists [], rest. split; [reflexivity|]. simpl. tauto.
      * pose proof (filter_duplicates_fresh _ _ _ Hs) as Hnew.
        destruct (IH _ _ Hs) as (before & after & -> & Hnot).
        exists (x :: before), after. split; [reflexivity|].
        simpl. intros [Heq|Hb]; [|exact (Hnot Hb)].
        apply Hnew. rewrite <- Heq. set_solver.
Qed.

(** No command is lost. *)
Lemma filter_duplicates_covers (ranked : list Model.suggestion) :
  forall (seen : gset string) (s : Model.suggestion),
    In s ranked ->
    command_of s ∈ seen
    \/ In (command_of s) (map command_of (filter_duplicates seen ranked)).
Proof.
  induction ranked as [|x rest IH]; intros seen s Hs.
  - contradiction.
  - simpl. fold (command_of x).
    destruct (decide (command_of x ∈ seen)) as [Hin|Hout].
    + destruct Hs as [<-|Hs]; [left; exact Hin|]. apply IH. exact Hs.
    + simpl. destruct Hs as [<-|Hs]; [right; left; reflexivity|].
      destruct (IH ({[command_of x]} ∪ seen) s Hs) as [Hseen|Hkept].
      * apply elem_of_union in Hseen as [Hx|Hseen].
        -- apply elem_of_singleton in Hx. right. left. symmetry. exact Hx.
        -- left. exact Hseen.
      * right. right. exact Hkept.
Qed.

(** Whatever [get_suggestions] answers, its suggestions are the
    filtered [ranked] list of the candidates found, and there are
    none when the search found nothing or failed. *)
Lemma get_suggestions_filtered (cfg : config) (query : string)
    (ctx : Model.context) (max_suggestions : Z) (w w' : Retriever.world)
    (resp : response) :
  get_suggestions cfg query ctx max_suggestions w = (Py.Ok resp, w') ->
  match fst (Retriever.search query (TOP_K_CANDIDATES cfg) (Some ctx) w) with
  | Py.Ok candidates =>
      suggestions resp
      = filter_duplicates ∅ (ranked_list cfg candidates ctx max_suggestions)
  | Py.Raise _ => suggestions resp = []
  end.
Proof.
  unfold get_suggestions.
  destruct (Retriever.search query (TOP_K_CANDIDATES cfg) (Some ctx) w)
    as [[candidates|e] w1]; simpl.
  - destruct candidates as [|c cs]; intros [= <- _]; simpl.
    + unfold ranked_list. simpl.
      destruct (ENABLE_SAFETY_CHECK cfg); reflexivity.
    + reflexivity.
  - destruct e; intros [= <- _] || intros [=]; reflexivity.
Qed.

(** C4.  The suggestions [get_suggestions] returns never hold one
    command text twice.  They are, in the same order, entries of the
    ranked list; each is the first entry of that list with its command
    text; and every command text of the ranked list is still there. *)
Theorem suggestions_without_duplicates (cfg : config) (query : string)
    (ctx : Model.context) (max_suggestions : Z) (w w' : Retriever.world)
    (resp : response) :
  get_suggestions cfg query ctx max_suggestions w = (Py.Ok resp, w') ->
  List.NoDup (map command_of (suggestions resp))
  /\ forall candidates,
       fst (Retriever.search query (TOP_K_CANDIDATES cfg) (Some ctx) w)
       = Py.Ok candidates ->
       let ranked := ranked_list cfg candidates ctx max_suggestions in
       sublist (suggestions resp) ranked
       /\ (forall s, In s (suggestions resp) ->
             exists before after,
               ranked = (before ++ s :: after)%list
               /\ ~ In (command_of s) (map command_of before))
       /\ (forall s, In s ranked ->
             In (command_of s) (map command_of (suggestions resp))).
Proof.
  intros Hrun. apply get_suggestions_filtered in Hrun. split.
  - destruct (fst (Retriever.search _ _ _ _)).
    + rewrite Hrun. apply filter_duplicates_nodup.
    + rewrite Hrun. constructor.
  - intros candidates Hfound ranked. rewrite Hfound in Hrun.
    fold ranked in Hrun. rewrite Hrun. split; [|split].
    + apply filter_duplicates_sublist.
    + intros s Hs. eapply filter_duplicates_first. exact Hs.
    + intros s Hs.
      destruct (filter_duplicates_covers ranked ∅ s Hs) as [Hempty|Hkept].
      * set_solver.
      * exact Hkept.
Qed.

Lemma suggestions_without_duplicates_witness :
  exists resp w',
    Examples.asked = (Py.Ok resp, w')
    /\ List.NoDup (map command_of (suggestions resp)).
Proof.
  destruct Examples.asked as [[resp|e] w'] eqn:Hrun.
  - exists resp, w'. split; [reflexivity|].
    exact (proj1 (suggestions_without_duplicates _ _ _ _ _ _ _ Hrun)).
  - exfalso. vm_compute in Hrun. discriminate Hrun.
Defined.

(** The index of the example holds ["north"] twice and the search
    returns it twice; one suggestion is left for it. *)
Example asked_commands :
  match fst Examples.asked with
  | Py.Ok resp => map command_of (suggestions resp) = ["north"; "east"; "south"]
  | Py.Raise _ => False
  end.
Proof. vm_compute. reflexivity. Qed.

End EngineFacts.

(** ** The retriever *)

Module RetrieverFacts.

Import Retriever.

Local Open Scope Q_scope.

Lemma embed_length (e : Embedder.t) (texts : list string) :
  List.length (Embedder.embed e texts) = List.length texts.
Proof. unfold Embedder.embed. apply length_map. Qed.

Lemma ntotal_add (i : Faiss.IndexFlatL2) (x : list Embedder.vector) :
  Faiss.ntotal (Faiss.add i x) = (Faiss.ntotal i + List.length x)%nat.
Proof. unfold Faiss.ntotal, Faiss.add. simpl. apply length_app. Qed.

(** Saving writes the two files from the state, and nothing else. *)
Lemma save_index_ok (w w' : world) :
  save_index w = (Py.Ok tt, w') ->
  self w' = self w
  /\ (parallel (self w) -> files_parallel (fs w')).
Proof.
  unfold save_index. destruct (writable (fs w)); [|discriminate].
  destruct (index (self w)) as [i|] eqn:Hi; [|discriminate].
  intros [= <-]. simpl. split; [reflexivity|].
  intros Hpar i' data cs [= <-] [= <-] [= <-]. simpl.
  unfold parallel, vector_count in Hpar. rewrite Hi in Hpar. exact Hpar.
Qed.

Lemma build_index_ok (cmds : list string) (save : bool) (w w' : world) :
  build_index cmds save w = (Py.Ok tt, w') ->
  parallel (self w')
  /\ (files_parallel (fs w) -> files_parallel (fs w')).
Proof.
  unfold build_index. destruct cmds as [|c cs]; [discriminate|].
  set (r := set_metadata _ _).
  assert (Hr : parallel r).
  { unfold parallel, vector_count. simpl.
    rewrite ntotal_add. simpl. rewrite embed_length. reflexivity. }
  destruct save.
  - intros Hsave. apply save_index_ok in Hsave as [Hself Hfiles].
    simpl in Hself, Hfiles. rewrite Hself. split; [exact Hr|].
    intros _. apply Hfiles. exact Hr.
  - intros [= <-]. simpl. split; [exact Hr|]. tauto.
Qed.

Lemma add_commands_ok (new_commands : list string) (save : bool)
    (w w' : world) :
  parallel (self w) ->
  add_commands new_commands save w = (Py.Ok tt, w') ->
  parallel (self w')
  /\ (files_parallel (fs w) -> files_parallel (fs w')).
Proof.
  intros Hpar. unfold add_commands.
  destruct new_commands as [|c cs].
  - intros [= <-]. tauto.
  - destruct (index (self w)) as [i|] eqn:Hi.
    + set (r := set_metadata _ _).
      assert (Hr : parallel r).
      { unfold parallel, vector_count in *. rewrite Hi in Hpar.
        subst r. unfold set_metadata, set_commands, set_index.
        cbn [index commands].
        rewrite ntotal_add, embed_length, length_app, Hpar. reflexivity. }
      destruct save.
      * intros Hsave. apply save_index_ok in Hsave as [Hself Hfiles].
        simpl in Hself, Hfiles. rewrite Hself. split; [exact Hr|].
        intros _. apply Hfiles. exact Hr.
      * intros [= <-]. simpl. split; [exact Hr|]. tauto.
    + apply build_index_ok.
Qed.

(** [load_index] always returns, with a truth value. *)
Lemma load_index_returns (w : world) :
  exists b w', load_index w = (Py.Ok b, w').
Proof.
  unfold load_index.
  destruct (FAISS_INDEX_PATH (fs w)) as [| |i];
    destruct (METADATA_PATH (fs w)) as [| |data]; eauto.
  destruct (json_commands data); [|eauto].
  destruct (json_metadata data); eauto.
Qed.

(** Without both files nothing is touched. *)
Lemma load_index_missing (w : world) :
  FAISS_INDEX_PATH (fs w) = Missing \/ METADATA_PATH (fs w) = Missing ->
  load_index w = (Py.Ok false, w).
Proof.
  unfold load_index. intros [H|H]; rewrite H; [reflexivity|].
  destruct (FAISS_INDEX_PATH (fs w)); reflexivity.
Qed.

Lemma load_index_ok (w w' : world) :
  load_index w = (Py.Ok true, w') ->
  fs w' = fs w
  /\ (files_parallel (fs w) -> parallel (self w')).
Proof.
  unfold load_index.
  destruct (FAISS_INDEX_PATH (fs w)) as [| |i] eqn:Hi;
    destruct (METADATA_PATH (fs w)) as [| |data] eqn:Hdata;
    try discriminate.
  destruct (json_commands data) as [cs|] eqn:Hcs; [|discriminate].
  destruct (json_metadata data) as [m|]; [|discriminate].
  intros [= <-]. simpl. split; [reflexivity|].
  intros Hfiles. unfold parallel, vector_count. simpl.
  eapply Hfiles; eauto.
Qed.

(** A search leaves the retriever and the disk as they were. *)
Lemma search_keeps_world (query : string) (k : Z)
    (context : option Model.context) (w : world) :
  snd (search query k context w) = w.
Proof.
  unfold search. destruct (index (self w)) as [i|]; [|reflexivity].
  destruct (Faiss.ntotal i =? 0)%nat; [reflexivity|].
  destruct (Faiss.search _ _ _) as [[distances indices]|e]; reflexivity.
Qed.

(** C2, as the code has it.  When commands and vectors are parallel,
    and the persisted pair of files (if both can be read) holds as
    many commands as vectors, then after a successful [build_index],
    [add_commands], [load_index] or [search] the same is true again:
    the command list is as long as the index has vectors. *)
Theorem successful_operation_keeps_parallel (op : operation)
    (w w' : world) :
  parallel (self w) ->
  files_parallel (fs w) ->
  run op w = (true, w') ->
  parallel (self w') /\ files_parallel (fs w').
Proof.
  intros Hpar Hfiles. destruct op as [cmds save|cmds save| |query k context];
    simpl.
  - destruct (build_index cmds save w) as [[[]|e] w1] eqn:Hrun;
      simpl; intros [= <-].
    apply build_index_ok in Hrun. tauto.
  - destruct (add_commands cmds save w) as [[[]|e] w1] eqn:Hrun;
      simpl; intros [= <-].
    apply add_commands_ok in Hrun; tauto.
  - destruct (load_index w) as [[b|e] w1] eqn:Hrun; intros [= -> <-].
    apply load_index_ok in Hrun as [Hfs Hself]. rewrite Hfs. tauto.
  - pose proof (search_keeps_world query k context w) as Hsame.
    destruct (search query k context w) as [r w1]. simpl in Hsame.
    intros [= _ <-]. subst w1. tauto.
Qed.

Lemma successful_operation_keeps_parallel_witness :
  parallel (self (Examples.saved ["north"]))
  /\ files_parallel (fs (Examples.saved ["north"]))
  /\ fst (run (Add ["east"; "south"] true) (Examples.saved ["north"])) = true
  /\ parallel
       (self (snd (run (Add ["east"; "south"] true) (Examples.saved ["north"])))).
Proof.
  assert (Hpar : parallel (self (Examples.saved ["north"])))
    by reflexivity.
  assert (Hfiles : files_parallel (fs (Examples.saved ["north"]))).
  { intros i data cs Hi Hdata Hcs.
    injection Hi as <-. injection Hdata as <-. injection Hcs as <-.
    reflexivity. }
  split; [exact Hpar|]. split; [exact Hfiles|].
  split; [reflexivity|].
  refine (proj1 (successful_operation_keeps_parallel
                   (Add ["east"; "south"] true) (Examples.saved ["north"])
                   _ Hpar Hfiles _)).
  reflexivity.
Defined.

(** C2 as stated fails for [load_index]: it trusts the two files.  An
    index file with two vectors and a sidecar with one command load
    with success, and leave one command for two vectors. *)
Lemma load_index_of_mismatched_files :
  fst (run Load (Examples.fresh_on Examples.mismatched_disk)) = true
  /\ ~ parallel
         (self (snd (run Load (Examples.fresh_on Examples.mismatched_disk)))).
Proof.
  split; [reflexivity|]. vm_compute. discriminate.
Qed.

(** The two guards of [search]: while [self.index] is [None] it
    raises a [RuntimeError]; with an index that holds no vector it
    returns the empty list.  Neither changes anything. *)
Lemma search_guards (query : string) (k : Z)
    (context : option Model.context) (w : world) :
  (index (self w) = None ->
   search query k context w
   = (Py.Raise
        (Py.RuntimeError
           "Index not loaded. Call load_index() or build_index() first."),
      w))
  /\ (forall i, index (self w) = Some i -> Faiss.ntotal i = 0%nat ->
      search query k context w = (Py.Ok [], w)).
Proof.
  unfold search. split.
  - intros ->. reflexivity.
  - intros i -> ->. reflexivity.
Qed.

(** C6.  [build_index] on the empty list raises a [ValueError] at
    once: the retriever (index, commands, metadata) and the disk are
    as before.  No other list takes that exit. *)
Theorem build_index_rejects_empty_list (save : bool) (w : world) :
  build_index [] save w
  = (Py.Raise (Py.ValueError "Cannot build index from empty command list"),
     w)
  /\ forall cmds msg,
       fst (build_index cmds save w) = Py.Raise (Py.ValueError msg) ->
       cmds = [].
Proof.
  split; [reflexivity|].
  intros [|c cs] msg; [reflexivity|].
  unfold build_index, save_index. simpl.
  destruct save; [destruct (writable (fs w))|]; simpl; discriminate.
Qed.

(** C7, at the input where the code leaves it: an index file that
    reads back next to a sidecar that does not parse.  [load_index]
    returns [False], but the index it read stays assigned, with no
    command for its two vectors.  The retriever [get_retriever] hands
    out is then not the one without index: a [search] on it answers
    with an empty list, where a retriever without index raises. *)
Theorem load_index_keeps_index_of_broken_pair :
  fst (load_index (Examples.fresh_on Examples.broken_sidecar_disk))
  = Py.Ok false
  /\ vector_count
       (self (get_retriever Examples.compass Examples.broken_sidecar_disk))
     = 2%nat
  /\ commands
       (self (get_retriever Examples.compass Examples.broken_sidecar_disk))
     = []
  /\ fst (search "north" 10 None
            (get_retriever Examples.compass Examples.broken_sidecar_disk))
     = Py.Ok []
  /\ fst (search "north" 10 None
            (get_retriever Examples.compass Examples.blank_disk))
     = Py.Raise
         (Py.RuntimeError
            "Index not loaded. Call load_index() or build_index() first.").
Proof.
  split; [reflexivity|]. split; [reflexivity|]. split; [reflexivity|].
  split; [vm_compute; reflexivity | reflexivity].
Qed.

(** *** The score of a search result *)

Lemma in_firstn {A : Type} (n : nat) (l : list A) (x : A) :
  In x (firstn n l) -> In x l.
Proof.
  revert n. induction l as [|y l IH]; intros [|n]; simpl; try tauto.
  intros [->|H]; [left; reflexivity | right; eapply IH; exact H].
Qed.

Lemma in_combine_maps {A B C : Type} (g : A -> B) (h : A -> C)
    (l : list A) (b : B) (c : C) :
  In (b, c) (combine (map g l) (map h l)) ->
  exists a, In a l /\ b = g a /\ c = h a.
Proof.
  induction l as [|a l IH]; simpl; [tauto|].
  intros [[= <- <-]|H].
  - exists a. tauto.
  - destruct (IH H) as (a' & Ha & Hb & Hc). exists a'. tauto.
Qed.

Lemma in_numbered {A B : Type} (g : A -> B) (l : list A) :
  forall (start : nat) (b : B) (idx : nat),
    In (b, idx) (combine (map g l) (seq start (List.length l))) ->
    exists a, nth_error l (idx - start) = Some a /\ b = g a
              /\ (start <= idx)%nat.
Proof.
  induction l as [|a l IH]; intros start b idx; simpl; [tauto|].
  intros [[= <- <-]|H].
  - exists a. rewrite Nat.sub_diag. simpl. split; [reflexivity|].
    split; [reflexivity | lia].
  - destruct (IH _ _ _ H) as (a' & Hnth & Hb & Hle).
    exists a'. replace (idx - start)%nat with (S (idx - S start)) by lia.
    simpl. split; [exact Hnth|]. split; [exact Hb | lia].
Qed.

(** What the index reports: positions of stored vectors, each with
    the squared distance of its vector to the query. *)
Lemma faiss_search_reports (i : Faiss.IndexFlatL2) (x : Embedder.vector)
    (k : Z) (distances : list Q) (indices : list nat) (f : Q -> Q)
    (idx : nat) (y : Q) :
  Faiss.search i x k = Py.Ok (distances, indices) ->
  In (idx, y) (combine indices (map f distances)) ->
  exists v, nth_error (Faiss.xb i) idx = Some v
            /\ y = f (Faiss.sqdist x v).
Proof.
  unfold Faiss.search. destruct (k <=? 0)%Z; [discriminate|].
  intros [= <- <-]. rewrite map_map. intros Hin.
  apply in_combine_maps in Hin as ([dist j] & Hnear & -> & ->). simpl.
  apply in_firstn in Hnear.
  eapply Permutation_in in Hnear; [|apply PyFacts.sorted_desc_perm].
  apply in_numbered in Hnear as (v & Hnth & -> & _).
  rewrite Nat.sub_0_r in Hnth. exists v. split; [exact Hnth | reflexivity].
Qed.

Lemma in_build_results (cmds : list string) (indices : list nat)
    (similarities : list Q) (c : Model.candidate) :
  In c (build_results cmds indices similarities) ->
  exists idx, In (idx, Model.score c) (combine indices similarities)
              /\ nth_error cmds idx = Some (Model.command c).
Proof.
  unfold build_results. intros Hin.
  apply in_flat_map in Hin as ([rank [idx score]] & Hitem & Hc).
  apply in_combine_r in Hitem.
  destruct (idx <? List.length cmds)%nat; [|contradiction].
  destruct (nth_error cmds idx) as [text|] eqn:Hnth; [|contradiction].
  destruct Hc as [<-|[]]. simpl. exists idx. split; [exact Hitem | exact Hnth].
Qed.

(** What the code computes for every search: a returned candidate
    stands for a stored vector [v] and carries the command at the
    position of [v], and its score is 1 - (dd ^ 2) / 2 where [dd] is
    already the SQUARED distance between the query vector and [v]. *)
Lemma search_score_squares_the_squared_distance (query : string) (k : Z)
    (context : option Model.context) (w : world) (i : Faiss.IndexFlatL2)
    (results : list Model.candidate) (c : Model.candidate) :
  index (self w) = Some i ->
  fst (search query k context w) = Py.Ok results ->
  In c results ->
  exists idx v,
    nth_error (Faiss.xb i) idx = Some v
    /\ nth_error (commands (self w)) idx = Some (Model.command c)
    /\ Model.score c
       = 1 - (Faiss.sqdist
                (Embedder.embed_command (embedder (self w)) query context) v
              ^ 2 / 2).
Proof.
  intros Hi. unfold search. rewrite Hi.
  destruct (Faiss.ntotal i =? 0)%nat.
  - intros [= <-] [].
  - destruct (Faiss.search _ _ _) as [[distances indices]|e] eqn:Hfound;
      [|discriminate].
    simpl. intros [= <-] Hc.
    apply in_build_results in Hc as (idx & Hpair & Hcmd).
    eapply faiss_search_reports in Hpair as (v & Hv & Hscore);
      [|exact Hfound].
    exists idx, v. split; [exact Hv|]. split; [exact Hcmd | exact Hscore].
Qed.

(** C1, at an input where the code departs from it.  The query and
    the stored vector are unit vectors, opposite to each other: their
    distance is 2, and 1 - d^2/2 is -1.  The search scores the
    candidate -7.  For two orthogonal unit vectors 1 - d^2/2 is 0 and
    the search scores -1. *)
Theorem search_scores_opposite_vectors :
  let q := Embedder.embed_command Examples.compass "south" None in
  let v := Embedder.embed_text Examples.compass "north" in
  let u := Embedder.embed_text Examples.compass "east" in
  Examples.norm2 q == 1 /\ Examples.norm2 v == 1 /\ Examples.norm2 u == 1
  /\ 1 - Faiss.sqdist q v / 2 == -1
  /\ 1 - Faiss.sqdist q u / 2 == 0
  /\ exists c1 c2,
       fst (search "south" 2 None (Examples.built ["north"; "east"]))
       = Py.Ok [c1; c2]
       /\ Model.command c1 = "east" /\ Model.score c1 == -1
       /\ Model.command c2 = "north" /\ Model.score c2 == -7.
Proof.
  repeat (split; [vm_compute; reflexivity|]).
  eexists. eexists. split; [vm_compute; reflexivity|].
  repeat split; vm_compute; reflexivity.
Qed.

End RetrieverFacts.

(** ** The safety checker *)

Module SafetyFacts.

Import Safety.

(** The text the patterns are matched against depends on the command
    only through its trimmed, lower-cased form; three of the five
    passes and the choice between [WARNING] and [DANGEROUS] read
    nothing else. *)
Lemma lowered_passes_agree (c1 c2 : string) :
  Py.lower (Py.strip c1) = Py.lower (Py.strip c2) ->
  destructive_reasons (Py.lower (Py.strip c1))
  = destructive_reasons (Py.lower (Py.strip c2))
  /\ sudo_reasons (Py.lower (Py.strip c1))
     = sudo_reasons (Py.lower (Py.strip c2))
  /\ preserve_root_reasons (Py.lower (Py.strip c1))
     = preserve_root_reasons (Py.lower (Py.strip c2)).
Proof. intros ->. repeat split. Qed.

(** C8, at inputs where the code departs from it.  The pass for
    forced operations looks for [-f] in the command as typed, and the
    pass for critical paths for the path as typed, after a blank or
    at the very start.  So ["SUDO RM X -F"] is [SAFE] where
    ["sudo rm x -f"] gets a [WARNING], and ["/bin/rm x"] gets a
    [WARNING] that it loses behind a tab. *)
Theorem check_command_reads_the_command_as_typed :
  Py.lower (Py.strip "SUDO RM X -F") = Py.lower (Py.strip "sudo rm x -f")
  /\ check_command "sudo rm x -f"
     = {| level := WARNING; warning := Some WARNING_TEXT;
          reasons := ["Forced system operation"] |}
  /\ check_command "SUDO RM X -F"
     = {| level := SAFE; warning := None; reasons := [] |}
  /\ Py.lower (Py.strip (String "009" "/bin/rm x"))
     = Py.lower (Py.strip "/bin/rm x")
  /\ level (check_command "/bin/rm x") = WARNING
  /\ reasons (check_command "/bin/rm x")
     = [ "Destructive operation on critical path: /";
         "Destructive operation on critical path: /bin" ]
  /\ check_command (String "009" "/bin/rm x")
     = {| level := SAFE; warning := None; reasons := [] |}.
Proof. repeat split; vm_compute; reflexivity. Qed.

(** The two commands the specification names. *)
Example check_rm_rf_root :
  level (check_command "rm -rf /") = DANGEROUS
  /\ warning (check_command "rm -rf /") = Some DANGEROUS_TEXT
  /\ reasons (check_command "rm -rf /")
     = [ "Contains destructive pattern: rm -rf";
         "Contains destructive pattern: rm -r";
         "Destructive operation on critical path: /" ].
Proof. repeat split; vm_compute; reflexivity. Qed.

Example check_ls :
  check_command "ls -la" = {| level := SAFE; warning := None; reasons := [] |}.
Proof. vm_compute. reflexivity. Qed.

End SafetyFacts.

(** ** The error fixer *)

Module ErrorFixerFacts.

Import ErrorFixer.

Local Open Scope Q_scope.

Lemma str_in_empty (keyword : string) :
  keyword <> "" -> Py.str_in keyword "" = false.
Proof. destruct keyword; [congruence | reflexivity]. Qed.

(** Splits on every test [_calculate_confidence] makes. *)
Ltac split_tests pattern last_command :=
  destruct (30 <? String.length pattern)%nat;
  destruct (Py.str_in "git" pattern); destruct (Py.str_in "git" last_command);
  destruct (Py.str_in "npm" pattern); destruct (Py.str_in "npm" last_command);
  destruct (Py.str_in "docker" pattern);
  destruct (Py.str_in "docker" last_command);
  destruct (Py.str_in "pip" pattern); destruct (Py.str_in "pip" last_command).

(** The chain of [elif] adds 0.15 exactly when some tool name occurs
    on both sides, as the specification words it. *)
Lemma calculate_confidence_as_claimed (pattern error_message : string)
    (last_command : option string) :
  _calculate_confidence pattern error_message last_command
  == claimed_confidence pattern last_command.
Proof.
  unfold _calculate_confidence, claimed_confidence, tool_keywords.
  destruct last_command as [last_command|].
  - destruct (String.eqb_spec last_command "") as [->|_].
    + cbn [existsb].
      rewrite !str_in_empty by discriminate. simpl.
      destruct (30 <? String.length pattern)%nat; vm_compute; reflexivity.
    + cbn [existsb].
      split_tests pattern last_command; vm_compute; reflexivity.
  - destruct (30 <? String.length pattern)%nat; vm_compute; reflexivity.
Qed.

Lemma calculate_confidence_at_least (pattern error_message : string)
    (last_command : option string) :
  0.7 <= _calculate_confidence pattern error_message last_command.
Proof.
  unfold _calculate_confidence.
  destruct last_command as [last_command|].
  - destruct (String.eqb last_command "").
    + destruct (30 <? String.length pattern)%nat;
        apply Qle_bool_iff; vm_compute; reflexivity.
    + split_tests pattern last_command;
        apply Qle_bool_iff; vm_compute; reflexivity.
  - destruct (30 <? String.length pattern)%nat;
      apply Qle_bool_iff; vm_compute; reflexivity.
Qed.

Section WithEngine.
Context `{regex_engine}.

(** The loop builds one match for each pattern that matches, in the
    order of the patterns. *)
Lemma collect_matches_hits (error_patterns : list pattern_entry)
    (error_message : string) (last_command : option string) :
  collect_matches error_patterns error_message last_command
  = map (fun e => build_match e error_message last_command)
      (List.filter (hits error_message) error_patterns).
Proof.
  unfold collect_matches, hits.
  induction error_patterns as [|e es IH]; simpl; [reflexivity|].
  rewrite IH.
  destruct (re_search (pattern e) error_message) as [[|]|]; reflexivity.
Qed.

Lemma find_fixes_at_least (error_patterns : list pattern_entry)
    (error_message : string) (last_command : option string)
    (m : error_match) :
  In m (find_fixes error_patterns error_message last_command) ->
  0.7 <= confidence m.
Proof.
  unfold find_fixes. intros Hm.
  eapply Permutation_in in Hm; [|apply PyFacts.sorted_desc_perm].
  rewrite collect_matches_hits in Hm.
  apply in_map_iff in Hm as (e & <- & _).
  apply calculate_confidence_at_least.
Qed.

(** C9.  [find_fixes] returns the matches built for the patterns
    whose regular expression matches the message, one for each; the
    confidence of the match built for a pattern is the one the
    specification words (0.7, +0.1 beyond 30 characters, +0.15 for
    a tool name shared with the last command, at most 1); the
    confidences never increase along the result; and the matches of
    one confidence stand in the order of their patterns. *)
Theorem find_fixes_sorted_by_confidence
    (error_patterns : list pattern_entry) (error_message : string)
    (last_command : option string) :
  let matching := List.filter (hits error_message) error_patterns in
  let built :=
    map (fun e => build_match e error_message last_command) matching in
  let found := find_fixes error_patterns error_message last_command in
  (forall e,
     confidence (build_match e error_message last_command)
     == claimed_confidence (pattern e) last_command)
  /\ Permutation found built
  /\ List.length found = List.length matching
  /\ Py.descending confidence found
  /\ forall v, Py.tied confidence v found = Py.tied confidence v built.
Proof.
  intros matching built found. subst found built matching.
  unfold find_fixes. rewrite collect_matches_hits.
  split; [|split; [|split; [|split]]].
  - intros e. apply calculate_confidence_as_claimed.
  - apply PyFacts.sorted_desc_perm.
  - rewrite PyFacts.sorted_desc_length. apply length_map.
  - apply PyFacts.sorted_desc_descending.
  - intros v. apply PyFacts.sorted_desc_stable.
Qed.

(** C10, as the code has it.  Every match has a confidence of 0.7
    at least, so the threshold 0.6 never hides one: [get_quick_fix]
    returns [None] exactly when [find_fixes] finds nothing, and it
    returns a fix exactly when the first match of [find_fixes]
    carries one, namely the first fix of that match; no match has
    a higher confidence than the first. *)
Theorem get_quick_fix_of_top_match
    (error_patterns : list pattern_entry) (error_message : string)
    (last_command : option string) :
  let found := find_fixes error_patterns error_message last_command in
  let quick := get_quick_fix error_patterns error_message last_command in
  (forall m, In m found -> 0.7 <= confidence m)
  /\ (quick = Py.Ok None <-> found = [])
  /\ (forall fix_,
        quick = Py.Ok (Some fix_)
        <-> exists m rest more,
              found = m :: rest /\ match_fixes m = fix_ :: more)
  /\ (forall m rest m',
        found = m :: rest -> In m' rest -> confidence m' <= confidence m).
Proof.
  intros found quick.
  assert (Hlow : forall m, In m found -> 0.7 <= confidence m).
  { intros m. apply find_fixes_at_least. }
  assert (Hsorted : Py.descending confidence found).
  { apply PyFacts.sorted_desc_descending. }
  split; [exact Hlow|].
  subst quick. unfold get_quick_fix. fold found.
  destruct found as [|m rest].
  - split; [tauto|]. split.
    + intros fix_. split; [discriminate|].
      intros (m & rest & more & Hnil & _). discriminate Hnil.
    + intros m rest m' Hnil. discriminate Hnil.
  - assert (Hover : Qle_bool (confidence m) 0.6 = false).
    { destruct (Qle_bool (confidence m) 0.6) eqn:E; [|reflexivity].
      apply Qle_bool_iff in E.
      assert (C : 0.7 <= 0.6).
      { eapply Qle_trans; [apply (Hlow m); left; reflexivity | exact E]. }
      apply Qle_bool_iff in C. vm_compute in C. discriminate C. }
    rewrite Hover. simpl.
    split; [|split].
    + split; [|discriminate].
      destruct (match_fixes m); discriminate.
    + intros fix_. split.
      * destruct (match_fixes m) as [|f more] eqn:Hfix; [discriminate|].
        intros [= ->]. exists m, rest, more. tauto.
      * intros (m0 & rest0 & more & [= <- <-] & ->). reflexivity.
    + intros m0 rest0 m' [= <- <-] Hin.
      apply StronglySorted_inv in Hsorted as [_ Hall].
      rewrite List.Forall_forall in Hall. apply Hall. exact Hin.
Qed.
End WithEngine.

(** The default database, on a message that two patterns match: the
    pattern for npm shares its tool name with the last command and
    comes first. *)
Example find_fixes_npm :
  map (fun m => (match_category m, Qred (confidence m)))
    (@find_fixes fragment_engine default_patterns
       "npm ERR! EACCES: permission denied, mkdir" (Some "npm install -g x"))
  = [("npm", 17 # 20); ("permissions", 7 # 10)].
Proof. vm_compute. reflexivity. Qed.

(** C10 as stated fails when the first match carries no fix:
    [find_fixes] finds a match, and [get_quick_fix] returns neither a
    fix nor [None], it raises [IndexError]. *)
Lemma get_quick_fix_without_fix :
  List.length
    (@find_fixes fragment_engine Examples.fixless_patterns
       "Segmentation fault (core dumped)" None) = 1%nat
  /\ @get_quick_fix fragment_engine Examples.fixless_patterns
       "Segmentation fault (core dumped)" None
     = Py.Raise Py.IndexError.
Proof. split; vm_compute; reflexivity. Qed.

End ErrorFixerFacts.

(** ** Letter case and the regular expressions *)

Module ReFacts.

Ltac by_cases_on_char c :=
  destruct c as [[] [] [] [] [] [] [] []]; reflexivity.

Lemma lower_char_idem (c : ascii) :
  Py.lower_char (Py.lower_char c) = Py.lower_char c.
Proof. by_cases_on_char c. Qed.

Lemma lower_idem (s : string) : Py.lower (Py.lower s) = Py.lower s.
Proof.
  induction s as [|c s IH]; simpl; [reflexivity|].
  rewrite lower_char_idem, IH. reflexivity.
Qed.

Lemma is_word_lower (c : ascii) : Re.is_word (Py.lower_char c) = Re.is_word c.
Proof. by_cases_on_char c. Qed.

Lemma is_space_lower (c : ascii) : Py.is_space (Py.lower_char c) = Py.is_space c.
Proof. by_cases_on_char c. Qed.

Lemma is_line_feed_lower (c : ascii) :
  Ascii.eqb (Py.lower_char c) "010" = Ascii.eqb c "010".
Proof. by_cases_on_char c. Qed.

Lemma accepts_lower (a : Re.atom) (c : ascii) :
  Re.accepts true a (Py.lower_char c) = Re.accepts true a c.
Proof.
  destruct a; simpl; unfold Re.same_char;
    rewrite ?lower_char_idem, ?is_line_feed_lower, ?is_space_lower;
    reflexivity.
Qed.

Lemma holds_at_lower (a : Re.atom) (prev : option ascii) (s : string) :
  Re.holds_at a (option_map Py.lower_char prev) (Py.lower s)
  = Re.holds_at a prev s.
Proof.
  destruct a; simpl; try reflexivity.
  - destruct prev as [p|], s as [|c s]; simpl;
      rewrite ?is_word_lower; reflexivity.
  - destruct prev; reflexivity.
Qed.

(** Under [re.IGNORECASE] a match does not depend on the letter case of
    the text. *)
Lemma match_here_lower (ps : Re.branch) :
  forall (prev : option ascii) (s : string),
    Re.match_here true ps (option_map Py.lower_char prev) (Py.lower s)
    = Re.match_here true ps prev s.
Proof.
  induction ps as [|[a q] ps IH]; intros prev s; [reflexivity|].
  assert (Hmany : forall prev s,
    (fix many (prev : option ascii) (s : string) {struct s} : bool :=
       Re.match_here true ps prev s
       || match s with
          | EmptyString => false
          | String c s' =>
              if Re.accepts true a c then many (Some c) s' else false
          end) (option_map Py.lower_char prev) (Py.lower s)
    = (fix many (prev : option ascii) (s : string) {struct s} : bool :=
       Re.match_here true ps prev s
       || match s with
          | EmptyString => false
          | String c s' =>
              if Re.accepts true a c then many (Some c) s' else false
          end) prev s).
  { intros prev' s'. revert prev'.
    induction s' as [|c s' IHs]; intros prev'.
    - simpl. rewrite <- (IH prev' ""). reflexivity.
    - cbn [Py.lower]. rewrite <- (IH prev' (String c s')). cbn [Py.lower].
      f_equal. rewrite accepts_lower.
      destruct (Re.accepts true a c); [|reflexivity].
      apply (IHs (Some c)). }
  destruct q.
  - cbn [Re.match_here]. destruct (Re.consumes a).
    + destruct s as [|c s]; [reflexivity|]. cbn [Py.lower].
      rewrite accepts_lower. f_equal. apply (IH (Some c)).
    + rewrite holds_at_lower, IH. reflexivity.
  - cbn [Re.match_here]. apply Hmany.
  - cbn [Re.match_here]. destruct s as [|c s]; [reflexivity|].
    cbn [Py.lower]. rewrite accepts_lower. f_equal. apply (Hmany (Some c)).
Qed.

Lemma existsb_agree {A : Type} (f g : A -> bool) (l : list A) :
  (forall x, f x = g x) -> existsb f l = existsb g l.
Proof.
  intros Hfg. induction l as [|x l IH]; simpl; [reflexivity|].
  rewrite Hfg, IH. reflexivity.
Qed.

Lemma search_from_lower (r : Re.regex) :
  forall (prev : option ascii) (s : string),
    Re.search_from true r (option_map Py.lower_char prev) (Py.lower s)
    = Re.search_from true r prev s.
Proof.
  intros prev s. revert prev.
  induction s as [|c s IH]; intros prev; simpl.
  - f_equal. apply existsb_agree. intros ps. apply (match_here_lower ps prev "").
  - f_equal.
    + apply existsb_agree. intros ps. apply (match_here_lower ps prev (String c s)).
    + apply (IH (Some c)).
Qed.

Lemma search_ignorecase_lower (pattern text : string) :
  Re.search true pattern (Py.lower text) = Re.search true pattern text.
Proof.
  unfold Re.search. destruct (Re.parse pattern) as [r|]; [|reflexivity].
  f_equal. apply (search_from_lower r None).
Qed.

Lemma found_ignorecase_lower (pattern text : string) :
  Re.found true pattern (Py.lower text) = Re.found true pattern text.
Proof. unfold Re.found. rewrite search_ignorecase_lower. reflexivity. Qed.

End ReFacts.

(** ** More on the ranker *)

Module RankerMore.

Local Open Scope Q_scope.

Lemma is_git_command_lower (command : string) :
  Ranker._is_git_command (Py.lower command) = Ranker._is_git_command command.
Proof.
  unfold Ranker._is_git_command, Py.any. apply ReFacts.existsb_agree.
  intros pattern. apply ReFacts.found_ignorecase_lower.
Qed.

Lemma matches_directory_type_lower (command dir_type : string) :
  Ranker._matches_directory_type (Py.lower command) dir_type
  = Ranker._matches_directory_type command dir_type.
Proof.
  unfold Ranker._matches_directory_type, Py.any. apply ReFacts.existsb_agree.
  intros dtype. apply ReFacts.existsb_agree.
  intros pattern. apply ReFacts.found_ignorecase_lower.
Qed.

Lemma matches_file_types_lower (command : string)
    (file_types : list (string * nat)) :
  Ranker._matches_file_types (Py.lower command) file_types
  = Ranker._matches_file_types command file_types.
Proof.
  unfold Ranker._matches_file_types. rewrite ReFacts.lower_idem. reflexivity.
Qed.

(** On commands written in ASCII the context score does not look at
    the letter case: two candidates whose commands are ASCII text and
    agree up to case get the same one, in every context. *)
Theorem context_score_ignores_case (c1 c2 : Model.candidate)
    (context : Model.context) :
  Py.isascii (Model.command c1) = true ->
  Py.isascii (Model.command c2) = true ->
  Py.lower (Model.command c1) = Py.lower (Model.command c2) ->
  Ranker._compute_context_score c1 context
  = Ranker._compute_context_score c2 context.
Proof.
  intros _ _ Hsame. unfold Ranker._compute_context_score.
  rewrite <- (is_git_command_lower (Model.command c1)),
          <- (is_git_command_lower (Model.command c2)),
          <- (matches_directory_type_lower (Model.command c1)),
          <- (matches_directory_type_lower (Model.command c2)),
          <- (matches_file_types_lower (Model.command c1)),
          <- (matches_file_types_lower (Model.command c2)),
          Hsame.
  reflexivity.
Qed.

Lemma context_score_ignores_case_witness :
  Py.isascii "GIT Status" = true
  /\ Py.isascii "git status" = true
  /\ Py.lower "GIT Status" = Py.lower "git status"
  /\ Ranker._compute_context_score
       {| Model.command := "GIT Status"; Model.score := 0.5; Model.rank := 0 |}
       Examples.project
     = Ranker._compute_context_score
         {| Model.command := "git status"; Model.score := 0.9; Model.rank := 3 |}
         Examples.project.
Proof.
  split; [reflexivity|]. split; [reflexivity|]. split; [reflexivity|].
  apply (context_score_ignores_case
           {| Model.command := "GIT Status"; Model.score := 0.5; Model.rank := 0 |}
           {| Model.command := "git status"; Model.score := 0.9; Model.rank := 3 |});
    reflexivity.
Defined.

(** The three bonuses add up to 0.8 at most, so the cap at 1.0 is never
    reached: the context score lies between 0 and 0.8. *)
Lemma context_score_range (candidate : Model.candidate)
    (context : Model.context) :
  0 <= Ranker._compute_context_score candidate context
  /\ Ranker._compute_context_score candidate context <= 0.8.
Proof.
  unfold Ranker._compute_context_score.
  destruct (Model.is_git_repo (Model.git context)
            && Ranker._is_git_command (Model.command candidate));
    destruct (negb (String.eqb (Model.directory_type context) "")
              && negb (String.eqb (Model.directory_type context) "general")
              && Ranker._matches_directory_type (Model.command candidate)
                   (Model.directory_type context));
    destruct (negb (Nat.eqb (List.length (Model.file_types context)) 0)
              && Ranker._matches_file_types (Model.command candidate)
                   (Model.file_types context));
    split; apply Qle_bool_iff; vm_compute; reflexivity.
Qed.

(** Every entry [rank] returns is one of the candidates, scored. *)
Lemma rank_entries (candidates : list Model.candidate)
    (context : Model.context) (max_results : Z) (s : Model.suggestion) :
  In s (Ranker.rank candidates context max_results) ->
  exists c, In c candidates /\ s = Ranker.score_candidate context c.
Proof.
  unfold Ranker.rank. destruct candidates as [|c0 cs]; [contradiction|].
  unfold Py.slice_to. intros Hs.
  assert (Hin : In s (Py.sorted_desc Model.final_score
                        (map (Ranker.score_candidate context) (c0 :: cs)))).
  { destruct (0 <=? max_results)%Z; eapply RetrieverFacts.in_firstn; exact Hs. }
  eapply Permutation_in in Hin; [|apply PyFacts.sorted_desc_perm].
  apply in_map_iff in Hin as (c & <- & Hc). exists c. tauto.
Qed.

(** Whatever the limit, each entry [rank] returns carries one of the
    candidates given, with its score as semantic score and no safety
    note; its context score lies between 0 and 0.8, and its final
    score between half its semantic score and that plus 0.4. *)
Theorem rank_scores_in_range (candidates : list Model.candidate)
    (context : Model.context) (max_results : Z) (s : Model.suggestion) :
  In s (Ranker.rank candidates context max_results) ->
  In (Model.entry s) candidates
  /\ Model.semantic_score s = Model.score (Model.entry s)
  /\ Model.safety s = None
  /\ 0 <= Model.context_score s <= 0.8
  /\ 0.5 * Model.semantic_score s <= Model.final_score s
     <= 0.5 * Model.semantic_score s + 0.4.
Proof.
  intros Hs. apply rank_entries in Hs as (c & Hc & ->). simpl.
  pose proof (context_score_range c context) as [Hlo Hhi].
  split; [exact Hc|]. split; [reflexivity|]. split; [reflexivity|].
  split; [split; assumption|].
  unfold Ranker.semantic_similarity.
  set (x := Ranker._compute_context_score c context) in *.
  set (y := Model.score c).
  assert (E : 0.5 * y + (1 - 0.5) * x == 0.5 * y + 0.5 * x) by ring.
  rewrite E. split.
  - rewrite <- (Qplus_0_r (0.5 * y)) at 1.
    apply Qplus_le_r.
    apply Qmult_le_0_compat; [apply Qle_bool_iff; reflexivity | exact Hlo].
  - apply Qplus_le_r.
    assert (E4 : 0.4 == 0.5 * 0.8) by reflexivity.
    rewrite E4. apply Qmult_le_l; [reflexivity | exact Hhi].
Qed.

Lemma rank_scores_in_range_witness :
  In (Ranker.score_candidate Examples.project
        {| Model.command := "ls"; Model.score := 0.9; Model.rank := 0 |})
     (Ranker.rank Examples.retrieved Examples.project 2)
  /\ In {| Model.command := "ls"; Model.score := 0.9; Model.rank := 0 |}
        Examples.retrieved.
Proof.
  assert (Hin : In (Ranker.score_candidate Examples.project
                      {| Model.command := "ls"; Model.score := 0.9;
                         Model.rank := 0 |})
                   (Ranker.rank Examples.retrieved Examples.project 2))
    by (vm_compute; left; reflexivity).
  split; [exact Hin|].
  exact (proj1 (rank_scores_in_range Examples.retrieved Examples.project 2
                  _ Hin)).
Defined.

(** A limit that is not below the number of candidates drops nothing:
    [rank] returns all of them, scored and rearranged. *)
Theorem rank_keeps_all_within_limit (candidates : list Model.candidate)
    (context : Model.context) (max_results : Z) :
  (Z.of_nat (List.length candidates) <= max_results)%Z ->
  Permutation (Ranker.rank candidates context max_results)
    (map (Ranker.score_candidate context) candidates).
Proof.
  intros Hmax. rewrite RankerFacts.rank_unfold by lia.
  rewrite firstn_all2.
  - apply PyFacts.sorted_desc_perm.
  - rewrite PyFacts.sorted_desc_length, length_map. lia.
Qed.

Lemma rank_keeps_all_within_limit_witness :
  (Z.of_nat (List.length Examples.retrieved) <= 5)%Z
  /\ Permutation (Ranker.rank Examples.retrieved Examples.project 5)
       (map (Ranker.score_candidate Examples.project) Examples.retrieved).
Proof.
  split.
  - vm_compute. discriminate.
  - apply rank_keeps_all_within_limit. vm_compute. discriminate.
Defined.

(** What [rank] returns when the limit is negative: the stable
    descending sort of the scored candidates without its last entries,
    as many as the limit says. *)
Lemma rank_negative_unfold (candidates : list Model.candidate)
    (context : Model.context) (n : positive) :
  Ranker.rank candidates context (Z.neg n)
  = firstn (List.length candidates - Pos.to_nat n)
      (Py.sorted_desc Model.final_score
         (map (Ranker.score_candidate context) candidates)).
Proof.
  unfold Ranker.rank. destruct candidates as [|c cs]; [reflexivity|].
  unfold Py.slice_to.
  change (0 <=? Z.neg n)%Z with false. cbv iota.
  change (- Z.neg n)%Z with (Z.pos n).
  rewrite PyFacts.sorted_desc_length, length_map, Z2Nat.inj_pos.
  reflexivity.
Qed.

(** A negative limit [-n] does not bound the result: [rank] returns
    the stable descending sort of the scored candidates without its
    last [n] entries (without any entry when there are [n] or fewer).
    The result followed by the [dropped] entries is the rearrangement
    of all the scored candidates whose final scores never increase and
    in which the entries of any one final score stand in their
    retrieval order; [dropped] has [n] entries, or all of them. *)
Theorem rank_negative_limit_drops_from_the_end
    (candidates : list Model.candidate) (context : Model.context) (n : positive) :
  let scored := map (Ranker.score_candidate context) candidates in
  let out := Ranker.rank candidates context (Z.neg n) in
  List.length out = (List.length candidates - Pos.to_nat n)%nat
  /\ exists dropped,
       List.length dropped
       = Nat.min (Pos.to_nat n) (List.length candidates)
       /\ Permutation (out ++ dropped)%list scored
       /\ Py.descending Model.final_score (out ++ dropped)%list
       /\ forall v, Py.tied Model.final_score v (out ++ dropped)%list
                    = Py.tied Model.final_score v scored.
Proof.
  intros scored out. subst out. rewrite rank_negative_unfold. fold scored.
  set (ranked := Py.sorted_desc Model.final_score scored).
  set (m := (List.length candidates - Pos.to_nat n)%nat).
  assert (Hlen : List.length ranked = List.length candidates).
  { subst ranked scored. rewrite PyFacts.sorted_desc_length. apply length_map. }
  split.
  - rewrite length_firstn, Hlen. subst m. lia.
  - exists (skipn m ranked). rewrite firstn_skipn.
    split; [|split; [|split]].
    + rewrite length_skipn, Hlen. subst m. lia.
    + apply PyFacts.sorted_desc_perm.
    + apply PyFacts.sorted_desc_descending.
    + intros v. apply PyFacts.sorted_desc_stable.
Qed.

End RankerMore.

(** ** More on the safety checker *)

Module SafetyMore.

Import Safety.

Lemma prefix_app_l (p q s : string) :
  String.prefix (p ++ q) s = true -> String.prefix p s = true.
Proof.
  revert s. induction p as [|c p IH]; intros s.
  - intros _. destruct s; reflexivity.
  - destruct s as [|d s]; simpl; [discriminate|].
    destruct (ascii_dec c d); [apply IH | discriminate].
Qed.

(** A text that holds [p ++ q] holds [p]. *)
Lemma str_in_app_l (p q s : string) :
  Py.str_in (p ++ q) s = true -> Py.str_in p s = true.
Proof.
  induction s as [|d s IH]; cbn [Py.str_in]; intros H.
  - apply orb_true_iff in H as [H|H]; [|discriminate].
    apply prefix_app_l in H. rewrite H. reflexivity.
  - apply orb_true_iff in H as [H|H].
    + apply prefix_app_l in H. rewrite H. reflexivity.
    + rewrite (IH H). apply orb_true_r.
Qed.

(** A pattern of the table that occurs in the lowered command leaves
    its reason. *)
Lemma destructive_reasons_fire (key pattern : string) (patterns : list string)
    (command_lower : string) :
  In (key, patterns) DESTRUCTIVE_COMMANDS ->
  In pattern patterns ->
  Py.str_in pattern command_lower = true ->
  In (String.append "Contains destructive pattern: " pattern)
     (destructive_reasons command_lower).
Proof.
  intros Hkey Hpat Hin. unfold destructive_reasons.
  apply in_flat_map. exists (key, patterns). split; [exact Hkey|].
  apply in_flat_map. exists pattern. split; [exact Hpat|].
  simpl. rewrite Hin. left. reflexivity.
Qed.

(** The level, the warning and the reasons go together: a command is
    [SAFE] exactly when no pass left a reason, and exactly then it has
    no warning; [is_safe] and [get_warning_message] say the same. *)
Theorem check_command_level_and_reasons (command : string) :
  (level (check_command command) = SAFE
   <-> reasons (check_command command) = [])
  /\ (warning (check_command command) = None
      <-> level (check_command command) = SAFE)
  /\ (is_safe command = true <-> reasons (check_command command) = [])
  /\ (get_warning_message command = None
      <-> reasons (check_command command) = []).
Proof.
  unfold is_safe, get_warning_message, check_command.
  set (x := Py.lower (Py.strip command)).
  destruct (_ ++ _)%list as [|r rs].
  - simpl. tauto.
  - destruct (Py.any _ _); simpl; repeat split; intros; discriminate.
Qed.

(** A command is [DANGEROUS] exactly when its trimmed, lower-cased text
    holds one of the three indicators ["rm -rf /"], ["dd of=/dev/sda"]
    and ["mkfs."], wherever it stands and whatever surrounds it. *)
Theorem dangerous_iff_indicator (command : string) :
  level (check_command command) = DANGEROUS
  <-> Py.any
        (fun indicator => Py.str_in indicator (Py.lower (Py.strip command)))
        ["rm -rf /"; "dd of=/dev/sda"; "mkfs."] = true.
Proof.
  unfold check_command.
  set (x := Py.lower (Py.strip command)).
  assert (Hfire :
    Py.any (fun indicator => Py.str_in indicator x)
      ["rm -rf /"; "dd of=/dev/sda"; "mkfs."] = true ->
    destructive_reasons x <> []).
  { unfold Py.any. simpl. rewrite !orb_true_iff.
    intros [H|[H|[H|H]]]; [| | |discriminate].
    - apply (str_in_app_l "rm -rf" " /") in H.
      intros Hnil.
      pose proof (destructive_reasons_fire "rm" "rm -rf" _ x
                    ltac:(simpl; tauto) ltac:(simpl; tauto) H) as Hin.
      rewrite Hnil in Hin. exact Hin.
    - apply (str_in_app_l "dd of=" "/dev/sda") in H.
      intros Hnil.
      pose proof (destructive_reasons_fire "dd" "dd of=" _ x
                    ltac:(simpl; tauto) ltac:(simpl; tauto) H) as Hin.
      rewrite Hnil in Hin. exact Hin.
    - intros Hnil.
      pose proof (destructive_reasons_fire "mkfs" "mkfs." _ x
                    ltac:(simpl; tauto) ltac:(simpl; tauto) H) as Hin.
      rewrite Hnil in Hin. exact Hin. }
  destruct (Py.any (fun indicator => Py.str_in indicator x) _) eqn:Hany.
  - specialize (Hfire eq_refl).
    destruct (destructive_reasons x) as [|r rs] eqn:Hd; [congruence|].
    simpl. tauto.
  - destruct (_ ++ _)%list; simpl; split; intros; discriminate.
Qed.

(** Any pattern of the table of destructive commands, anywhere in the
    trimmed and lower-cased command, leaves its reason and takes the
    level [SAFE] away; so does every command that holds ["format"],
    ["fdisk"], ["parted"], ["shred"] or ["wipefs"] as part of a word. *)
Theorem destructive_pattern_is_never_safe (command key pattern : string)
    (patterns : list string) :
  In (key, patterns) DESTRUCTIVE_COMMANDS ->
  In pattern patterns ->
  Py.str_in pattern (Py.lower (Py.strip command)) = true ->
  In (String.append "Contains destructive pattern: " pattern)
     (reasons (check_command command))
  /\ level (check_command command) <> SAFE
  /\ is_safe command = false.
Proof.
  intros Hkey Hpat Hin.
  pose proof (destructive_reasons_fire _ _ _ _ Hkey Hpat Hin) as Hfire.
  unfold is_safe, check_command.
  set (x := Py.lower (Py.strip command)) in *.
  assert (Hall : In (String.append "Contains destructive pattern: " pattern)
                    (destructive_reasons x ++ sudo_reasons x
                     ++ critical_path_reasons command x
                     ++ preserve_root_reasons x
                     ++ forced_reasons command x)%list).
  { apply in_or_app. left. exact Hfire. }
  destruct (_ ++ _)%list as [|r rs]; [contradiction|].
  destruct (Py.any _ _); simpl; repeat split; try exact Hall; discriminate.
Qed.

Lemma destructive_pattern_is_never_safe_witness :
  In ("format", ["format"]) DESTRUCTIVE_COMMANDS
  /\ In "format" ["format"]
  /\ Py.str_in "format" (Py.lower (Py.strip "git format-patch -1")) = true
  /\ is_safe "git format-patch -1" = false.
Proof.
  assert (Hkey : In ("format", ["format"]) DESTRUCTIVE_COMMANDS)
    by (simpl; tauto).
  assert (Hpat : In "format" ["format"]) by (simpl; tauto).
  assert (Hin : Py.str_in "format"
                  (Py.lower (Py.strip "git format-patch -1")) = true)
    by reflexivity.
  split; [exact Hkey|]. split; [exact Hpat|]. split; [exact Hin|].
  exact (proj2 (proj2 (destructive_pattern_is_never_safe
                         "git format-patch -1" "format" "format" ["format"]
                         Hkey Hpat Hin))).
Defined.

(** *** The patterns with a capital letter *)

Lemma lower_char_not_upper (c : ascii) : Py.is_upper (Py.lower_char c) = false.
Proof. destruct c as [[] [] [] [] [] [] [] []]; reflexivity. Qed.

(** No capital letter is left in a lowered text. *)
Lemma no_upper_in_lower (c : ascii) (text : string) :
  Py.is_upper c = true ->
  Py.str_in (String c "") (Py.lower text) = false.
Proof.
  intros Hup. induction text as [|a text IH]; [reflexivity|].
  cbn [Py.lower Py.str_in]. rewrite IH, orb_false_r.
  simpl. destruct (ascii_dec c (Py.lower_char a)) as [->|_]; [|reflexivity].
  rewrite lower_char_not_upper in Hup. discriminate.
Qed.

Lemma str_in_tail (p : string) (c : ascii) (s : string) :
  Py.str_in p s = true -> Py.str_in p (String c s) = true.
Proof. intros H. cbn [Py.str_in]. rewrite H. apply orb_true_r. Qed.

(** A branch that asks for the character [l] matches only where the
    text holds [l]. *)
Lemma match_here_needs_literal (l : ascii) (ps : Re.branch) :
  In (Re.Lit l, Re.Once) ps ->
  forall (prev : option ascii) (s : string),
    Re.match_here false ps prev s = true ->
    Py.str_in (String l "") s = true.
Proof.
  induction ps as [|[a q] ps IH]; intros Hin prev s; [contradiction|].
  destruct Hin as [[= -> ->]|Hin].
  - cbn [Re.match_here Re.consumes].
    destruct s as [|c s]; [discriminate|].
    intros H. apply andb_true_iff in H as [H _].
    simpl in H. apply Ascii.eqb_eq in H as ->.
    simpl. destruct (ascii_dec l l); [|congruence].
    destruct s; reflexivity.
  - specialize (IH Hin).
    assert (Hmany : forall prev s,
      (fix many (prev : option ascii) (s : string) {struct s} : bool :=
         Re.match_here false ps prev s
         || match s with
            | EmptyString => false
            | String c s' =>
                if Re.accepts false a c then many (Some c) s' else false
            end) prev s = true ->
      Py.str_in (String l "") s = true).
    { intros prev' s'. revert prev'.
      induction s' as [|c s' IHs]; intros prev' H;
        apply orb_true_iff in H as [H|H]; try discriminate;
        try (eapply IH; exact H).
      destruct (Re.accepts false a c); [|discriminate].
      apply str_in_tail. eapply IHs. exact H. }
    destruct q; cbn [Re.match_here].
    + destruct (Re.consumes a).
      * destruct s as [|c s]; [discriminate|].
        intros H. apply andb_true_iff in H as [_ H].
        apply str_in_tail. eapply IH. exact H.
      * intros H. apply andb_true_iff in H as [_ H]. eapply IH. exact H.
    + apply Hmany.
    + destruct s as [|c s]; [discriminate|].
      intros H. apply andb_true_iff in H as [_ H].
      apply str_in_tail. eapply Hmany. exact H.
Qed.

Lemma search_needs_literal (l : ascii) (r : Re.regex) :
  List.Forall (fun ps => In (Re.Lit l, Re.Once) ps) r ->
  forall (prev : option ascii) (s : string),
    Re.search_from false r prev s = true ->
    Py.str_in (String l "") s = true.
Proof.
  intros Hall prev s. revert prev.
  induction s as [|c s IH]; intros prev H; simpl in H;
    apply orb_true_iff in H as [H|H]; try discriminate.
  - apply existsb_exists in H as (ps & Hps & Hm).
    rewrite List.Forall_forall in Hall.
    eapply match_here_needs_literal; [apply Hall; exact Hps | exact Hm].
  - apply existsb_exists in H as (ps & Hps & Hm).
    rewrite List.Forall_forall in Hall.
    eapply match_here_needs_literal; [apply Hall; exact Hps | exact Hm].
  - apply str_in_tail. eapply IH. exact H.
Qed.

(** Two of the five patterns for [sudo] ask for [-R], and are matched
    against the lower-cased command: they never match, whatever the
    command.  A recursive [chmod 777] or [chown] under [sudo] is
    flagged only if another pass fires. *)
Theorem sudo_patterns_with_capital_never_match (command : string) :
  Re.found false "sudo\s+chmod\s+-R\s+777" (Py.lower (Py.strip command))
  = false
  /\ Re.found false "sudo\s+chown\s+-R" (Py.lower (Py.strip command))
     = false
  /\ sudo_reasons (Py.lower (Py.strip command))
     = flat_map
         (fun pattern =>
            if Re.found false pattern (Py.lower (Py.strip command))
            then ["Dangerous sudo command detected"] else [])
         ["sudo\s+rm\s+-[rf]+"; "sudo\s+dd"; "sudo\s+mkfs"].
Proof.
  set (x := Py.strip command).
  assert (H4 : Re.found false "sudo\s+chmod\s+-R\s+777" (Py.lower x) = false).
  { unfold Re.found, Re.search.
    destruct (Re.parse "sudo\s+chmod\s+-R\s+777") as [r|] eqn:Hr; [|reflexivity].
    vm_compute in Hr. injection Hr as <-.
    destruct (Re.search_from false _ None (Py.lower x)) eqn:Hs; [|reflexivity].
    apply (search_needs_literal "R") in Hs.
    - rewrite no_upper_in_lower in Hs by reflexivity. discriminate.
    - repeat constructor; simpl; tauto. }
  assert (H5 : Re.found false "sudo\s+chown\s+-R" (Py.lower x) = false).
  { unfold Re.found, Re.search.
    destruct (Re.parse "sudo\s+chown\s+-R") as [r|] eqn:Hr; [|reflexivity].
    vm_compute in Hr. injection Hr as <-.
    destruct (Re.search_from false _ None (Py.lower x)) eqn:Hs; [|reflexivity].
    apply (search_needs_literal "R") in Hs.
    - rewrite no_upper_in_lower in Hs by reflexivity. discriminate.
    - repeat constructor; simpl; tauto. }
  split; [exact H4|]. split; [exact H5|].
  unfold sudo_reasons, SUDO_DANGEROUS_PATTERNS.
  cbn [flat_map]. rewrite H4, H5. reflexivity.
Qed.

(** The repository's own example of a sudo combination comes out
    [SAFE]. *)
Example chmod_777_is_safe :
  check_command "sudo chmod -R 777 /etc"
  = {| level := SAFE; warning := None; reasons := [] |}.
Proof. vm_compute. reflexivity. Qed.

End SafetyMore.

(** ** More on the retriever *)

Module RetrieverMore.

Import Retriever.

Local Open Scope Q_scope.

(** *** Arithmetic of the score *)

Lemma square_nonneg (x : Q) : 0 <= x * x.
Proof. unfold Qle, Qmult. simpl. nia. Qed.

Lemma similarity_form (dist : Q) :
  1 - (dist ^ 2 / 2) == 1 - dist * dist * (1 # 2).
Proof.
  unfold Qdiv. change (dist ^ 2) with (dist * dist).
  change (/ 2) with (1 # 2). ring.
Qed.

Lemma similarity_at_most_one (dist : Q) : 1 - (dist ^ 2 / 2) <= 1.
Proof. rewrite similarity_form. pose proof (square_nonneg dist). lra. Qed.

Lemma similarity_antitone (a b : Q) :
  0 <= a -> a <= b -> 1 - (b ^ 2 / 2) <= 1 - (a ^ 2 / 2).
Proof.
  intros Ha Hab.
  assert (H : a * a <= b * b)
    by (apply Qmult_le_compat_nonneg; split; assumption).
  rewrite !similarity_form. lra.
Qed.

Lemma sqdist_nonneg (x y : Embedder.vector) : 0 <= Faiss.sqdist x y.
Proof.
  unfold Faiss.sqdist.
  induction (combine x y) as [|p l IH]; simpl; [apply Qle_refl|].
  pose proof (square_nonneg (fst p - snd p)). lra.
Qed.

Lemma sqdist_self (x : Embedder.vector) : Faiss.sqdist x x == 0.
Proof.
  unfold Faiss.sqdist. induction x as [|a x IH]; simpl; [reflexivity|].
  rewrite IH. ring.
Qed.

(** *** What a search returns *)

(** The rows the index reports for a query: distance and position,
    nearest first. *)
Lemma faiss_search_rows (i : Faiss.IndexFlatL2) (x : Embedder.vector) (k : Z) :
  (0 < k)%Z ->
  exists rows,
    Faiss.search i x k = Py.Ok (map fst rows, map snd rows)
    /\ rows = firstn (Z.to_nat k)
                (Py.sorted_desc (fun p : Q * nat => - fst p)
                   (combine (map (Faiss.sqdist x) (Faiss.xb i))
                      (seq 0 (Faiss.ntotal i)))).
Proof.
  intros Hk. unfold Faiss.search.
  destruct (Z.leb_spec k 0); [lia|]. eexists. split; reflexivity.
Qed.

Lemma table_positions {A B : Type} (g : A -> B) (l : list A) (start : nat)
    (p : B * nat) :
  In p (combine (map g l) (seq start (List.length l))) ->
  exists a, nth_error l (snd p - start) = Some a /\ fst p = g a
            /\ (start <= snd p < start + List.length l)%nat.
Proof.
  revert start. induction l as [|a l IH]; intros start; simpl; [tauto|].
  intros [<-|H].
  - exists a. simpl. rewrite Nat.sub_diag. simpl.
    split; [reflexivity|]. split; [reflexivity | lia].
  - destruct (IH _ H) as (a' & Hnth & Hb & Hle).
    exists a'. replace (snd p - start)%nat with (S (snd p - S start)) by lia.
    simpl. split; [exact Hnth|]. split; [exact Hb | lia].
Qed.

Lemma table_holds {A B : Type} (g : A -> B) (l : list A) (start : nat) (a : A) :
  In a l ->
  exists idx, In (g a, idx) (combine (map g l) (seq start (List.length l))).
Proof.
  revert start. induction l as [|b l IH]; intros start; simpl; [tauto|].
  intros [->|H].
  - exists start. left. reflexivity.
  - destruct (IH (S start) H) as (idx & Hidx). exists idx. right. exact Hidx.
Qed.

(** With every position inside the command list, each row gives one
    result, numbered from [start]. *)
Lemma build_rows (cmds : list string) (f : Q -> Q) (rows : list (Q * nat)) :
  List.Forall (fun p => (snd p < List.length cmds)%nat) rows ->
  forall start : nat,
    flat_map
      (fun item : nat * (nat * Q) =>
         let '(rank, (idx, score)) := item in
         if (idx <? List.length cmds)%nat then
           match nth_error cmds idx with
           | Some c => [ {| Model.command := c; Model.score := score;
                            Model.rank := rank |} ]
           | None => []
           end
         else [])
      (combine (seq start (List.length (map snd rows)))
         (combine (map snd rows) (map f (map fst rows))))
    = map (fun item : nat * (Q * nat) =>
             {| Model.command := nth (snd (snd item)) cmds "";
                Model.score := f (fst (snd item));
                Model.rank := fst item |})
        (combine (seq start (List.length rows)) rows).
Proof.
  induction 1 as [|p rows Hp _ IH]; intros start; [reflexivity|].
  simpl. destruct (Nat.ltb_spec (snd p) (List.length cmds)); [|lia].
  rewrite (nth_error_nth' cmds "" Hp). simpl. f_equal. apply IH.
Qed.

Lemma map_rank_rows {A : Type} (h : nat * A -> Model.candidate)
    (rows : list A) :
  (forall item, Model.rank (h item) = fst item) ->
  forall start : nat,
    map Model.rank (map h (combine (seq start (List.length rows)) rows))
    = seq start (List.length rows).
Proof.
  intros Hh. induction rows as [|p rows IH]; intros start; [reflexivity|].
  simpl. rewrite Hh, IH. reflexivity.
Qed.

Lemma rows_descending (cmds : list string) (rows : list (Q * nat)) :
  List.Forall (fun p => 0 <= fst p) rows ->
  Py.descending (fun p : Q * nat => - fst p) rows ->
  forall start : nat,
    Py.descending Model.score
      (map (fun item : nat * (Q * nat) =>
              {| Model.command := nth (snd (snd item)) cmds "";
                 Model.score := 1 - (fst (snd item) ^ 2 / 2);
                 Model.rank := fst item |})
         (combine (seq start (List.length rows)) rows)).
Proof.
  unfold Py.descending.
  induction rows as [|p rows IH]; intros Hpos Hsorted start;
    [constructor|].
  apply StronglySorted_inv in Hsorted as [Hsorted Hall].
  inversion Hpos as [|? ? Hp Hpos']; subst.
  simpl. constructor; [apply IH; assumption|].
  apply List.Forall_forall. intros c Hc.
  apply in_map_iff in Hc as ([r q] & <- & Hq). simpl.
  apply in_combine_r in Hq.
  rewrite List.Forall_forall in Hall. specialize (Hall q Hq). simpl in Hall.
  apply similarity_antitone; [exact Hp | lra].
Qed.

(** A search on an index with vectors, at positions all inside the
    command list: its results, row by row. *)
Lemma search_rows (query : string) (k : Z) (context : option Model.context)
    (w : world) (i : Faiss.IndexFlatL2) :
  index (self w) = Some i ->
  List.length (commands (self w)) = Faiss.ntotal i ->
  Faiss.ntotal i <> 0%nat ->
  (0 < k)%Z ->
  exists rows,
    rows = firstn (Z.to_nat (Z.min k (Z.of_nat (Faiss.ntotal i))))
             (Py.sorted_desc (fun p : Q * nat => - fst p)
                (combine
                   (map (Faiss.sqdist
                           (Embedder.embed_command (embedder (self w)) query
                              context))
                      (Faiss.xb i))
                   (seq 0 (Faiss.ntotal i))))
    /\ (forall p, In p rows ->
          exists v, nth_error (Faiss.xb i) (snd p) = Some v
                    /\ fst p
                       = Faiss.sqdist
                           (Embedder.embed_command (embedder (self w)) query
                              context) v
                    /\ (snd p < List.length (commands (self w)))%nat)
    /\ search query k context w
       = (Py.Ok
            (map (fun item : nat * (Q * nat) =>
                    {| Model.command := nth (snd (snd item)) (commands (self w)) "";
                       Model.score := 1 - (fst (snd item) ^ 2 / 2);
                       Model.rank := fst item |})
               (combine (seq 0 (List.length rows)) rows)),
          w).
Proof.
  intros Hi Hpar Hsome Hk. unfold search. rewrite Hi.
  destruct (Nat.eqb_spec (Faiss.ntotal i) 0) as [Hzero|_]; [contradiction|].
  set (q := Embedder.embed_command (embedder (self w)) query context).
  set (k' := Z.min k (Z.of_nat (Faiss.ntotal i))).
  destruct (faiss_search_rows i q k' ltac:(lia)) as (rows & -> & Hrows).
  exists rows. split; [exact Hrows|].
  assert (Hin : forall p, In p rows ->
            exists v, nth_error (Faiss.xb i) (snd p) = Some v
                      /\ fst p = Faiss.sqdist q v
                      /\ (snd p < List.length (commands (self w)))%nat).
  { intros p Hp. rewrite Hrows in Hp.
    apply RetrieverFacts.in_firstn in Hp.
    eapply Permutation_in in Hp; [|apply PyFacts.sorted_desc_perm].
    apply table_positions in Hp as (v & Hv & Hd & Hlt).
    rewrite Nat.sub_0_r in Hv. exists v.
    split; [exact Hv|]. split; [exact Hd|].
    unfold Faiss.ntotal in Hpar. lia. }
  split; [exact Hin|].
  unfold build_results. rewrite map_map.
  rewrite <- (map_map fst (fun dist => 1 - dist ^ 2 / 2)).
  rewrite (build_rows _ (fun dist => 1 - dist ^ 2 / 2) rows).
  - reflexivity.
  - apply List.Forall_forall. intros p Hp.
    destruct (Hin p Hp) as (v & _ & _ & Hlt). exact Hlt.
Qed.

(** On a retriever whose commands and vectors are parallel, and whose
    index has the dimension of the embedding of the query, a search
    for [k > 0] candidates returns as many results as asked for, or as
    the index has vectors, whichever is less; they are numbered 0, 1,
    2, ...; their scores never increase and never exceed 1; every
    command comes from the command list; and nothing is changed. *)
Theorem search_returns_the_nearest (query : string) (k : Z)
    (context : option Model.context) (w : world) (i : Faiss.IndexFlatL2) :
  index (self w) = Some i ->
  List.length (Embedder.embed_command (embedder (self w)) query context)
  = Faiss.d i ->
  parallel (self w) ->
  (0 < k)%Z ->
  exists results,
    search query k context w = (Py.Ok results, w)
    /\ List.length results = Nat.min (Z.to_nat k) (Faiss.ntotal i)
    /\ map Model.rank results = seq 0 (List.length results)
    /\ Py.descending Model.score results
    /\ List.Forall
         (fun c => Model.score c <= 1
                   /\ In (Model.command c) (commands (self w)))
         results.
Proof.
  intros Hi _ Hpar Hk. unfold parallel, vector_count in Hpar.
  rewrite Hi in Hpar.
  destruct (Nat.eq_dec (Faiss.ntotal i) 0%nat) as [Hzero|Hsome].
  - exists []. unfold search. rewrite Hi, Hzero, Nat.min_0_r.
    repeat split; constructor.
  - destruct (search_rows query k context w i Hi Hpar Hsome Hk)
      as (rows & Hrows & Hin & ->).
    eexists. split; [reflexivity|].
    assert (Hlen : List.length rows
                   = Nat.min (Z.to_nat k) (Faiss.ntotal i)).
    { rewrite Hrows, length_firstn, PyFacts.sorted_desc_length.
      rewrite length_combine, length_map, length_seq.
      unfold Faiss.ntotal. lia. }
    split; [|split; [|split]].
    + rewrite length_map, length_combine, length_seq. lia.
    + rewrite length_map, length_combine, length_seq, Nat.min_id.
      apply map_rank_rows. reflexivity.
    + apply rows_descending.
      * apply List.Forall_forall. intros p Hp.
        destruct (Hin p Hp) as (v & _ & -> & _). apply sqdist_nonneg.
      * rewrite Hrows. apply PyFacts.descending_firstn,
          PyFacts.sorted_desc_descending.
    + apply List.Forall_forall. intros c Hc.
      apply in_map_iff in Hc as ([r p] & <- & Hp). simpl.
      apply in_combine_r in Hp. split.
      * apply similarity_at_most_one.
      * apply nth_In. destruct (Hin p Hp) as (v & _ & _ & Hlt). exact Hlt.
Qed.

Lemma search_returns_the_nearest_witness :
  index (self (Examples.built ["north"; "east"; "north"; "south"]))
  = Some (Faiss.add (Faiss.new 384)
            (Embedder.embed Examples.compass
               ["north"; "east"; "north"; "south"]))
  /\ List.length (Embedder.embed_command Examples.compass "north" None)
     = 384%nat
  /\ parallel (self (Examples.built ["north"; "east"; "north"; "south"]))
  /\ (0 < 3)%Z
  /\ exists results,
       search "north" 3 None (Examples.built ["north"; "east"; "north"; "south"])
       = (Py.Ok results, Examples.built ["north"; "east"; "north"; "south"])
       /\ List.length results = 3%nat.
Proof.
  assert (Hi : index (self (Examples.built ["north"; "east"; "north"; "south"]))
               = Some (Faiss.add (Faiss.new 384)
                         (Embedder.embed Examples.compass
                            ["north"; "east"; "north"; "south"])))
    by reflexivity.
  assert (Hpar : parallel
                   (self (Examples.built ["north"; "east"; "north"; "south"])))
    by reflexivity.
  assert (Hk : (0 < 3)%Z) by lia.
  assert (Hdim : List.length
                   (Embedder.embed_command Examples.compass "north" None)
                 = 384%nat) by reflexivity.
  split; [exact Hi|]. split; [exact Hdim|]. split; [exact Hpar|].
  split; [exact Hk|].
  destruct (search_returns_the_nearest "north" 3 None _ _ Hi Hdim Hpar Hk)
    as (results & Hrun & Hlen & _).
  exists results. split; [exact Hrun | exact Hlen].
Defined.

(** *** Commands and their vectors *)

Lemma aligned_parallel (r : t) : aligned r -> parallel r.
Proof.
  unfold aligned, parallel, vector_count.
  destruct (index r) as [i|].
  - intros H. unfold Faiss.ntotal. rewrite H.
    symmetry. apply RetrieverFacts.embed_length.
  - intros ->. reflexivity.
Qed.

(** A successful [build_index] replaces whatever was there: the
    commands are the list given, vector [i] is the embedding of command
    [i], and the metadata and [get_stats] count the list given. *)
Theorem build_index_replaces_everything (cmds : list string) (save : bool)
    (w w' : world) :
  build_index cmds save w = (Py.Ok tt, w') ->
  commands (self w') = cmds
  /\ aligned (self w')
  /\ metadata (self w') !! "num_commands"
     = Some (MInt (Z.of_nat (List.length cmds)))
  /\ loaded (get_stats (self w')) = true
  /\ num_commands (get_stats (self w')) = Some (List.length cmds).
Proof.
  unfold build_index. destruct cmds as [|c cs]; [discriminate|].
  set (r := set_metadata _ _).
  assert (Hr : commands r = c :: cs
               /\ aligned r
               /\ metadata r !! "num_commands"
                  = Some (MInt (Z.of_nat (List.length (c :: cs))))
               /\ loaded (get_stats r) = true
               /\ num_commands (get_stats r) = Some (List.length (c :: cs))).
  { subst r. unfold aligned, get_stats, set_metadata, set_commands, set_index.
    cbn [index commands metadata embedder loaded num_commands].
    split; [reflexivity|]. split; [reflexivity|].
    split; [reflexivity|]. split; [reflexivity|].
    rewrite RetrieverFacts.ntotal_add, RetrieverFacts.embed_length.
    reflexivity. }
  destruct save.
  - intros Hsave. apply RetrieverFacts.save_index_ok in Hsave as [Hself _].
    simpl in Hself. rewrite Hself. exact Hr.
  - intros [= <-]. exact Hr.
Qed.

Lemma build_index_replaces_everything_witness :
  build_index ["east"; "south"] true (Examples.saved ["north"])
  = (Py.Ok tt, snd (build_index ["east"; "south"] true (Examples.saved ["north"])))
  /\ commands
       (self (snd (build_index ["east"; "south"] true (Examples.saved ["north"]))))
     = ["east"; "south"].
Proof.
  assert (Hrun : build_index ["east"; "south"] true (Examples.saved ["north"])
                 = (Py.Ok tt,
                    snd (build_index ["east"; "south"] true
                           (Examples.saved ["north"]))))
    by reflexivity.
  split; [exact Hrun|].
  exact (proj1 (build_index_replaces_everything _ _ _ _ Hrun)).
Defined.

(** A successful [add_commands] on a retriever whose vectors are the
    embeddings of its commands appends: the old commands stay in
    front, in their order, the new ones follow, each with its vector;
    the number of vectors grows by the number of new commands; and the
    metadata counts the whole list. *)
Theorem add_commands_appends (new_commands : list string) (save : bool)
    (w w' : world) :
  aligned (self w) ->
  add_commands new_commands save w = (Py.Ok tt, w') ->
  commands (self w') = (commands (self w) ++ new_commands)%list
  /\ aligned (self w')
  /\ vector_count (self w')
     = (vector_count (self w) + List.length new_commands)%nat
  /\ (new_commands <> [] ->
      metadata (self w') !! "num_commands"
      = Some (MInt (Z.of_nat
                      (List.length (commands (self w) ++ new_commands))))).
Proof.
  intros Hal. unfold add_commands.
  destruct new_commands as [|c cs].
  - intros [= <-]. rewrite app_nil_r, Nat.add_0_r.
    split; [reflexivity|]. split; [exact Hal|]. split; [reflexivity|].
    congruence.
  - unfold aligned in Hal. unfold vector_count at 2.
    destruct (index (self w)) as [i|] eqn:Hi.
    + set (r := set_metadata _ _).
      assert (Hr : commands r = (commands (self w) ++ c :: cs)%list
                   /\ aligned r
                   /\ vector_count r
                      = (Faiss.ntotal i + List.length (c :: cs))%nat
                   /\ metadata r !! "num_commands"
                      = Some (MInt (Z.of_nat
                                      (List.length
                                         (commands (self w) ++ c :: cs))))).
      { subst r.
        unfold aligned, vector_count, set_metadata, set_commands, set_index.
        cbn [index commands metadata embedder].
        split; [reflexivity|]. split; [|split].
        - unfold Faiss.add. cbn [Faiss.xb]. rewrite Hal.
          unfold Embedder.embed. rewrite map_app. reflexivity.
        - rewrite RetrieverFacts.ntotal_add, RetrieverFacts.embed_length.
          reflexivity.
        - apply lookup_insert_eq. }
      destruct save.
      * intros Hsave. apply RetrieverFacts.save_index_ok in Hsave as [Hself _].
        simpl in Hself. rewrite Hself. tauto.
      * intros [= <-]. cbn [self with_self]. tauto.
    + intros Hbuild. rewrite Hal. cbn [app].
      apply build_index_replaces_everything in Hbuild
        as (Hc & Ha & Hm & _ & Hn).
      split; [exact Hc|]. split; [exact Ha|]. split.
      * apply aligned_parallel in Ha. unfold parallel in Ha.
        rewrite <- Ha, Hc. reflexivity.
      * intros _. exact Hm.
Qed.

Lemma add_commands_appends_witness :
  aligned (self (Examples.saved ["north"]))
  /\ add_commands ["east"; "south"] true (Examples.saved ["north"])
     = (Py.Ok tt,
        snd (add_commands ["east"; "south"] true (Examples.saved ["north"])))
  /\ commands
       (self (snd (add_commands ["east"; "south"] true (Examples.saved ["north"]))))
     = ["north"; "east"; "south"].
Proof.
  assert (Hal : aligned (self (Examples.saved ["north"]))) by reflexivity.
  assert (Hrun : add_commands ["east"; "south"] true (Examples.saved ["north"])
                 = (Py.Ok tt,
                    snd (add_commands ["east"; "south"] true
                           (Examples.saved ["north"]))))
    by reflexivity.
  split; [exact Hal|]. split; [exact Hrun|].
  exact (proj1 (add_commands_appends _ _ _ _ Hal Hrun)).
Defined.

(** *** A query that is an indexed command *)

(** On a retriever whose vectors are the embeddings of its commands, a
    search without context for a text that is one of the commands puts
    at rank 0 a command whose embedding is at distance 0 from the
    query's, with score 1. *)
Theorem search_finds_an_indexed_command (query : string) (k : Z) (w : world)
    (i : Faiss.IndexFlatL2) :
  index (self w) = Some i ->
  aligned (self w) ->
  In query (commands (self w)) ->
  (0 < k)%Z ->
  exists top rest,
    search query k None w = (Py.Ok (top :: rest), w)
    /\ Model.rank top = 0%nat
    /\ Model.score top == 1
    /\ In (Model.command top) (commands (self w))
    /\ Faiss.sqdist (Embedder.embed_text (embedder (self w)) query)
         (Embedder.embed_text (embedder (self w)) (Model.command top))
       == 0.
Proof.
  intros Hi Hal Hquery Hk.
  pose proof (aligned_parallel _ Hal) as Hpar.
  unfold parallel, vector_count in Hpar. unfold aligned in Hal.
  rewrite Hi in Hpar, Hal.
  assert (Hsome : Faiss.ntotal i <> 0%nat).
  { rewrite <- Hpar. destruct (commands (self w)); [contradiction|discriminate]. }
  destruct (search_rows query k None w i Hi Hpar Hsome Hk)
    as (rows & Hrows & Hin & ->).
  change (Embedder.embed_command (embedder (self w)) query None)
    with (Embedder.embed_text (embedder (self w)) query) in *.
  set (q := Embedder.embed_text (embedder (self w)) query) in *.
  set (table := combine (map (Faiss.sqdist q) (Faiss.xb i))
                  (seq 0 (Faiss.ntotal i))) in Hrows.
  set (sorted := Py.sorted_desc (fun p : Q * nat => - fst p) table) in Hrows.
  (* the row of the query itself *)
  assert (Hzero : exists idx, In (Faiss.sqdist q q, idx) sorted).
  { assert (Hq : In q (Faiss.xb i)).
    { rewrite Hal. unfold Embedder.embed. apply in_map. exact Hquery. }
    destruct (table_holds (Faiss.sqdist q) (Faiss.xb i) 0 q Hq) as (idx & Hidx).
    exists idx. eapply Permutation_in;
      [apply Permutation_sym, PyFacts.sorted_desc_perm | exact Hidx]. }
  destruct Hzero as (idx & Hzero).
  pose proof (PyFacts.sorted_desc_descending (fun p : Q * nat => - fst p) table)
    as Hdesc.
  fold sorted in Hdesc.
  destruct sorted as [|p0 tl] eqn:Hsorted; [contradiction|].
  assert (Hk' : exists n, Z.to_nat (Z.min k (Z.of_nat (Faiss.ntotal i))) = S n).
  { exists (Nat.pred (Z.to_nat (Z.min k (Z.of_nat (Faiss.ntotal i))))). lia. }
  destruct Hk' as (n & Hn). rewrite Hn in Hrows. cbn [firstn] in Hrows.
  subst rows. cbn [List.length seq combine map].
  destruct (Hin p0 (or_introl eq_refl)) as (v & Hv & Hd & Hlt).
  assert (Hp0 : fst p0 == 0).
  { assert (Hle : fst p0 <= Faiss.sqdist q q).
    { destruct Hzero as [->|Htl]; [apply Qle_refl|].
      apply StronglySorted_inv in Hdesc as [_ Hall].
      rewrite List.Forall_forall in Hall. specialize (Hall _ Htl).
      simpl in Hall. lra. }
    rewrite sqdist_self in Hle.
    assert (Hge : 0 <= fst p0) by (rewrite Hd; apply sqdist_nonneg).
    lra. }
  eexists. eexists. split; [reflexivity|]. cbn [Model.rank Model.score
    Model.command fst snd].
  split; [reflexivity|]. split.
  - rewrite similarity_form, Hp0. reflexivity.
  - split; [apply nth_In; exact Hlt|].
    rewrite Hal in Hv. unfold Embedder.embed in Hv.
    rewrite nth_error_map in Hv.
    rewrite (nth_error_nth' (commands (self w)) "" Hlt) in Hv.
    injection Hv as <-. rewrite <- Hd. exact Hp0.
Qed.

Lemma search_finds_an_indexed_command_witness :
  index (self (Examples.built ["east"; "north"; "south"]))
  = Some (Faiss.add (Faiss.new 384)
            (Embedder.embed Examples.compass ["east"; "north"; "south"]))
  /\ aligned (self (Examples.built ["east"; "north"; "south"]))
  /\ In "north" (commands (self (Examples.built ["east"; "north"; "south"])))
  /\ (0 < 2)%Z
  /\ exists top rest,
       search "north" 2 None (Examples.built ["east"; "north"; "south"])
       = (Py.Ok (top :: rest), Examples.built ["east"; "north"; "south"])
       /\ Model.score top == 1.
Proof.
  assert (Hi : index (self (Examples.built ["east"; "north"; "south"]))
               = Some (Faiss.add (Faiss.new 384)
                         (Embedder.embed Examples.compass
                            ["east"; "north"; "south"])))
    by reflexivity.
  assert (Hal : aligned (self (Examples.built ["east"; "north"; "south"])))
    by reflexivity.
  assert (Hq : In "north"
                 (commands (self (Examples.built ["east"; "north"; "south"]))))
    by (right; left; reflexivity).
  assert (Hk : (0 < 2)%Z) by lia.
  split; [exact Hi|]. split; [exact Hal|]. split; [exact Hq|].
  split; [exact Hk|].
  destruct (search_finds_an_indexed_command "north" 2 _ _ Hi Hal Hq Hk)
    as (top & rest & Hrun & _ & Hscore & _).
  exists top, rest. split; [exact Hrun | exact Hscore].
Defined.

(** *** Saving and loading *)

(** What [save_index] wrote, a new retriever loads back: the same
    index, commands and metadata. *)
Theorem saved_index_loads_back (w w' : world) (e : Embedder.t) :
  save_index w = (Py.Ok tt, w') ->
  exists r,
    load_index {| self := __init__ e; fs := fs w' |}
    = (Py.Ok true, {| self := r; fs := fs w' |})
    /\ index r = index (self w)
    /\ commands r = commands (self w)
    /\ metadata r = metadata (self w)
    /\ get_retriever e (fs w') = {| self := r; fs := fs w' |}.
Proof.
  unfold save_index. destruct (writable (fs w)); [|discriminate].
  destruct (index (self w)) as [i|] eqn:Hi; [|discriminate].
  intros [= <-]. eexists. split; [reflexivity|].
  repeat split; reflexivity.
Qed.

Lemma saved_index_loads_back_witness :
  save_index (Examples.built ["north"; "east"])
  = (Py.Ok tt, snd (save_index (Examples.built ["north"; "east"])))
  /\ commands
       (self (get_retriever Examples.compass
                (fs (snd (save_index (Examples.built ["north"; "east"]))))))
     = ["north"; "east"].
Proof.
  assert (Hrun : save_index (Examples.built ["north"; "east"])
                 = (Py.Ok tt, snd (save_index (Examples.built ["north"; "east"]))))
    by reflexivity.
  split; [exact Hrun|].
  destruct (saved_index_loads_back _ _ Examples.compass Hrun)
    as (r & _ & _ & Hc & _ & Hget).
  rewrite Hget. exact Hc.
Defined.

(** *** The endpoint [/rebuild-index] *)

(** The endpoint answers with status 500 exactly when the list is
    empty or the disk refuses the write.  On an empty list nothing is
    touched.  When only the write fails the answer is 500 all the same,
    but the retriever in memory already holds the new commands and
    their vectors.  Otherwise the body counts the commands given. *)
Theorem rebuild_index_answers (cmds : list string) (w : world) :
  (fst (App.rebuild_index cmds w) = App.Status500
   <-> cmds = [] \/ writable (fs w) = false)
  /\ (cmds = [] -> snd (App.rebuild_index cmds w) = w)
  /\ (cmds <> [] ->
      commands (self (snd (App.rebuild_index cmds w))) = cmds
      /\ aligned (self (snd (App.rebuild_index cmds w))))
  /\ (forall body,
        fst (App.rebuild_index cmds w) = App.Body body ->
        num_commands (App.rebuild_stats body) = Some (List.length cmds)
        /\ loaded (App.rebuild_stats body) = true).
Proof.
  unfold App.rebuild_index, build_index.
  destruct cmds as [|c cs].
  - simpl. repeat split; intros; try discriminate; try tauto; congruence.
  - set (r := set_metadata _ _).
    assert (Hr : commands r = c :: cs /\ aligned r
                 /\ num_commands (get_stats r) = Some (List.length (c :: cs))
                 /\ loaded (get_stats r) = true).
    { subst r. unfold aligned, get_stats, set_metadata, set_commands, set_index.
      cbn [index commands metadata embedder loaded num_commands].
      split; [reflexivity|]. split; [reflexivity|]. split; [|reflexivity].
      rewrite RetrieverFacts.ntotal_add, RetrieverFacts.embed_length.
      reflexivity. }
    unfold save_index. cbn [fs with_self self].
    destruct (writable (fs w)) eqn:Hw.
    + replace (index r) with (Some (Faiss.add (Faiss.new (dimension (self w)))
                 (Embedder.embed (embedder (self w)) (c :: cs))))
        by reflexivity.
      cbn [fst snd self].
      split; [split; [discriminate | intros [?|?]; discriminate]|].
      split; [discriminate|]. split; [intros _; tauto|].
      intros body [= <-]. cbn [App.rebuild_stats]. tauto.
    + cbn [fst snd self with_self].
      split; [split; [auto | reflexivity]|].
      split; [discriminate|]. split; [intros _; tauto|].
      intros body Hbody. discriminate Hbody.
Qed.

End RetrieverMore.

(** ** More on the error fixer *)

Module ErrorFixerMore.

Import ErrorFixer.

Local Open Scope Q_scope.

(** Closes a comparison of two numbers, or a choice between several. *)
Ltac choose :=
  solve [ apply Qle_bool_iff; vm_compute; reflexivity
        | vm_compute; reflexivity
        | left; choose
        | right; choose ].

(** The cap at 1.0 is never reached: a confidence is at least 0.7 and
    stays below 1.  It does not depend on the error message, and
    giving the last command never lowers it. *)
Theorem confidence_stays_below_the_cap
    (pattern error_message other_message : string)
    (last_command : option string) :
  0.7 <= _calculate_confidence pattern error_message last_command
  /\ _calculate_confidence pattern error_message last_command < 1
  /\ _calculate_confidence pattern other_message last_command
     = _calculate_confidence pattern error_message last_command
  /\ _calculate_confidence pattern error_message None
     <= _calculate_confidence pattern error_message last_command.
Proof.
  split; [|split; [|split; [reflexivity|]]];
    unfold _calculate_confidence;
    (destruct last_command as [last_command|];
     [ destruct (String.eqb last_command "");
       [ destruct (30 <? String.length pattern)%nat; choose
       | destruct (30 <? String.length pattern)%nat;
         destruct (Py.str_in "git" pattern && Py.str_in "git" last_command);
         destruct (Py.str_in "npm" pattern && Py.str_in "npm" last_command);
         destruct (Py.str_in "docker" pattern
                   && Py.str_in "docker" last_command);
         destruct (Py.str_in "pip" pattern && Py.str_in "pip" last_command);
         choose ]
     | destruct (30 <? String.length pattern)%nat; choose ]).
Qed.

Lemma default_patterns_in_fragment :
  List.Forall (fun e => Re.in_fragment (pattern e) = true) default_patterns.
Proof. repeat constructor. Qed.

(** For an error message written in ASCII and a store whose patterns
    are ASCII text in the fragment of [Re], as the ten default
    patterns are, the matches do not depend on the letter case of the
    error message, nor does the quick fix. *)
Theorem find_fixes_ignores_case (error_patterns : list pattern_entry)
    (error_message : string) (last_command : option string) :
  Py.isascii error_message = true ->
  List.Forall (fun e => Re.in_fragment (pattern e) = true) error_patterns ->
  @find_fixes fragment_engine error_patterns (Py.lower error_message)
    last_command
  = @find_fixes fragment_engine error_patterns error_message last_command
  /\ @get_quick_fix fragment_engine error_patterns (Py.lower error_message)
       last_command
     = @get_quick_fix fragment_engine error_patterns error_message
         last_command.
Proof.
  intros _ _.
  assert (Hfind :
    @find_fixes fragment_engine error_patterns (Py.lower error_message)
      last_command
    = @find_fixes fragment_engine error_patterns error_message last_command).
  { unfold find_fixes, collect_matches. f_equal.
    apply flat_map_ext. intros e.
    unfold re_search, fragment_engine.
    rewrite ReFacts.search_ignorecase_lower. reflexivity. }
  split; [exact Hfind|].
  unfold get_quick_fix. rewrite Hfind. reflexivity.
Qed.

Lemma find_fixes_ignores_case_witness :
  Py.isascii "NPM ERR! EACCES: Permission Denied, mkdir" = true
  /\ List.Forall (fun e => Re.in_fragment (pattern e) = true) default_patterns
  /\ @find_fixes fragment_engine default_patterns
       (Py.lower "NPM ERR! EACCES: Permission Denied, mkdir") None
     = @find_fixes fragment_engine default_patterns
         "NPM ERR! EACCES: Permission Denied, mkdir" None.
Proof.
  split; [reflexivity|]. split; [exact default_patterns_in_fragment|].
  exact (proj1 (find_fixes_ignores_case default_patterns
                  "NPM ERR! EACCES: Permission Denied, mkdir" None
                  eq_refl default_patterns_in_fragment)).
Defined.

Section WithEngine.
Context `{regex_engine}.

(** Every match found stems from one of the patterns. *)
Lemma find_fixes_origin (error_patterns : list pattern_entry)
    (error_message : string) (last_command : option string)
    (m : error_match) :
  In m (find_fixes error_patterns error_message last_command) ->
  exists e, In e error_patterns
            /\ hits error_message e = true
            /\ m = build_match e error_message last_command.
Proof.
  unfold find_fixes. intros Hm.
  eapply Permutation_in in Hm; [|apply PyFacts.sorted_desc_perm].
  rewrite ErrorFixerFacts.collect_matches_hits in Hm.
  apply in_map_iff in Hm as (e & <- & He).
  apply filter_In in He as [He Hhit]. exists e. tauto.
Qed.

(** When every pattern of the store carries a fix and the engine
    answers every search (with a match, without one, or with
    [re.error]), [get_quick_fix] returns the first fix of the first
    match, or none without a match, and the endpoint answers with the
    matches. *)
Lemma quick_fix_of_answering_engine (error_patterns : list pattern_entry)
    (error_message : string) (last_command : option string) :
  List.Forall (fun e => fixes e <> []) error_patterns ->
  exists quick,
    get_quick_fix error_patterns error_message last_command = Py.Ok quick
    /\ App.fix_error error_patterns error_message last_command
       = App.Body
           {| App.fix_success := true;
              App.fix_fixes :=
                find_fixes error_patterns error_message last_command;
              App.quick_fix := quick;
              App.fix_error_message := error_message |}
    /\ quick
       = match find_fixes error_patterns error_message last_command with
         | m :: _ => head (match_fixes m)
         | [] => None
         end.
Proof.
  intros Hall. unfold App.fix_error, get_quick_fix.
  destruct (find_fixes error_patterns error_message last_command)
    as [|m rest] eqn:Hfound.
  - exists None. repeat split.
  - assert (Hm : In m (find_fixes error_patterns error_message last_command))
      by (rewrite Hfound; left; reflexivity).
    pose proof (ErrorFixerFacts.find_fixes_at_least _ _ _ _ Hm) as Hlow.
    apply find_fixes_origin in Hm as (e & He & _ & ->).
    rewrite List.Forall_forall in Hall. specialize (Hall e He).
    assert (Hover : Qle_bool (confidence (build_match e error_message
                                            last_command)) 0.6 = false).
    { destruct (Qle_bool _ 0.6) eqn:E; [|reflexivity].
      apply Qle_bool_iff in E. exfalso. lra. }
    rewrite Hover. cbn [negb build_match match_fixes].
    destruct (fixes e) as [|f more]; [congruence|].
    exists (Some f). repeat split.
Qed.

End WithEngine.

Lemma default_patterns_carry_fixes :
  List.Forall (fun e => fixes e <> []) default_patterns.
Proof. repeat constructor; discriminate. Qed.

(** For a store whose entries each hold a pattern, a category, a
    description and at least one fix, and whose patterns are ASCII text
    in the fragment of [Re] (on which [re.search] raises nothing), as
    is the case of the ten default entries: [get_quick_fix] never
    raises and the endpoint [/fix-error] never answers with status
    500, whatever the error message and the last command.  Its body
    holds the matches of [find_fixes] and, as quick fix, the first fix
    of the first match, or none without a match. *)
Theorem quick_fix_with_fixes_everywhere (error_patterns : list pattern_entry)
    (error_message : string) (last_command : option string) :
  List.Forall (fun e => Re.in_fragment (pattern e) = true) error_patterns ->
  List.Forall (fun e => fixes e <> []) error_patterns ->
  exists quick,
    @get_quick_fix fragment_engine error_patterns error_message last_command
    = Py.Ok quick
    /\ @App.fix_error fragment_engine error_patterns error_message
         last_command
       = App.Body
           {| App.fix_success := true;
              App.fix_fixes :=
                @find_fixes fragment_engine error_patterns error_message
                  last_command;
              App.quick_fix := quick;
              App.fix_error_message := error_message |}
    /\ quick
       = match @find_fixes fragment_engine error_patterns error_message
                 last_command with
         | m :: _ => head (match_fixes m)
         | [] => None
         end.
Proof.
  intros _ Hall.
  exact (@quick_fix_of_answering_engine fragment_engine error_patterns
           error_message last_command Hall).
Qed.

Lemma quick_fix_with_fixes_everywhere_witness :
  List.Forall (fun e => Re.in_fragment (pattern e) = true) default_patterns
  /\ List.Forall (fun e => fixes e <> []) default_patterns
  /\ exists quick,
       @get_quick_fix fragment_engine default_patterns
         "bash: foo: command not found" None
       = Py.Ok quick.
Proof.
  split; [exact default_patterns_in_fragment|].
  split; [exact default_patterns_carry_fixes|].
  destruct (quick_fix_with_fixes_everywhere default_patterns
              "bash: foo: command not found" None
              default_patterns_in_fragment default_patterns_carry_fixes)
    as (quick & Hquick & _).
  exists quick. exact Hquick.
Defined.

(** Loading the store never raises when the store exists or can be
    written.  A missing store is created with the ten default patterns,
    which are then held; a store that does not parse, or has no key
    ["patterns"], leaves no pattern and is not repaired; and loading
    again gives the same patterns. *)
Theorem load_error_database_settles (w : fixer) :
  (ERROR_FIXES_DB w <> Retriever.Missing \/ store_writable w = true ->
   fst (load_error_database w) = Py.Ok tt
   /\ load_error_database (snd (load_error_database w))
      = (Py.Ok tt, snd (load_error_database w)))
  /\ (ERROR_FIXES_DB w = Retriever.Missing -> store_writable w = true ->
      error_patterns (snd (load_error_database w)) = default_patterns
      /\ ERROR_FIXES_DB (snd (load_error_database w))
         = Retriever.Stored (Some default_patterns)
      /\ List.length default_patterns = 10%nat)
  /\ (ERROR_FIXES_DB w = Retriever.Unreadable
      \/ ERROR_FIXES_DB w = Retriever.Stored None ->
      error_patterns (snd (load_error_database w)) = []
      /\ ERROR_FIXES_DB (snd (load_error_database w)) = ERROR_FIXES_DB w)
  /\ (ERROR_FIXES_DB w = Retriever.Missing -> store_writable w = false ->
      load_error_database w = (Py.Raise Py.OSError, w)).
Proof.
  destruct w as [ps [| |data] [|]];
    unfold load_error_database, _create_default_database;
    cbn [ERROR_FIXES_DB store_writable error_patterns fst snd default].
  - (* missing, writable *)
    split; [intros _; split; reflexivity|].
    split; [intros _ _; repeat split; reflexivity|].
    split; [intros [H|H]; discriminate H | intros _ H; discriminate H].
  - (* missing, not writable *)
    split; [intros [H|H]; [congruence | discriminate H]|].
    split; [intros _ H; discriminate H|].
    split; [intros [H|H]; discriminate H | reflexivity].
  - split; [intros _; split; reflexivity|].
    split; [intros H; discriminate H|].
    split; [intros _; split; reflexivity | intros H; discriminate H].
  - split; [intros _; split; reflexivity|].
    split; [intros H; discriminate H|].
    split; [intros _; split; reflexivity | intros H; discriminate H].
  - split; [intros _; split; reflexivity|].
    split; [intros H; discriminate H|].
    split; [|intros H; discriminate H].
    intros [H|H]; [discriminate H|]. injection H as ->. split; reflexivity.
  - split; [intros _; split; reflexivity|].
    split; [intros H; discriminate H|].
    split; [|intros H; discriminate H].
    intros [H|H]; [discriminate H|]. injection H as ->. split; reflexivity.
Qed.

Lemma load_error_database_settles_witness :
  fst (__init__ Retriever.Missing true) = Py.Ok tt
  /\ error_patterns (snd (__init__ Retriever.Missing true)) = default_patterns.
Proof.
  split.
  - exact (proj1 (proj1 (load_error_database_settles
                           {| error_patterns := [];
                              ERROR_FIXES_DB := Retriever.Missing;
                              store_writable := true |})
                   (or_intror eq_refl))).
  - exact (proj1 (proj1 (proj2 (load_error_database_settles
                                  {| error_patterns := [];
                                     ERROR_FIXES_DB := Retriever.Missing;
                                     store_writable := true |}))
                   eq_refl eq_refl)).
Defined.

End ErrorFixerMore.

(** ** More on the suggestion engine *)

Module EngineMore.

Import SuggestionEngine.

Lemma sublist_In {A : Type} (l1 l2 : list A) :
  sublist l1 l2 -> forall x, In x l1 -> In x l2.
Proof.
  induction 1 as [|y l1 l2 _ IH|y l1 l2 _ IH]; intros x Hx.
  - exact Hx.
  - destruct Hx as [->|Hx]; [left; reflexivity | right; apply IH; exact Hx].
  - right. apply IH. exact Hx.
Qed.

Lemma faiss_search_raises (i : Faiss.IndexFlatL2) (x : Embedder.vector)
    (k : Z) (e : Py.exn) :
  Faiss.search i x k = Py.Raise e -> e = Py.AssertionError.
Proof.
  unfold Faiss.search. destruct (k <=? 0)%Z; [|discriminate].
  intros [= <-]. reflexivity.
Qed.

(** With an index, [search] raises no [RuntimeError]. *)
Lemma search_with_index (query : string) (k : Z)
    (context : option Model.context) (w : Retriever.world)
    (i : Faiss.IndexFlatL2) (msg : string) :
  Retriever.index (Retriever.self w) = Some i ->
  fst (Retriever.search query k context w) <> Py.Raise (Py.RuntimeError msg).
Proof.
  intros Hi. unfold Retriever.search. rewrite Hi.
  destruct (Faiss.ntotal i =? 0)%nat; [discriminate|].
  destruct (Faiss.search _ _ _) as [[distances indices]|e] eqn:Hfound;
    [discriminate|].
  apply faiss_search_raises in Hfound as ->. discriminate.
Qed.

Lemma rank_length (candidates : list Model.candidate) (ctx : Model.context)
    (max_results : Z) :
  (List.length (Ranker.rank candidates ctx max_results)
   <= List.length candidates)%nat
  /\ ((0 <= max_results)%Z ->
      (Z.of_nat (List.length (Ranker.rank candidates ctx max_results))
       <= max_results)%Z).
Proof.
  split.
  - unfold Ranker.rank. destruct candidates as [|c cs]; [reflexivity|].
    unfold Py.slice_to.
    destruct (0 <=? max_results)%Z;
      rewrite length_firstn, PyFacts.sorted_desc_length, length_map; lia.
  - intros Hmax. rewrite RankerFacts.rank_unfold by exact Hmax.
    rewrite length_firstn. lia.
Qed.

Lemma ranked_list_length (cfg : config) (candidates : list Model.candidate)
    (ctx : Model.context) (max_suggestions : Z) :
  List.length (ranked_list cfg candidates ctx max_suggestions)
  = List.length (Ranker.rank candidates ctx max_suggestions).
Proof.
  unfold ranked_list. destruct (ENABLE_SAFETY_CHECK cfg);
    [apply length_map | reflexivity].
Qed.

Lemma ranked_list_safety (cfg : config) (candidates : list Model.candidate)
    (ctx : Model.context) (max_suggestions : Z) (s : Model.suggestion) :
  In s (ranked_list cfg candidates ctx max_suggestions) ->
  Model.safety s
  = if ENABLE_SAFETY_CHECK cfg
    then Some (Safety.check_command (command_of s))
    else None.
Proof.
  unfold ranked_list. destruct (ENABLE_SAFETY_CHECK cfg); intros Hs.
  - apply in_map_iff in Hs as (s0 & <- & _). reflexivity.
  - apply RankerMore.rank_entries in Hs as (c & _ & ->). reflexivity.
Qed.

(** Without an index, and once the context [ctx] has been extracted,
    the engine answers with a failure that carries the message of the
    [RuntimeError], the context and no suggestion, and leaves the
    retriever alone; the endpoint [/suggest] turns that answer into
    the status 500. *)
Lemma get_suggestions_without_index (cfg : config) (query : string)
    (ctx : Model.context) (max_suggestions : Z) (w : Retriever.world) :
  Retriever.index (Retriever.self w) = None ->
  get_suggestions cfg query ctx max_suggestions w
  = (Py.Ok {| success := false;
              error := Some "Index not loaded. Call load_index() or build_index() first.";
              suggestions := []; context := ctx; message := None;
              total_candidates := None |}, w)
  /\ App.get_suggestions cfg query ctx max_suggestions w = (App.Status500, w).
Proof.
  intros Hi.
  assert (Hrun : get_suggestions cfg query ctx max_suggestions w
    = (Py.Ok {| success := false;
                error := Some "Index not loaded. Call load_index() or build_index() first.";
                suggestions := []; context := ctx; message := None;
                total_candidates := None |}, w)).
  { unfold get_suggestions, Retriever.search. rewrite Hi. reflexivity. }
  split; [exact Hrun|].
  unfold App.get_suggestions. rewrite Hrun. reflexivity.
Qed.

(** Whatever [get_suggestions] answers, the retriever and the disk are
    untouched and the context is handed back; the answer is a success
    exactly when there is an index; each suggestion carries the safety
    assessment of its own command when the check is enabled, and none
    otherwise; there are no more suggestions than candidates found,
    and, for a limit that is not negative, no more than the limit. *)
Theorem get_suggestions_answer (cfg : config) (query : string)
    (ctx : Model.context) (max_suggestions : Z) (w w' : Retriever.world)
    (resp : response) :
  get_suggestions cfg query ctx max_suggestions w = (Py.Ok resp, w') ->
  w' = w
  /\ context resp = ctx
  /\ (success resp = true <-> Retriever.index (Retriever.self w) <> None)
  /\ List.Forall
       (fun s =>
          Model.safety s
          = if ENABLE_SAFETY_CHECK cfg
            then Some (Safety.check_command (command_of s))
            else None)
       (suggestions resp)
  /\ (forall n, total_candidates resp = Some n ->
        (List.length (suggestions resp) <= n)%nat)
  /\ ((0 <= max_suggestions)%Z ->
      (Z.of_nat (List.length (suggestions resp)) <= max_suggestions)%Z).
Proof.
  intros Hrun.
  pose proof (EngineFacts.get_suggestions_filtered _ _ _ _ _ _ _ Hrun) as Hsug.
  pose proof (RetrieverFacts.search_keeps_world query (TOP_K_CANDIDATES cfg)
                (Some ctx) w) as Hsame.
  destruct (Retriever.index (Retriever.self w)) as [i|] eqn:Hi.
  - (* an index: the search does not raise RuntimeError *)
    pose proof (fun msg => search_with_index query (TOP_K_CANDIDATES cfg)
                  (Some ctx) w i msg Hi) as Hno.
    unfold get_suggestions in Hrun.
    destruct (Retriever.search query (TOP_K_CANDIDATES cfg) (Some ctx) w)
      as [[candidates|e] w1].
    + simpl in Hsame, Hsug. subst w1.
      assert (Hlen : (List.length (suggestions resp)
                      <= List.length
                           (Ranker.rank candidates ctx max_suggestions))%nat).
      { rewrite Hsug, <- (ranked_list_length cfg).
        apply sublist_length, EngineFacts.filter_duplicates_sublist. }
      assert (Hsafe : List.Forall
                (fun s =>
                   Model.safety s
                   = if ENABLE_SAFETY_CHECK cfg
                     then Some (Safety.check_command (command_of s))
                     else None)
                (suggestions resp)).
      { apply List.Forall_forall. intros s Hs. rewrite Hsug in Hs.
        eapply ranked_list_safety.
        eapply (sublist_In _ _ (EngineFacts.filter_duplicates_sublist _ ∅)).
        exact Hs. }
      destruct (rank_length candidates ctx max_suggestions) as [Hall Hmax].
      destruct candidates as [|c cs]; injection Hrun as <- <-;
        cbn [context success total_candidates suggestions] in *.
      * split; [reflexivity|]. split; [reflexivity|].
        split; [split; [discriminate | reflexivity]|].
        split; [constructor|]. split.
        -- intros n Hn. discriminate Hn.
        -- intros H0. simpl. exact H0.
      * split; [reflexivity|]. split; [reflexivity|].
        split; [split; [discriminate | reflexivity]|].
        split; [exact Hsafe|]. split.
        -- intros n [= <-]. eapply Nat.le_trans; [exact Hlen | exact Hall].
        -- intros H0. specialize (Hmax H0).
           eapply Z.le_trans; [|exact Hmax]. apply Nat2Z.inj_le. exact Hlen.
    + destruct e; try discriminate Hrun.
      exfalso. eapply Hno. reflexivity.
  - destruct (get_suggestions_without_index cfg query ctx max_suggestions w Hi)
      as [Hfail _].
    rewrite Hfail in Hrun. injection Hrun as <- <-.
    cbn [context success total_candidates suggestions].
    split; [reflexivity|]. split; [reflexivity|].
    split; [split; [discriminate | congruence]|].
    split; [constructor|]. split.
    + intros n Hn. discriminate Hn.
    + intros H0. simpl. exact H0.
Qed.

Lemma get_suggestions_answer_witness :
  exists resp w',
    Examples.asked = (Py.Ok resp, w')
    /\ w' = Examples.built ["north"; "east"; "north"; "south"]
    /\ success resp = true.
Proof.
  destruct Examples.asked as [[resp|e] w'] eqn:Hrun.
  - exists resp, w'. split; [reflexivity|].
    destruct (get_suggestions_answer _ _ _ _ _ _ _ Hrun)
      as (Hw & _ & Hsuccess & _).
    split; [exact Hw|]. apply Hsuccess. discriminate.
  - exfalso. vm_compute in Hrun. discriminate Hrun.
Defined.

(** The suggestions depend on the context through four of its keys
    only: the directory type, whether the directory is a git repository,
    the basename of the directory and the file types.  The last command,
    its exit code, the recent commands, the full path and the other git
    information never change what is retrieved or how it is ranked. *)
Theorem suggestions_ignore_history (cfg : config) (query : string)
    (ctx1 ctx2 : Model.context) (max_suggestions : Z) (w : Retriever.world) :
  Model.directory_type ctx1 = Model.directory_type ctx2 ->
  Model.is_git_repo (Model.git ctx1) = Model.is_git_repo (Model.git ctx2) ->
  Model.cwd_basename ctx1 = Model.cwd_basename ctx2 ->
  Model.file_types ctx1 = Model.file_types ctx2 ->
  match fst (get_suggestions cfg query ctx1 max_suggestions w),
        fst (get_suggestions cfg query ctx2 max_suggestions w) with
  | Py.Ok r1, Py.Ok r2 =>
      suggestions r1 = suggestions r2
      /\ success r1 = success r2
      /\ total_candidates r1 = total_candidates r2
  | Py.Raise e1, Py.Raise e2 => e1 = e2
  | _, _ => False
  end.
Proof.
  intros Htype Hgit Hbase Hfiles.
  assert (Hsearch :
    Retriever.search query (TOP_K_CANDIDATES cfg) (Some ctx1) w
    = Retriever.search query (TOP_K_CANDIDATES cfg) (Some ctx2) w).
  { unfold Retriever.search, Embedder.embed_command,
      Embedder._context_to_string.
    rewrite Htype, Hgit, Hbase. reflexivity. }
  assert (Hscore : forall c,
    Ranker.score_candidate ctx1 c = Ranker.score_candidate ctx2 c).
  { intros c. unfold Ranker.score_candidate, Ranker._compute_context_score.
    rewrite Htype, Hgit, Hfiles. reflexivity. }
  assert (Hrank : forall candidates,
    ranked_list cfg candidates ctx1 max_suggestions
    = ranked_list cfg candidates ctx2 max_suggestions).
  { intros candidates. unfold ranked_list, Ranker.rank.
    rewrite (map_ext _ _ Hscore). reflexivity. }
  unfold get_suggestions. rewrite Hsearch.
  destruct (Retriever.search query (TOP_K_CANDIDATES cfg) (Some ctx2) w)
    as [[[|c cs]|e] w1]; cbn [fst].
  - repeat split.
  - cbn [suggestions success total_candidates]. rewrite Hrank. repeat split.
  - destruct e; cbn [fst suggestions success total_candidates];
      repeat split.
Qed.

Lemma suggestions_ignore_history_witness :
  match fst Examples.asked,
        fst (get_suggestions Examples.settings "north" Examples.idle_project 5
               (Examples.built ["north"; "east"; "north"; "south"])) with
  | Py.Ok r1, Py.Ok r2 => suggestions r1 = suggestions r2
  | _, _ => False
  end.
Proof.
  pose proof (suggestions_ignore_history Examples.settings "north"
                Examples.project Examples.idle_project 5
                (Examples.built ["north"; "east"; "north"; "south"])
                eq_refl eq_refl eq_refl eq_refl) as H.
  change (get_suggestions Examples.settings "north" Examples.project 5
            (Examples.built ["north"; "east"; "north"; "south"]))
    with Examples.asked in H.
  destruct (fst Examples.asked) as [r1|e1] eqn:E1;
    [|vm_compute in E1; discriminate E1].
  destruct (fst (get_suggestions Examples.settings "north"
                   Examples.idle_project 5
                   (Examples.built ["north"; "east"; "north"; "south"])))
    as [r2|e2]; [exact (proj1 H) | exact H].
Defined.

End EngineMore.

(** ** Searching before any index was built or loaded *)

Module RetrieverHistory.

Import Retriever.

(** An operation that neither builds nor loads an index leaves the
    disk as it was, never takes an index away, and assigns one in one
    case only: a [load_index] on a pair of files whose sidecar is
    broken. *)
Lemma idle_operation (op : operation) (w : world) :
  builds_or_loads op w = false ->
  fs (snd (run op w)) = fs w
  /\ (index (self w) <> None -> index (self (snd (run op w))) <> None)
  /\ (index (self w) = None ->
      broken_pair (fs w) = false \/ op <> Load ->
      index (self (snd (run op w))) = None)
  /\ (broken_pair (fs w) = true -> op = Load ->
      index (self (snd (run op w))) <> None).
Proof.
  destruct op as [cmds save|cmds save| |query k context];
    cbn [builds_or_loads]; intros Hidle.
  - destruct cmds as [|c cs]; [|discriminate Hidle].
    cbn. repeat split; try tauto. intros _ H; discriminate H.
  - destruct cmds as [|c cs]; [|discriminate Hidle].
    cbn. repeat split; try tauto. intros _ H; discriminate H.
  - revert Hidle. unfold run, load_index, broken_pair.
    destruct w as [r [ix meta wr]]; cbn [fs self FAISS_INDEX_PATH
      METADATA_PATH].
    destruct ix as [| |i]; [| |destruct meta as [| |[[cs|] [m|]]]];
      cbn [json_commands json_metadata fst snd fs self with_self index
           set_index set_commands set_metadata];
      try (destruct meta; cbn [fst snd fs self]);
      intros Hidle; try discriminate Hidle;
      repeat split; try tauto; try congruence;
      (intros _ [H|H]; [discriminate H | congruence]).
  - unfold run.
    destruct (search query k context w) as [r w'] eqn:Hrun.
    assert (Hw : w' = w).
    { pose proof (RetrieverFacts.search_keeps_world query k context w) as H.
      rewrite Hrun in H. exact H. }
    cbn [snd]. subst w'. repeat split; try tauto. intros _ H; discriminate H.
Qed.

(** The same along a history in which no index was ever built or
    loaded. *)
Lemma idle_history (ops : list operation) (w : world) :
  ever_built_or_loaded ops w = false ->
  fs (run_all ops w) = fs w
  /\ (index (self w) <> None -> index (self (run_all ops w)) <> None)
  /\ (index (self w) = None ->
      broken_pair (fs w) = false \/ ~ In Load ops ->
      index (self (run_all ops w)) = None)
  /\ (broken_pair (fs w) = true -> In Load ops ->
      index (self (run_all ops w)) <> None).
Proof.
  revert w. induction ops as [|op ops IH]; intros w Hnever.
  - cbn. repeat split; try tauto.
  - cbn [ever_built_or_loaded] in Hnever.
    apply orb_false_iff in Hnever as [Hop Hrest].
    destruct (idle_operation op w Hop) as (Hfs & Hkeep & Hnone & Hload).
    destruct (IH _ Hrest) as (Hfs' & Hkeep' & Hnone' & Hload').
    cbn [run_all]. rewrite Hfs in *.
    split; [exact Hfs'|]. split; [|split].
    + intros Hi. apply Hkeep', Hkeep, Hi.
    + intros Hi Hclean. apply Hnone'.
      * apply Hnone; [exact Hi|].
        destruct Hclean as [Hclean|Hclean]; [left; exact Hclean|].
        right. intros ->. apply Hclean. left. reflexivity.
      * destruct Hclean as [Hclean|Hclean]; [left; exact Hclean|].
        right. intros Hin. apply Hclean. right. exact Hin.
    + intros Hbroken [->|Hin].
      * apply Hkeep', Hload; [exact Hbroken | reflexivity].
      * apply Hload'; assumption.
Qed.

(** C5, and where the code departs from it.  Take a new retriever and
    any history of operations in which no index was ever built or
    loaded: only [build_index] and [add_commands] on the empty list,
    calls of [load_index] that returned [False], and searches.  Unless
    [load_index] was called on a pair of files whose sidecar is
    broken, [search] raises the [RuntimeError], as claimed.  But after
    a [load_index] on such a pair, which returned [False], [search]
    does not raise it: the index that was read stayed assigned.  And
    whenever there is an index that holds no vector, [search] returns
    the empty list. *)
Theorem search_before_any_index_was_built_or_loaded (e : Embedder.t)
    (files : disk) (ops : list operation) (query : string) (k : Z)
    (context : option Model.context) :
  let new := {| self := __init__ e; fs := files |} in
  ever_built_or_loaded ops new = false ->
  (broken_pair files = false \/ ~ In Load ops ->
   fst (search query k context (run_all ops new))
   = Py.Raise
       (Py.RuntimeError
          "Index not loaded. Call load_index() or build_index() first."))
  /\ (broken_pair files = true -> In Load ops ->
      forall msg,
        fst (search query k context (run_all ops new))
        <> Py.Raise (Py.RuntimeError msg))
  /\ (forall (w : world) (i : Faiss.IndexFlatL2),
        index (self w) = Some i -> Faiss.ntotal i = 0%nat ->
        search query k context w = (Py.Ok [], w)).
Proof.
  intros new Hnever.
  destruct (idle_history ops new Hnever) as (_ & _ & Hnone & Hload).
  split; [|split].
  - intros Hclean.
    rewrite (proj1 (RetrieverFacts.search_guards query k context
                      (run_all ops new))); [reflexivity|].
    apply Hnone; [reflexivity | exact Hclean].
  - intros Hbroken Hin msg.
    destruct (index (self (run_all ops new))) as [i|] eqn:Hi.
    + eapply EngineMore.search_with_index. exact Hi.
    + exfalso. exact (Hload Hbroken Hin eq_refl).
  - intros w i Hi Hzero.
    exact (proj2 (RetrieverFacts.search_guards query k context w) i Hi Hzero).
Qed.

Lemma search_before_any_index_was_built_or_loaded_witness :
  ever_built_or_loaded [Load] (Examples.fresh_on Examples.broken_sidecar_disk)
  = false
  /\ fst (run Load (Examples.fresh_on Examples.broken_sidecar_disk)) = false
  /\ fst (search "north" 10 None
            (run_all [Load] (Examples.fresh_on Examples.broken_sidecar_disk)))
     <> Py.Raise
          (Py.RuntimeError
             "Index not loaded. Call load_index() or build_index() first.")
  /\ fst (search "north" 10 None
            (run_all [Load] (Examples.fresh_on Examples.broken_sidecar_disk)))
     = Py.Ok [].
Proof.
  assert (Hnever : ever_built_or_loaded [Load]
                     (Examples.fresh_on Examples.broken_sidecar_disk)
                   = false) by reflexivity.
  split; [exact Hnever|]. split; [reflexivity|]. split.
  - apply (proj1 (proj2 (search_before_any_index_was_built_or_loaded
                           Examples.compass Examples.broken_sidecar_disk
                           [Load] "north" 10 None Hnever))).
    + reflexivity.
    + left. reflexivity.
  - vm_compute. reflexivity.
Defined.

End RetrieverHistory.

(** ** The directory type *)

Module ExtractorFacts.

Import ContextExtractor.

Lemma split_comma_nonempty (s : string) : Py.split_comma s <> [].
Proof.
  destruct s as [|c s]; simpl; [discriminate|].
  destruct (Py.split_comma s); [discriminate|].
  destruct (Ascii.eqb c ","); discriminate.
Qed.

(** Splitting a field without comma gives that field. *)
Lemma split_comma_field (p : string) :
  Py.str_in "," p = false -> Py.split_comma p = [p].
Proof.
  induction p as [|c p IH]; [reflexivity|].
  cbn [Py.str_in]. intros H. apply orb_false_iff in H as [Hc Hp].
  simpl in Hc. simpl. rewrite (IH Hp).
  destruct (Ascii.eqb_spec c ",") as [->|_]; [|reflexivity].
  destruct p; discriminate Hc.
Qed.

Lemma split_comma_app (p rest : string) :
  Py.str_in "," p = false ->
  Py.split_comma (p ++ String "," rest) = p :: Py.split_comma rest.
Proof.
  induction p as [|c p IH].
  - intros _. simpl.
    destruct (Py.split_comma rest) eqn:E; [|reflexivity].
    exfalso. exact (split_comma_nonempty rest E).
  - cbn [Py.str_in]. intros H. apply orb_false_iff in H as [Hc Hp].
    simpl in Hc.
    change (String c p ++ String "," rest)
      with (String c (p ++ String "," rest)).
    cbn [Py.split_comma]. rewrite (IH Hp).
    destruct (Ascii.eqb_spec c ",") as [->|_]; [|reflexivity].
    destruct p; discriminate Hc.
Qed.

(** Joining with commas and splitting at the commas gives the fields
    back, when there is a field and no field holds a comma. *)
Theorem split_join_comma (parts : list string) :
  parts <> [] ->
  List.Forall (fun p => Py.str_in "," p = false) parts ->
  Py.split_comma (join_comma parts) = parts.
Proof.
  intros Hne Hall. induction Hall as [|p parts Hp Hall IH]; [congruence|].
  destruct parts as [|p2 parts].
  - simpl. apply split_comma_field. exact Hp.
  - change (join_comma (p :: p2 :: parts))
      with (p ++ String "," (join_comma (p2 :: parts))).
    rewrite split_comma_app by exact Hp.
    rewrite IH by discriminate. reflexivity.
Qed.

Lemma split_join_comma_witness :
  ["python"; "docker"] <> []
  /\ List.Forall (fun p => Py.str_in "," p = false) ["python"; "docker"]
  /\ Py.split_comma (join_comma ["python"; "docker"]) = ["python"; "docker"].
Proof.
  assert (Hne : ["python"; "docker"] <> []) by discriminate.
  assert (Hall : List.Forall (fun p => Py.str_in "," p = false)
                   ["python"; "docker"])
    by (repeat constructor).
  split; [exact Hne|]. split; [exact Hall|].
  exact (split_join_comma _ Hne Hall).
Defined.

(** The types detected are some of the seven of the table, each at
    most once and in the order of the table. *)
Lemma detected_types_sublist (entries : list string) :
  sublist (detected_types entries) (map fst markers).
Proof.
  unfold detected_types.
  induction markers as [|[dir_type files] rest IH]; simpl; [constructor|].
  destruct (existsb (marker_found entries) files); simpl.
  - apply sublist_skip. exact IH.
  - apply sublist_cons. exact IH.
Qed.

(** The directory type is never empty.  It is ["general"] exactly when
    no marker is found; otherwise splitting it at the commas gives the
    types detected, which are some of the seven of the table, each at
    most once and in the order of the table. *)
Theorem infer_directory_type_tags (entries : list string) :
  _infer_directory_type entries <> ""
  /\ (detected_types entries = []
      <-> _infer_directory_type entries = "general")
  /\ (detected_types entries <> [] ->
      Py.split_comma (_infer_directory_type entries) = detected_types entries)
  /\ sublist (detected_types entries)
       ["python"; "node"; "rust"; "go"; "java"; "docker"; "terraform"].
Proof.
  pose proof (detected_types_sublist entries) as Hsub.
  change (map fst markers)
    with ["python"; "node"; "rust"; "go"; "java"; "docker"; "terraform"]
    in Hsub.
  assert (Hclean : List.Forall (fun p => Py.str_in "," p = false)
                     (detected_types entries)).
  { apply List.Forall_forall. intros p Hp.
    apply (EngineMore.sublist_In _ _ Hsub) in Hp.
    simpl in Hp. intuition (subst; reflexivity). }
  assert (Hnames : forall p, In p (detected_types entries) ->
                     p <> "" /\ p <> "general"
                     /\ Py.str_in "," p = false).
  { intros p Hp. apply (EngineMore.sublist_In _ _ Hsub) in Hp.
    simpl in Hp. intuition (subst; try discriminate; reflexivity). }
  unfold _infer_directory_type.
  destruct (detected_types entries) as [|t ts] eqn:Hdet.
  - split; [discriminate|]. split; [tauto|]. split; [congruence | exact Hsub].
  - assert (Hsplit : Py.split_comma (join_comma (t :: ts)) = t :: ts)
      by (apply split_join_comma; [discriminate | exact Hclean]).
    split; [|split; [|split; [intros _; exact Hsplit | exact Hsub]]].
    + intros Hempty. rewrite Hempty in Hsplit. simpl in Hsplit.
      injection Hsplit as Ht _.
      destruct (Hnames t (or_introl eq_refl)) as (He & _). congruence.
    + split; [discriminate|]. intros Hgen. exfalso.
      rewrite Hgen in Hsplit. simpl in Hsplit. injection Hsplit as Ht _.
      destruct (Hnames t (or_introl eq_refl)) as (_ & Hg & _). congruence.
Qed.

(** A directory type none of whose tags has patterns in the ranker
    earns no directory bonus, whatever the command; this is so for
    ["general"] and for ["terraform"], which the extractor detects and
    the ranker does not know. *)
Theorem unknown_directory_type_never_matches (command dir_type : string) :
  List.Forall (fun tag => Ranker.type_patterns !! Py.strip tag = None)
    (Py.split_comma dir_type) ->
  Ranker._matches_directory_type command dir_type = false.
Proof.
  unfold Ranker._matches_directory_type, Py.any.
  induction 1 as [|tag tags Htag _ IH]; [reflexivity|].
  simpl. rewrite Htag, IH. reflexivity.
Qed.

Lemma unknown_directory_type_never_matches_witness :
  List.Forall (fun tag => Ranker.type_patterns !! Py.strip tag = None)
    (Py.split_comma (_infer_directory_type ["main.tf"; "README.md"]))
  /\ Ranker._matches_directory_type "terraform apply"
       (_infer_directory_type ["main.tf"; "README.md"]) = false.
Proof.
  assert (Hall : List.Forall
                   (fun tag => Ranker.type_patterns !! Py.strip tag = None)
                   (Py.split_comma
                      (_infer_directory_type ["main.tf"; "README.md"])))
    by (repeat constructor).
  split; [exact Hall|].
  exact (unknown_directory_type_never_matches _ _ Hall).
Defined.

End ExtractorFacts.
